(** * data_prep.py: the tabular cleaning pipeline

  A shallow embedding of [src/data_prep.py] (CSV files in, cleaned
  spreadsheet out) and the proofs of its specification.

  Layout:
  - [Py]       the Python built-ins the script calls on [str] and [dict];
  - [Pandas]   the data frames and the pandas calls the script makes;
  - [Sys]      logging, exceptions and [sys.exit] as a small writer monad,
               and the collaborators of a run (files, parser, writer);
  - [DataPrep] the functions of the script, one definition per function,
               [main] and [process_dataframe] as the sequence of their
               numbered blocks;
  - [Sample]   one concrete environment to run the script on;
  - [Spec]     the vocabulary of the specification;
  - [Table]    rows, labels and traces: the vocabulary of the properties
               of the steps and of whole runs;
  - [Script]   the script as the process runs it: [argparse] and the
               errors of [Path.exists] around [main];
  - the lemmas, grouped by the function they are about.

  Python strings are modelled as [string]; a character stands for the
  code point of the same number, so the model covers headers written in
  U+0000..U+00FF, on which [isspace] and [lower_char] follow CPython. *)

From Stdlib Require Import Bool Arith List ZArith NArith Ascii String Lia.
From Stdlib Require QArith_base.
Import ListNotations.
Open Scope string_scope.
Open Scope bool_scope.

(* ===================================================================== *)
(** ** Python built-ins                                                   *)
(* ===================================================================== *)

Module Py.

(** [str.isspace] on one character: TAB, LF, VT, FF, CR, the separators
    FS, GS, RS, US, the space, NEL (U+0085) and NBSP (U+00A0). *)
Definition isspace (c : ascii) : bool :=
  let n := N_of_ascii c in
  (((9 <=? n) && (n <=? 13)) || ((28 <=? n) && (n <=? 32))
   || (n =? 133) || (n =? 160))%N.

(** [str.lower] on one character: A-Z and the accented capitals
    U+00C0..U+00DE (the multiplication sign U+00D7 apart) move up by 32. *)
Definition lower_char (c : ascii) : ascii :=
  let n := N_of_ascii c in
  if (((65 <=? n) && (n <=? 90))
      || ((192 <=? n) && (n <=? 222) && negb (n =? 215)))%N
  then ascii_of_N (n + 32) else c.

Fixpoint lower (s : string) : string :=
  match s with
  | "" => ""
  | String c t => String (lower_char c) (lower t)
  end.

Fixpoint lstrip (s : string) : string :=
  match s with
  | "" => ""
  | String c t => if isspace c then lstrip t else s
  end.

Fixpoint rstrip (s : string) : string :=
  match s with
  | "" => ""
  | String c t =>
      match rstrip t with
      | "" => if isspace c then "" else String c ""
      | t' => String c t'
      end
  end.

(** [s.strip()] *)
Definition strip (s : string) : string := rstrip (lstrip s).

(** [sub in s] *)
Fixpoint contains (sub s : string) : bool :=
  prefix sub s
  || match s with
     | "" => false
     | String _ t => contains sub t
     end.

(** The scan of [s.replace(old, new)] for a non-empty [old]: [skip]
    counts the characters of a match that are still to be passed over. *)
Fixpoint replace_from (old new s : string) (skip : nat) : string :=
  match s with
  | "" => ""
  | String c t =>
      match skip with
      | S k => replace_from old new t k
      | O =>
          if prefix old s
          then new ++ replace_from old new t (String.length old - 1)
          else String c (replace_from old new t 0)
      end
  end.

Fixpoint interleave (new s : string) : string :=
  match s with
  | "" => ""
  | String c t => String c (new ++ interleave new t)
  end.

(** [s.replace(old, new)]: every non-overlapping occurrence, from the
    left; an empty [old] matches between any two characters. *)
Definition replace (old new s : string) : string :=
  match old with
  | "" => new ++ interleave new s
  | _ => replace_from old new s 0
  end.

(** [s.split(sep)] for a one-character separator. *)
Fixpoint split (sep : ascii) (s : string) : list string :=
  match s with
  | "" => [""]
  | String c t =>
      if Ascii.eqb c sep then "" :: split sep t
      else match split sep t with
           | w :: ws => String c w :: ws
           | [] => [String c ""]
           end
  end.

(** [s.split(sep, 1)] when [sep] occurs in [s]: the text before the
    first separator and the text after it. *)
Fixpoint split_once (sep : ascii) (s : string) : string * string :=
  match s with
  | "" => ("", "")
  | String c t =>
      if Ascii.eqb c sep then ("", t)
      else let (a, b) := split_once sep t in (String c a, b)
  end.

(** [sep.join(ls)] *)
Definition join (sep : string) (ls : list string) : string :=
  String.concat sep ls.

(** A [dict] with [str] keys and values, in insertion order. *)
Definition dict := list (string * string).

(** [d[k] = v] *)
Fixpoint dict_set (d : dict) (k v : string) : dict :=
  match d with
  | [] => [(k, v)]
  | (k', v') :: r =>
      if String.eqb k' k then (k', v) :: r else (k', v') :: dict_set r k v
  end.

(** [d.get(k)] *)
Fixpoint dict_get (d : dict) (k : string) : option string :=
  match d with
  | [] => None
  | (k', v') :: r => if String.eqb k' k then Some v' else dict_get r k
  end.

(** [k in l] for a list of strings *)
Definition mem (k : string) (l : list string) : bool :=
  existsb (String.eqb k) l.

End Py.

Arguments Py.replace : simpl never.

(** Python exceptions: the class name and the message ([str(e)]). *)
Record Exception : Type := mkExc { exc_type : string; exc_msg : string }.

(** The outcome of a library call that may raise. *)
Inductive Exc (A : Type) : Type :=
| Returns (a : A)
| Raises (e : Exception).
Arguments Returns {A} a.
Arguments Raises {A} e.

(* ===================================================================== *)
(** ** pandas: data frames and the calls the script makes                 *)
(* ===================================================================== *)

(** The frames are those of pandas 1.x and 2.x, where a column of text
    has dtype [object] and holds Python values. Each definition models the
    call named in its comment on the frames the script can hand to it. *)
Module Pandas.

(** A cell: the missing marker (NaN, None, NaT) or a Python value. *)
Inductive Cell : Type :=
| CNull
| CStr (s : string)
| CInt (n : Z)
| CFloat (x : QArith_base.Q)
| CBool (b : bool)
| CDate (t : Z).          (* a Timestamp: nanoseconds since the epoch *)

Inductive DType : Type := DObject | DInt64 | DFloat64 | DBool | DDatetime64.

Record Series : Type :=
  mkSeries { label : string; dtype : DType; cells : list Cell }.

(** A frame: its columns, left to right. Labels may repeat. *)
Definition DataFrame : Type := list Series.

Definition is_object (s : Series) : bool :=
  match dtype s with DObject => true | _ => false end.

Definition isnull (c : Cell) : bool :=
  match c with CNull => true | _ => false end.
Definition notnull (c : Cell) : bool := negb (isnull c).

(** [df.columns] *)
Definition columns (df : DataFrame) : list string := map label df.

(** [len(df)]: the number of rows. *)
Definition len (df : DataFrame) : nat :=
  match df with
  | [] => 0
  | s :: _ => List.length (cells s)
  end.

Definition count_label (df : DataFrame) (c : string) : nat :=
  List.length (filter (fun s => String.eqb (label s) c) df).

(** [df.rename(columns=d)]: labels that are keys of [d] are replaced. *)
Definition rename (d : Py.dict) (df : DataFrame) : DataFrame :=
  map (fun s =>
         match Py.dict_get d (label s) with
         | Some new => mkSeries new (dtype s) (cells s)
         | None => s
         end) df.

(** [df.select_dtypes(include=["object"])] *)
Definition select_dtypes_object (df : DataFrame) : DataFrame :=
  filter is_object df.

(** [df[c]]: the column labelled [c]; every such column when the label
    repeats (pandas then returns a frame); [KeyError] when there is none. *)
Definition getitem (df : DataFrame) (c : string) : Exc (list Series) :=
  match filter (fun s => String.eqb (label s) c) df with
  | [] => Raises (mkExc "KeyError" c)
  | sel => Returns sel
  end.

(** [df[key]] for a list of labels that all occur in [df]. *)
Definition getitem_list (df : DataFrame) (key : list string) : list Series :=
  flat_map (fun k => filter (fun s => String.eqb (label s) k) df) key.

(** The check of the [.str] accessor ([StringMethods._validate]): the
    values, nulls apart, must not all be numbers, all be booleans or
    all be timestamps. *)
Definition is_number (c : Cell) : bool :=
  match c with CInt _ | CFloat _ => true | _ => false end.
Definition is_bool (c : Cell) : bool :=
  match c with CBool _ => true | _ => false end.
Definition is_date (c : Cell) : bool :=
  match c with CDate _ => true | _ => false end.

Definition str_accessor_ok (s : Series) : bool :=
  is_object s
  && match filter notnull (cells s) with
     | [] => true
     | vs => negb (forallb is_number vs || forallb is_bool vs
                   || forallb is_date vs)
     end.

(** [s.str.strip()] on one cell: a string is trimmed, anything else
    comes out as the missing marker (the accessor "replaces any
    non-strings in Series with NaNs"). *)
Definition str_strip_cell (c : Cell) : Cell :=
  match c with
  | CStr s => CStr (Py.strip s)
  | _ => CNull
  end.

Definition is_str (c : Cell) : bool :=
  match c with CStr _ => true | _ => false end.

(** The dtype of the result of [.str.strip()]: the results are collected
    in an object array and sent through dtype inference, so that a column
    that holds values, none of them a string, comes back as a float64
    column of NaN; a column with a string in it, or without any value,
    stays an object column. *)
Definition stripped_dtype (l : list Cell) : DType :=
  if existsb notnull l && negb (existsb is_str l) then DFloat64 else DObject.

(** [s.str.strip()] *)
Definition str_strip (s : Series) : Exc Series :=
  if str_accessor_ok s
  then Returns (mkSeries (label s) (stripped_dtype (cells s))
                         (map str_strip_cell (cells s)))
  else Raises (mkExc "AttributeError"
                     "Can only use .str accessor with string values!").

(** [frame.apply(f)]: [f] on every column, left to right. *)
Fixpoint apply (f : Series -> Exc Series) (sel : list Series)
  : Exc (list Series) :=
  match sel with
  | [] => Returns []
  | s :: r =>
      match f s with
      | Raises e => Raises e
      | Returns s' =>
          match apply f r with
          | Raises e => Raises e
          | Returns r' => Returns (s' :: r')
          end
      end
  end.

Fixpoint lookup_series (k : string) (kv : list (string * Series))
  : option Series :=
  match kv with
  | [] => None
  | (k', v) :: r => if String.eqb k' k then Some v else lookup_series k r
  end.

Fixpoint nodupb (l : list string) : bool :=
  match l with
  | [] => true
  | x :: r => negb (Py.mem x r) && nodupb r
  end.

(** [df[key] = value] for a list of labels and a frame: column by
    column when every label of [key] names one column of [df];
    [ValueError] when a label repeats. *)
Definition setitem_list (df : DataFrame) (key : list string)
           (value : list Series) : Exc DataFrame :=
  if nodupb key
     && forallb (fun k => Nat.eqb (count_label df k) 1) key
     && Nat.eqb (List.length value) (List.length key)
  then Returns
         (map (fun s =>
                 match lookup_series (label s) (combine key value) with
                 | Some v => mkSeries (label s) (dtype v) (cells v)
                 | None => s
                 end) df)
  else Raises (mkExc "ValueError" "Columns must be same length as key").

(** [df[c] = v] for a column [v]: the data of every column labelled [c]
    is replaced; a new column is added when there is none. *)
Definition setitem (df : DataFrame) (c : string) (v : Series) : DataFrame :=
  if Py.mem c (columns df)
  then map (fun s => if String.eqb (label s) c
                     then mkSeries c (dtype v) (cells v) else s) df
  else (df ++ [mkSeries c (dtype v) (cells v)])%list.

(** [pd.to_datetime(x, errors="coerce")] on one cell: the missing marker
    and timestamps are kept, any other value is handed to the parser and
    becomes NaT when the parser rejects it. *)
Definition coerce_cell (parse : Cell -> option Z) (c : Cell) : Cell :=
  match c with
  | CNull => CNull
  | CDate t => CDate t
  | _ => match parse c with
         | Some t => CDate t
         | None => CNull
         end
  end.

(** The first value of a column that is not missing. *)
Definition first_value (l : list Cell) : option Cell := find notnull l.

(** The parser that [infer_datetime_format=True] gives to a column: the
    format is guessed from the first value that is not missing, and
    every cell is then read with that format ([guess] and [strptime]);
    when no format comes out of the guess, or the column has no value,
    every cell goes to the general parser [parse]. *)
Definition chosen_parser (guess : Cell -> option string)
           (strptime : string -> Cell -> option Z)
           (parse : Cell -> option Z) (first : option Cell)
  : Cell -> option Z :=
  match first with
  | Some v =>
      match guess v with
      | Some fmt => strptime fmt
      | None => parse
      end
  | None => parse
  end.

(** [pd.to_datetime(df[c], errors="coerce", infer_datetime_format=True)]:
    on a column, every cell through the parser chosen for the column; on
    a frame (the label repeats) the assembly from year, month and day
    columns is refused with [ValueError]. *)
Definition to_datetime (guess : Cell -> option string)
           (strptime : string -> Cell -> option Z)
           (parse : Cell -> option Z) (sel : list Series)
  : Exc Series :=
  match sel with
  | [s] =>
      let parser :=
        chosen_parser guess strptime parse (first_value (cells s)) in
      Returns (mkSeries (label s) DDatetime64
                        (map (coerce_cell parser) (cells s)))
  | _ => Raises (mkExc "ValueError" "cannot assemble with duplicate keys")
  end.

(** Row [i] of the frame; a column that is too short reads as missing. *)
Definition row (df : DataFrame) (i : nat) : list Cell :=
  map (fun s => nth i (cells s) CNull) df.

Fixpoint take_rows (mask : list bool) (l : list Cell) : list Cell :=
  match mask, l with
  | b :: m, x :: t => if b then x :: take_rows m t else take_rows m t
  | _, _ => []
  end.

Definition filter_rows (keep : list Cell -> bool) (df : DataFrame)
  : DataFrame :=
  let mask := map (fun i => keep (row df i)) (seq 0 (len df)) in
  map (fun s => mkSeries (label s) (dtype s) (take_rows mask (cells s))) df.

(** [df.dropna(how="all")] *)
Definition dropna_all (df : DataFrame) : DataFrame :=
  filter_rows (existsb notnull) df.

(** [df.dropna(how="any")] *)
Definition dropna_any (df : DataFrame) : DataFrame :=
  filter_rows (forallb notnull) df.

(** [df.dropna(thresh=n)]: rows with at least [n] values are kept. *)
Definition dropna_thresh (n : Z) (df : DataFrame) : DataFrame :=
  filter_rows
    (fun r => (n <=? Z.of_nat (List.length (filter notnull r)))%Z) df.

Definition fill_cell (v : string) (c : Cell) : Cell :=
  match c with CNull => CStr v | _ => c end.

(** What [Timestamp(v)] makes of a string: a moment, the missing marker
    NaT (for ["NaT"], ["nan"], the empty string), or an error. *)
Inductive Stamp : Type :=
| Moment (t : Z)
| NaT
| NoStamp.

Definition fill_moment (t : Z) (c : Cell) : Cell :=
  match c with CNull => CDate t | _ => c end.

(** [fillna(v)] on one column, for a string [v]. A column without a
    missing cell is left alone. A datetime64 column reads [v] as a
    timestamp: a moment fills the gaps and the dtype is kept, NaT leaves
    them as they are, and when [v] cannot be read the column is made an
    object column and takes the string. Any other column with a gap
    becomes an object column and takes the string. *)
Definition fill_column (stamp : string -> Stamp) (v : string) (s : Series)
  : Series :=
  if existsb isnull (cells s)
  then match dtype s, stamp v with
       | DDatetime64, Moment t =>
           mkSeries (label s) DDatetime64 (map (fill_moment t) (cells s))
       | DDatetime64, NaT => s
       | _, _ => mkSeries (label s) DObject (map (fill_cell v) (cells s))
       end
  else s.

(** [df.fillna(v)] for a string [v]. *)
Definition fillna (stamp : string -> Stamp) (v : string) (df : DataFrame)
  : DataFrame :=
  map (fill_column stamp v) df.

(** The number of missing cells of the frame. *)
Definition null_count (df : DataFrame) : nat :=
  list_sum (map (fun s => List.length (filter isnull (cells s))) df).

End Pandas.

(* ===================================================================== *)
(** ** The process: log records, exceptions, [sys.exit], files            *)
(* ===================================================================== *)

Module Sys.
Import Pandas.

Inductive Level : Type := INFO | WARNING | ERROR.

(** An argument of a logging call. *)
Inductive LogArg : Type :=
| AStr (s : string)
| AInt (n : Z)
| AExc (e : Exception).

(** What a run leaves behind, in order: the calls on [logger] (format
    and arguments, as they are passed), the files handed to
    [pd.read_csv] and the frames handed to [DataFrame.to_excel]. *)
Inductive Event : Type :=
| EvLog (lvl : Level) (fmt : string) (args : list LogArg)
| EvReadCsv (path : string)
| EvToExcel (path : string) (df : DataFrame).

(** How a piece of code ends: with a value, with an exception, or with
    [SystemExit], which [except Exception] does not catch. *)
Inductive Res (A : Type) : Type :=
| Done (a : A)
| Raised (e : Exception)
| Exited (code : Z).
Arguments Done {A} a.
Arguments Raised {A} e.
Arguments Exited {A} code.

Definition M (A : Type) : Type := (Res A * list Event)%type.

Definition ret {A} (a : A) : M A := (Done a, []).

Definition bind {A B} (m : M A) (k : A -> M B) : M B :=
  match fst m with
  | Done a => (fst (k a), (snd m ++ snd (k a))%list)
  | Raised e => (Raised e, snd m)
  | Exited c => (Exited c, snd m)
  end.

Definition log (lvl : Level) (fmt : string) (args : list LogArg) : M unit :=
  (Done tt, [EvLog lvl fmt args]).

Definition raise {A} (e : Exception) : M A := (Raised e, []).

(** [sys.exit(code)] *)
Definition sys_exit {A} (code : Z) : M A := (Exited code, []).

(** [try: m  except Exception as e: handler e] *)
Definition try_except {A} (m : M A) (handler : Exception -> M A) : M A :=
  match fst m with
  | Raised e => (fst (handler e), (snd m ++ snd (handler e))%list)
  | _ => m
  end.

Definition lift {A} (x : Exc A) : M A :=
  match x with
  | Returns a => ret a
  | Raises e => raise e
  end.

(** [for x in l: acc = body acc x] *)
Fixpoint for_each {A B} (l : list A) (acc : B) (body : B -> A -> M B)
  : M B :=
  match l with
  | [] => ret acc
  | x :: r => bind (body acc x) (fun acc' => for_each r acc' body)
  end.

(** The collaborators of a run: the file system, [pathlib], the CSV
    reader, [pd.concat], the date parsing behind [pd.to_datetime] (the
    guess of a format from a value, the reading of a value with a format,
    the general parser), the reading of a string by [Timestamp] and the
    spreadsheet writer. *)
Record Env : Type := mkEnv {
  path_exists : string -> bool;
  path_suffix : string -> string;
  read_csv : string -> Exc DataFrame;
  pd_concat : list DataFrame -> Exc DataFrame;
  guess_datetime_format : Cell -> option string;
  strptime : string -> Cell -> option Z;
  parse_datetime : Cell -> option Z;
  read_timestamp : string -> Stamp;
  to_excel : DataFrame -> string -> Exc unit
}.

(** The parser of a run for a column whose first value is [first]. *)
Definition parser_for (env : Env) (first : option Cell) : Cell -> option Z :=
  chosen_parser (guess_datetime_format env) (strptime env)
                (parse_datetime env) first.

(** The exit status of the process that ran [m] as its main program. *)
Definition exit_status (m : M unit) : Z :=
  match fst m with
  | Done _ => 0
  | Raised _ => 1
  | Exited c => c
  end.

(** The files read, in order. *)
Fixpoint reads (tr : list Event) : list string :=
  match tr with
  | [] => []
  | EvReadCsv f :: r => f :: reads r
  | _ :: r => reads r
  end.

End Sys.

Declare Scope py_scope.
Delimit Scope py_scope with py.
Notation "x <- m ;; k" := (Sys.bind m (fun x => k))
(at level 61, m at next level, right associativity) : py_scope.
Notation "m ;; k" := (Sys.bind m (fun _ => k))
(at level 61, right associativity) : py_scope.
Open Scope py_scope.

(* ===================================================================== *)
(** ** data_prep.py                                                       *)
(* ===================================================================== *)

Module DataPrep.
Import Py Pandas Sys.

(** *** Helpers *)

(** [while "__" in name: name = name.replace("__", "_")]; an iteration
    shortens [name], so its length bounds the number of iterations. *)
Fixpoint collapse_loop (fuel : nat) (name : string) : string :=
  match fuel with
  | O => name
  | S k =>
      if contains "__" name
      then collapse_loop k (replace "__" "_" name)
      else name
  end.

(** [normalize_col_name], lines 33-47. *)
Definition normalize_col_name (name : string) : string :=
  let name := strip name in
  let name :=
    replace "." "_"
      (replace "\" "_"
         (replace "/" "_"
            (replace "-" "_"
               (replace " " "_" name)))) in
  let name := collapse_loop (String.length name) name in
  lower name.

(** [if arg:] on an optional string. *)
Definition truthy (arg : option string) : bool :=
  match arg with
  | None | Some "" => false
  | Some _ => true
  end.

(** [[p.strip() for p in arg.split(",") if p.strip()]] *)
Definition comma_list (arg : string) : list string :=
  filter (fun p => negb (String.eqb p "")) (map strip (split "," arg)).

(** [parse_rename_arg], lines 50-65. *)
Definition parse_rename_arg (arg : option string) : M dict :=
  match arg with
  | None => ret []
  | Some "" => ret []
  | Some arg =>
      let mapping := [] in
      let pairs := comma_list arg in
      for_each pairs mapping (fun mapping pair =>
        if negb (contains ":" pair)
        then log WARNING
                 "Ignoring invalid rename pair: %s (expected OLD:NEW)"
                 [AStr pair] ;;
             ret mapping
        else let (old, new) := split_once ":" pair in
             ret (dict_set mapping (normalize_col_name old) (strip new)))
  end.

(** The test of line 72 on one column name. *)
Definition date_like (c : string) : bool :=
  contains "date" (lower c) || contains "time" (lower c)
  || contains "created" (lower c) || contains "updated" (lower c).

(** [auto_detect_date_cols], lines 68-74. *)
Definition auto_detect_date_cols (df : DataFrame) : list string :=
  fold_left (fun candidates c =>
               if date_like c then (candidates ++ [c])%list else candidates)
            (columns df) [].

(** [try_parse_dates], lines 77-91. *)
Definition try_parse_dates (env : Env) (df : DataFrame) (cols : list string)
  : M DataFrame :=
  for_each cols df (fun df c =>
    if negb (mem c (columns df))
    then log WARNING "Date column '%s' not found in DataFrame columns."
             [AStr c] ;;
         ret df
    else try_except
           (parsed <- lift (match getitem df c with
                            | Returns sel =>
                                to_datetime (guess_datetime_format env)
                                            (strptime env)
                                            (parse_datetime env) sel
                            | Raises e => Raises e
                            end) ;;
            log INFO "Parsed dates in column: %s" [AStr c] ;;
            ret (setitem df c parsed))
           (fun e =>
              log WARNING "Failed to parse dates in column %s: %s"
                  [AStr c; AExc e] ;;
              ret df)).

(** [pd.read_csv(f)], with the read recorded. *)
Definition read (env : Env) (f : string) : M DataFrame :=
  (match read_csv env f with
   | Returns df => Done df
   | Raises e => Raised e
   end, [EvReadCsv f]).

(** [load_and_concat], lines 94-110. *)
Definition load_and_concat (env : Env) (files : list string) : M DataFrame :=
  dfs <- for_each files [] (fun dfs f =>
           try_except
             (log INFO "Reading CSV: %s" [AStr f] ;;
              df <- read env f ;;
              ret (dfs ++ [df])%list)
             (fun e =>
                log ERROR "Failed to read %s: %s" [AStr f; AExc e] ;;
                raise e)) ;;
  match dfs with
  | [] => raise (mkExc "ValueError"
                       "No dataframes loaded from the provided files.")
  | [df] => ret df
  | _ =>
      log INFO "Concatenating %d files"
          [AInt (Z.of_nat (List.length dfs))] ;;
      lift (pd_concat env dfs)
  end.

(** *** Main processing logic *)

(** [{k: v for (k, v) in items}] *)
Definition dict_of (items : list (string * string)) : dict :=
  fold_left (fun d kv => dict_set d (fst kv) (snd kv)) items [].

(** Step 1 of [process_dataframe], lines 123-127. *)
Definition normalize_columns (df : DataFrame) : M DataFrame :=
  let orig_cols := columns df in
  let normalized_map :=
    dict_of (map (fun c => (c, normalize_col_name c)) orig_cols) in
  let df := rename normalized_map df in
  log INFO "Normalized column names." [] ;;
  ret df.

(** Step 2, lines 129-137. *)
Definition apply_rename_map (rename_map : dict) (df : DataFrame)
  : M DataFrame :=
  match rename_map with
  | [] => ret df
  | _ =>
      let applicable :=
        filter (fun kv => mem (fst kv) (columns df)) rename_map in
      match applicable with
      | [] => log WARNING "No rename mappings matched existing columns." [] ;;
              ret df
      | _ => let df := rename applicable df in
             log INFO "Applied %d column renames."
                 [AInt (Z.of_nat (List.length applicable))] ;;
             ret df
      end
  end.

(** Step 3, lines 139-144. *)
Definition trim_strings (strip_strings : bool) (df : DataFrame)
  : M DataFrame :=
  if strip_strings then
    let obj_cols := columns (select_dtypes_object df) in
    if (0 <? List.length obj_cols)%nat then
      stripped <- lift (apply str_strip (getitem_list df obj_cols)) ;;
      df <- lift (setitem_list df obj_cols stripped) ;;
      log INFO "Stripped whitespace from %d string columns."
          [AInt (Z.of_nat (List.length obj_cols))] ;;
      ret df
    else ret df
  else ret df.

(** Step 4, lines 146-149. *)
Definition parse_date_columns (env : Env) (date_cols : list string)
           (df : DataFrame) : M DataFrame :=
  match date_cols with
  | [] => ret df
  | _ => try_parse_dates env df date_cols
  end.

(** Step 5 up to the fill, lines 151-168: the three row drops. *)
Definition drop_missing (dropna_any : bool) (dropna_thresh : option Z)
           (df : DataFrame) : M DataFrame :=
  let before := len df in
  let df := Pandas.dropna_all df in
  let after := len df in
  (if (after <? before)%nat
   then log INFO "Dropped %d rows that were entirely empty."
            [AInt (Z.of_nat (before - after))]
   else ret tt) ;;
  df <- (if dropna_any then
           let before := len df in
           let df := Pandas.dropna_any df in
           log INFO "Dropped %d rows with any missing values."
               [AInt (Z.of_nat (before - len df))] ;;
           ret df
         else ret df) ;;
  match dropna_thresh with
  | None | Some 0%Z => ret df
  | Some thresh =>
      let before := len df in
      let df := Pandas.dropna_thresh thresh df in
      log INFO "Dropped %d rows with less than %d non-null values."
          [AInt (Z.of_nat (before - len df)); AInt thresh] ;;
      ret df
  end.

(** The end of step 5, lines 170-172. *)
Definition fill_missing (env : Env) (fillna_value : option string)
           (df : DataFrame) : M DataFrame :=
  match fillna_value with
  | Some v =>
      let df := Pandas.fillna (read_timestamp env) v df in
      log INFO "Filled remaining missing values with: %s" [AStr v] ;;
      ret df
  | None => ret df
  end.

(** [process_dataframe], lines 114-174. *)
Definition process_dataframe (env : Env) (df : DataFrame)
           (date_cols : list string) (rename_map : dict)
           (fillna_value : option string) (dropna_any : bool)
           (dropna_thresh : option Z) (strip_strings : bool)
  : M DataFrame :=
  df <- normalize_columns df ;;
  df <- apply_rename_map rename_map df ;;
  df <- trim_strings strip_strings df ;;
  df <- parse_date_columns env date_cols df ;;
  df <- drop_missing dropna_any dropna_thresh df ;;
  df <- fill_missing env fillna_value df ;;
  ret df.

(** [df.to_excel(output_path, index=False)], with the write recorded. *)
Definition write (env : Env) (df : DataFrame) (output_path : string)
  : M unit :=
  (match to_excel env df output_path with
   | Returns _ => Done tt
   | Raises e => Raised e
   end, [EvToExcel output_path df]).

(** [export_to_excel], lines 177-185. *)
Definition export_to_excel (env : Env) (df : DataFrame)
           (output_path : string) : M unit :=
  try_except
    (log INFO "Exporting to Excel: %s" [AStr output_path] ;;
     write env df output_path ;;
     log INFO "Export successful." [])
    (fun e =>
       log ERROR "Failed to export Excel file: %s" [AExc e] ;;
       raise e).

(** *** CLI *)

(** The namespace [parse_args] returns, lines 189-221. *)
Record Args : Type := mkArgs {
  args_input : list string;
  args_output : string;
  args_date_cols : option string;
  args_rename : option string;
  args_fillna : option string;
  args_dropna_any : bool;
  args_dropna_thresh : option Z;
  args_verbose : bool
}.

(** [main], lines 229-238: the input paths and the output extension,
    in a run in which [Path.exists] answers for every input it is asked
    about; [Script.check_paths] adds the runs in which it raises.
    ([--verbose] sets the logger to DEBUG; the script logs nothing at
    that level.) *)
Definition check_paths (env : Env) (args : Args) : M unit :=
  let input_files := args_input args in
  for_each input_files tt (fun _ f =>
    if negb (path_exists env f)
    then log ERROR "Input file does not exist: %s" [AStr f] ;;
         sys_exit 2
    else ret tt) ;;
  let output_path := args_output args in
  if negb (String.eqb (lower (path_suffix env output_path)) ".xlsx")
  then log ERROR "Output file must have .xlsx extension." [] ;;
       sys_exit 2
  else ret tt.

(** [main], lines 242-245. *)
Definition explicit_date_cols (args : Args) : list string :=
  if truthy (args_date_cols args)
  then match args_date_cols args with
       | Some s => comma_list s
       | None => []
       end
  else [].

(** [main], lines 247-252. *)
Definition load (env : Env) (args : Args) : M DataFrame :=
  try_except
    (load_and_concat env (args_input args))
    (fun e =>
       log ERROR "Could not load input CSV(s): %s" [AExc e] ;;
       sys_exit 3).

(** [main], lines 254-261. *)
Definition resolve_date_cols (date_cols_flag : list string)
           (df : DataFrame) : M (list string) :=
  match date_cols_flag with
  | [] =>
      let auto := auto_detect_date_cols df in
      match auto with
      | [] => log INFO "No date columns provided or auto-detected." [] ;;
              ret date_cols_flag
      | _ => log INFO "Auto-detected date columns: %s"
                 [AStr (join ", " auto)] ;;
             ret auto
      end
  | _ => ret date_cols_flag
  end.

(** [main], lines 263-264. *)
Definition normalize_rename_map (rename_map : dict) : dict :=
  dict_of (map (fun kv => (normalize_col_name (fst kv), snd kv)) rename_map).

(** The call of lines 268-275. *)
Definition run_process (env : Env) (args : Args) (rename_map : dict)
           (date_cols_flag : list string) (df : DataFrame) : M DataFrame :=
  process_dataframe env df
    (map normalize_col_name date_cols_flag)
    (normalize_rename_map rename_map)
    (args_fillna args) (args_dropna_any args) (args_dropna_thresh args)
    true.

(** [main], lines 226-287: from the namespace that [parse_args] returned
    on; [Script.main] adds line 225 and the errors of [Path.exists]. *)
Definition main (env : Env) (args : Args) : M unit :=
  check_paths env args ;;
  let output_path := args_output args in
  rename_map <- parse_rename_arg (args_rename args) ;;
  let date_cols_flag := explicit_date_cols args in
  df <- load env args ;;
  date_cols_flag <- resolve_date_cols date_cols_flag df ;;
  processed <- try_except
                 (run_process env args rename_map date_cols_flag df)
                 (fun e =>
                    log ERROR "Processing failed: %s" [AExc e] ;;
                    sys_exit 4) ;;
  try_except
    (export_to_excel env processed output_path)
    (fun e =>
       log ERROR "Export failed: %s" [AExc e] ;;
       sys_exit 5) ;;
  log INFO "All done. Output: %s" [AStr output_path].

End DataPrep.

(* ===================================================================== *)
(** ** A concrete environment                                             *)
(* ===================================================================== *)

(** One instance of the collaborators, to run the script on: POSIX paths,
  a date parser for ISO calendar dates, two small CSV files. *)
Module Sample.
Import Py Pandas Sys DataPrep.

(** [PurePosixPath(p).name]: the last component that is neither empty
    nor ["."]. *)
Definition posix_name (p : string) : string :=
  last (filter (fun part => negb (String.eqb part "" || String.eqb part "."))
               (split "/" p)) "".

(** The part of [s] from its last dot on, when [s] has a dot. *)
Fixpoint from_last_dot (s : string) : option string :=
  match s with
  | "" => None
  | String c t =>
      match from_last_dot t with
      | Some suf => Some suf
      | None => if Ascii.eqb c "." then Some s else None
      end
  end.

(** [PurePosixPath(p).suffix]: from the last dot of the name on, unless
    that dot opens or ends the name. *)
Definition posix_suffix (p : string) : string :=
  match posix_name p with
  | "" => ""
  | String _ t =>
      match from_last_dot t with
      | Some suf => if (String.length suf =? 1)%nat then "" else suf
      | None => ""
      end
  end.

Definition digit (c : ascii) : option Z :=
  let n := N_of_ascii c in
  if ((48 <=? n) && (n <=? 57))%N then Some (Z.of_N n - 48)%Z else None.

Fixpoint number (acc : Z) (s : string) : option Z :=
  match s with
  | "" => Some acc
  | String c t =>
      match digit c with
      | Some d => number (10 * acc + d)%Z t
      | None => None
      end
  end.

Definition leap (y : Z) : bool :=
  ((y mod 4 =? 0) && (negb (y mod 100 =? 0) || (y mod 400 =? 0)))%Z.

Definition days_in_month (y m : Z) : Z :=
  (if m =? 2 then (if leap y then 29 else 28)
   else if (m =? 4) || (m =? 6) || (m =? 9) || (m =? 11) then 30
   else 31)%Z.

(** Days from 1970-01-01 to the civil date [y-m-d]. *)
Definition days_from_civil (y m d : Z) : Z :=
  (let y' := if m <=? 2 then y - 1 else y in
   let era := y' / 400 in
   let yoe := y' - era * 400 in
   let mp := if 2 <? m then m - 3 else m + 9 in
   let doy := (153 * mp + 2) / 5 + d - 1 in
   let doe := yoe * 365 + yoe / 4 - yoe / 100 + doy in
   era * 146097 + doe - 719468)%Z.

(** A date parser: the text [YYYY-MM-DD] of a valid date, as the
    nanoseconds from the epoch to its midnight. *)
Definition parse_iso_date (c : Cell) : option Z :=
  match c with
  | CStr s =>
      match split "-" s with
      | [ys; ms; ds] =>
          if ((String.length ys =? 4) && (String.length ms =? 2)
              && (String.length ds =? 2))%nat
          then match number 0 ys, number 0 ms, number 0 ds with
               | Some y, Some m, Some d =>
                   if ((1 <=? m) && (m <=? 12) && (1 <=? d)
                       && (d <=? days_in_month y m))%Z
                   then Some (days_from_civil y m d * 86400000000000)%Z
                   else None
               | _, _, _ => None
               end
          else None
      | _ => None
      end
  | _ => None
  end.

(** The text [MM/DD/YYYY] of a valid date. *)
Definition parse_us_date (c : Cell) : option Z :=
  match c with
  | CStr s =>
      match split "/" s with
      | [ms; ds; ys] =>
          if ((String.length ms =? 2) && (String.length ds =? 2)
              && (String.length ys =? 4))%nat
          then match number 0 ys, number 0 ms, number 0 ds with
               | Some y, Some m, Some d =>
                   if ((1 <=? m) && (m <=? 12) && (1 <=? d)
                       && (d <=? days_in_month y m))%Z
                   then Some (days_from_civil y m d * 86400000000000)%Z
                   else None
               | _, _, _ => None
               end
          else None
      | _ => None
      end
  | _ => None
  end.

(** The format guessed from a value: one of the two the sample knows. *)
Definition guess_format (c : Cell) : option string :=
  match parse_iso_date c, parse_us_date c with
  | Some _, _ => Some "%Y-%m-%d"
  | None, Some _ => Some "%m/%d/%Y"
  | None, None => None
  end.

(** A value read with a format. *)
Definition read_with_format (fmt : string) (c : Cell) : option Z :=
  if String.eqb fmt "%Y-%m-%d" then parse_iso_date c
  else if String.eqb fmt "%m/%d/%Y" then parse_us_date c
  else None.

(** The general parser: either way of writing a date. *)
Definition parse_any_date (c : Cell) : option Z :=
  match parse_iso_date c with
  | Some t => Some t
  | None => parse_us_date c
  end.

(** The strings that [Timestamp] reads as NaT. *)
Definition nat_strings : list string :=
  ["NaT"; "nat"; "NAT"; "nan"; "NaN"; "NAN"; ""].

(** [Timestamp(v)]: NaT for its names, a moment for a date, an error
    for anything else. *)
Definition stamp_of (v : string) : Stamp :=
  if mem v nat_strings then NaT
  else match parse_any_date (CStr v) with
       | Some t => Moment t
       | None => NoStamp
       end.

(** Row-wise concatenation of frames that have the same labels, column
    by column; any other list of frames is refused. *)
Fixpoint append_rows (a b : DataFrame) : option DataFrame :=
  match a, b with
  | [], [] => Some []
  | s :: a', t :: b' =>
      if String.eqb (label s) (label t)
      then match append_rows a' b' with
           | Some r =>
               Some (mkSeries (label s)
                       (match dtype s, dtype t with
                        | DInt64, DInt64 => DInt64
                        | DFloat64, DFloat64 => DFloat64
                        | DBool, DBool => DBool
                        | DDatetime64, DDatetime64 => DDatetime64
                        | _, _ => DObject
                        end)
                       (cells s ++ cells t)%list :: r)
           | None => None
           end
      else None
  | _, _ => None
  end.

Fixpoint concat_frames (dfs : list DataFrame) : Exc DataFrame :=
  match dfs with
  | [] => Raises (mkExc "ValueError" "No objects to concatenate")
  | [df] => Returns df
  | df :: r =>
      match concat_frames r with
      | Returns rest =>
          match append_rows df rest with
          | Some out => Returns out
          | None => Raises (mkExc "ValueError" "columns differ")
          end
      | Raises e => Raises e
      end
  end.

(** The files of the sample file system. *)
Definition sales_jan : DataFrame :=
  [ mkSeries "Name " DObject [CStr " Ann "];
    mkSeries "Sale-Date" DObject [CStr "2024-01-01"] ].

Definition sales_feb : DataFrame :=
  [ mkSeries "Name " DObject [CStr "Bob"];
    mkSeries "Sale-Date" DObject [CStr "not-a-date"] ].

(** A file whose only column holds booleans and a gap: an object column
    without a string in it. *)
Definition flags : DataFrame :=
  [ mkSeries "Active" DObject [CBool true; CNull; CBool false] ].

(** Two files with the same headers; the codes of the first are numbers,
    those of the second are text. *)
Definition codes_a : DataFrame :=
  [ mkSeries "Code" DInt64 [CInt 7];
    mkSeries "Name" DObject [CStr "Ann"] ].

Definition codes_b : DataFrame :=
  [ mkSeries "Code" DObject [CStr " x1 "];
    mkSeries "Name" DObject [CStr "Bob"] ].

Definition files : list (string * DataFrame) :=
  [ ("jan.csv", sales_jan); ("feb.csv", sales_feb); ("flags.csv", flags);
    ("codes_a.csv", codes_a); ("codes_b.csv", codes_b) ].

Fixpoint find_file (f : string) (fs : list (string * DataFrame))
  : option DataFrame :=
  match fs with
  | [] => None
  | (name, df) :: r => if String.eqb name f then Some df else find_file f r
  end.

(** [broken.csv] exists and cannot be parsed; the directory [/ro] cannot
    be written to; [Timestamp] reads strings as [stamp] says. *)
Definition env_with (stamp : string -> Stamp) : Env :=
  mkEnv
    (fun f => match find_file f files with
              | Some _ => true
              | None => String.eqb f "broken.csv"
              end)
    posix_suffix
    (fun f => match find_file f files with
              | Some df => Returns df
              | None => Raises (mkExc "ParserError" "Error tokenizing data")
              end)
    concat_frames
    guess_format
    read_with_format
    parse_any_date
    stamp
    (fun _ out => if prefix "/ro/" out
                  then Raises (mkExc "PermissionError" "Permission denied")
                  else Returns tt).

Definition env : Env := env_with stamp_of.

Definition args (input : list string) (output : string) : Args :=
  mkArgs input output None None None false None false.

End Sample.

(* ===================================================================== *)
(** ** The vocabulary of the specification                                *)
(* ===================================================================== *)

Module Spec.
Import Py Pandas Sys DataPrep.

(** Every character of [s] passes the test [P]. *)
Fixpoint all_chars (P : ascii -> bool) (s : string) : bool :=
  match s with
  | "" => true
  | String c t => P c && all_chars P t
  end.

(** The characters [normalize_col_name] turns into an underscore. *)
Definition separators : list ascii := [" "; "-"; "/"; "\"; "."]%char.

Definition is_separator (c : ascii) : bool :=
  existsb (Ascii.eqb c) separators.

Definition is_underscore (c : ascii) : bool := Ascii.eqb c "_".

(** No leading whitespace, no trailing whitespace. *)
Definition head_ok (s : string) : bool :=
  match s with
  | "" => true
  | String c _ => negb (isspace c)
  end.

Fixpoint last_ok (s : string) : bool :=
  match s with
  | "" => true
  | String c "" => negb (isspace c)
  | String _ t => last_ok t
  end.

(** One pass of [name.replace("__", "_")], by structural recursion. *)
Fixpoint squeeze (s : string) : string :=
  match s with
  | "" => ""
  | String c t =>
      match t with
      | "" => String c ""
      | String c' t' =>
          if is_underscore c && is_underscore c'
          then String "_" (squeeze t')
          else String c (squeeze t)
      end
  end.

(** A word that normalisation cannot touch: not empty, and free of
    whitespace, separators and underscores. *)
Definition plain_char (c : ascii) : bool :=
  negb (isspace c || is_separator c || is_underscore c).

Definition plain_word (w : string) : bool :=
  negb (String.eqb w "") && all_chars plain_char w.

(** The name normalisation leaves behind: what the claims say of it. *)
Definition lower_case (s : string) : Prop := lower s = s.
Definition no_whitespace (s : string) : Prop :=
  all_chars (fun c => negb (isspace c)) s = true.
Definition no_space (s : string) : Prop :=
  all_chars (fun c => negb (Ascii.eqb c " ")) s = true.
Definition no_separator (s : string) : Prop :=
  all_chars (fun c => negb (is_separator c)) s = true.
Definition no_underscore_run (s : string) : Prop := contains "__" s = false.
Definition trimmed (s : string) : Prop := strip s = s.

(** Whitespace other than the space character, and the characters of
    [s] that pass a test, in their order. *)
Definition inner_whitespace (c : ascii) : bool :=
  isspace c && negb (Ascii.eqb c " ").

Fixpoint only (P : ascii -> bool) (s : string) : string :=
  match s with
  | "" => ""
  | String c t => if P c then String c (only P t) else only P t
  end.

(** What [parse_rename_arg] makes of one entry of the specification. *)
Definition has_colon (pair : string) : bool := contains ":" pair.

Definition rename_entry (pair : string) : string * string :=
  let (old, new) := split_once ":" pair in
  (normalize_col_name old, strip new).

Definition rename_warning (pair : string) : Event :=
  EvLog WARNING "Ignoring invalid rename pair: %s (expected OLD:NEW)"
        [AStr pair].

(** The test of the date heuristic on a normalised name. *)
Definition date_words : list string := ["date"; "time"; "created"; "updated"].

Definition names_a_date (name : string) : bool :=
  existsb (fun w => contains w name) date_words.

(** No event of the run [m] passes the test [P]. *)
Definition never {A} (P : Event -> bool) (m : M A) : Prop :=
  existsb P (snd m) = false.

(** The two records that lines 257-261 leave, one of them on each pass
    through the auto-detection. *)
Definition auto_detect_record (ev : Event) : bool :=
  match ev with
  | EvLog INFO fmt _ =>
      String.eqb fmt "Auto-detected date columns: %s"
      || String.eqb fmt "No date columns provided or auto-detected."
  | _ => false
  end.

Definition auto_detection_ran (tr : list Event) : bool :=
  existsb auto_detect_record tr.

Definition is_write (ev : Event) : bool :=
  match ev with EvToExcel _ _ => true | _ => false end.

(** The checks of lines 229-238. *)
Definition inputs_exist (env : Env) (args : Args) : bool :=
  forallb (path_exists env) (args_input args).

Definition extension_ok (env : Env) (args : Args) : bool :=
  String.eqb (lower (path_suffix env (args_output args))) ".xlsx".

(** [pd.read_csv] returns a frame for this file. *)
Definition readable (env : Env) (f : string) : bool :=
  match read_csv env f with
  | Returns _ => true
  | Raises _ => false
  end.

(** The rename mapping and the date columns a run works with, and the
    call of [process_dataframe] it makes on the loaded frame. *)
Definition rename_map_of (args : Args) : dict :=
  match fst (parse_rename_arg (args_rename args)) with
  | Done d => d
  | _ => []
  end.

Definition date_cols_of (args : Args) (df : DataFrame) : list string :=
  match fst (resolve_date_cols (explicit_date_cols args) df) with
  | Done cols => cols
  | _ => []
  end.

Definition processing (env : Env) (args : Args) (df : DataFrame)
  : M DataFrame :=
  run_process env args (rename_map_of args) (date_cols_of args df) df.

(** The fatal failure classes of the command-line tool. *)
Inductive Failure : Type :=
| MissingInput
| WrongExtension
| LoadFailure
| ProcessingFailure
| ExportFailure.

Definition paths_ok (env : Env) (args : Args) : Prop :=
  inputs_exist env args = true /\ extension_ok env args = true.

(** When a run fails in the class [c]. *)
Definition fails (env : Env) (args : Args) (c : Failure) : Prop :=
  match c with
  | MissingInput => inputs_exist env args = false
  | WrongExtension =>
      inputs_exist env args = true /\ extension_ok env args = false
  | LoadFailure =>
      paths_ok env args
      /\ exists e, fst (load_and_concat env (args_input args)) = Raised e
  | ProcessingFailure =>
      paths_ok env args
      /\ exists df e,
          fst (load_and_concat env (args_input args)) = Done df
          /\ fst (processing env args df) = Raised e
  | ExportFailure =>
      paths_ok env args
      /\ exists df out e,
          fst (load_and_concat env (args_input args)) = Done df
          /\ fst (processing env args df) = Done out
          /\ to_excel env out (args_output args) = Raises e
  end.

(** The exit codes of lines 233, 238, 252, 278 and 285. *)
Definition exit_code (c : Failure) : Z :=
  match c with
  | MissingInput => 2
  | WrongExtension => 2
  | LoadFailure => 3
  | ProcessingFailure => 4
  | ExportFailure => 5
  end.

Definition path_check (c : Failure) : bool :=
  match c with
  | MissingInput | WrongExtension => true
  | _ => false
  end.

(** A column after [pd.to_datetime(..., errors="coerce")]. *)
Definition to_datetime_column (env : Env) (s : Series) : Series :=
  mkSeries (label s) DDatetime64
           (map (coerce_cell (parser_for env (first_value (cells s))))
                (cells s)).

(** The frame after one pass of the loop of [try_parse_dates] for the
    column name [c]. *)
Definition parse_column (env : Env) (df : DataFrame) (c : string)
  : DataFrame :=
  if mem c (columns df)
  then match getitem df c with
       | Returns sel =>
           match to_datetime (guess_datetime_format env) (strptime env)
                             (parse_datetime env) sel with
           | Returns parsed => setitem df c parsed
           | Raises _ => df
           end
       | Raises _ => df
       end
  else df.

(** The loop of [try_parse_dates] converts the column [s] of [df]: its
    name is listed, and is the name of no other column. *)
Definition converted (df : DataFrame) (cols : list string) (s : Series)
  : bool :=
  mem (label s) cols && Nat.eqb (count_label df (label s)) 1.

(** The table of the specification's example. *)
Definition created_at_example : DataFrame :=
  [mkSeries "created_at" DObject [CStr "2024-01-01"; CStr "not-a-date"]].

(** Free-form text: a string, or the missing marker in its place. *)
Definition text_cell (c : Cell) : bool :=
  match c with
  | CStr _ | CNull => true
  | _ => false
  end.

(** A column whose values are free-form text. *)
Definition text_column (s : Series) : bool :=
  is_object s && forallb text_cell (cells s).

(** The whitespace-trimmed form of a cell of text. *)
Definition trimmed_cell (c : Cell) : Cell :=
  match c with
  | CStr s => CStr (strip s)
  | _ => c
  end.

(** What step 3 makes of a column: an object column goes through
    [.str.strip()], any other column is kept. *)
Definition strip_series (s : Series) : Series :=
  mkSeries (label s) (stripped_dtype (cells s))
           (map str_strip_cell (cells s)).

Definition trim_column (s : Series) : Series :=
  if is_object s then strip_series s else s.

(** What the trimmer makes of the column [s]: the name and the length are
    kept; in an object column every cell of text is replaced by its trimmed
    form, so that a column of text is trimmed cell by cell and stays an
    object column; a column that is not an object column is unchanged. *)
Definition trimmed_column (s s' : Series) : Prop :=
  label s' = label s
  /\ List.length (cells s') = List.length (cells s)
  /\ (is_object s = true ->
      Forall2 (fun x x' => text_cell x = true -> x' = trimmed_cell x)
              (cells s) (cells s'))
  /\ (text_column s = true ->
      dtype s' = dtype s /\ cells s' = map trimmed_cell (cells s))
  /\ (is_object s = false -> s' = s).

End Spec.

(* ===================================================================== *)
(** ** Rows, labels and traces                                            *)
(* ===================================================================== *)

(** The words in which the steps of [process_dataframe] and the runs of
    [main] are described: what a step does to the labels, which rows a
    drop keeps, what a run reads, writes and reports. *)
Module Table.
Import Py Pandas Sys DataPrep Spec.

(** The frame with every label sent through [f], the data untouched. *)
Definition relabel (f : string -> string) (df : DataFrame) : DataFrame :=
  map (fun s => mkSeries (f (label s)) (dtype s) (cells s)) df.

(** The label a rename mapping gives to the column labelled [c]. *)
Definition renamed (d : dict) (c : string) : string :=
  match dict_get d c with
  | Some new => new
  | None => c
  end.

(** [d.keys()] *)
Definition keys (d : dict) : list string := map fst d.

(** The value of the last item of [items] whose key is [k]. *)
Fixpoint lookup_last (k : string) (items : list (string * string))
  : option string :=
  match items with
  | [] => None
  | (k', v) :: r =>
      match lookup_last k r with
      | Some v' => Some v'
      | None => if String.eqb k' k then Some v else None
      end
  end.

(** The user names a date column with [--date-cols]: the option is
    given and its value holds a character that is neither a comma nor
    whitespace. *)
Definition names_supplied (args : Args) : bool :=
  match args_date_cols args with
  | Some s => negb (all_chars (fun c => isspace c || Ascii.eqb c ",") s)
  | None => false
  end.

(** The entries of a rename mapping whose key is a column of [df]. *)
Definition matching (rename_map : dict) (df : DataFrame) : dict :=
  filter (fun kv => mem (fst kv) (columns df)) rename_map.

(** The rows of a frame, top to bottom. *)
Definition rows (df : DataFrame) : list (list Cell) :=
  map (row df) (seq 0 (len df)).

(** All columns have the length of the frame. *)
Definition rectangular (df : DataFrame) : bool :=
  forallb (fun s => Nat.eqb (List.length (cells s)) (len df)) df.

(** The elements of [l] at the positions where [mask] holds. *)
Fixpoint pick {A} (mask : list bool) (l : list A) : list A :=
  match mask, l with
  | b :: m, x :: t => if b then x :: pick m t else pick m t
  | _, _ => []
  end.

(** The frame without its first row, and the selection of rows that
    [filter_rows] makes once its mask is computed. *)
Definition tails (df : DataFrame) : DataFrame :=
  map (fun s => mkSeries (label s) (dtype s) (tl (cells s))) df.

Definition select (mask : list bool) (df : DataFrame) : DataFrame :=
  map (fun s => mkSeries (label s) (dtype s) (take_rows mask (cells s))) df.

(** The tests of the three drops on a row. *)
Definition has_value (r : list Cell) : bool := existsb notnull r.
Definition complete (r : list Cell) : bool := forallb notnull r.
Definition enough (n : Z) (r : list Cell) : bool :=
  (n <=? Z.of_nat (List.length (filter notnull r)))%Z.

(** The rows that lines 151-168 keep, for the two options. *)
Definition kept (dropna_any : bool) (dropna_thresh : option Z)
           (r : list Cell) : bool :=
  has_value r
  && (if dropna_any then complete r else true)
  && match dropna_thresh with
     | None | Some 0%Z => true
     | Some n => enough n r
     end.

(** The frame that lines 151-168 return. *)
Definition dropped (dropna_any : bool) (dropna_thresh : option Z)
           (df : DataFrame) : DataFrame :=
  let df := Pandas.dropna_all df in
  let df := if dropna_any then Pandas.dropna_any df else df in
  match dropna_thresh with
  | None | Some 0%Z => df
  | Some n => Pandas.dropna_thresh n df
  end.

(** [df'] has the labels and the dtypes of [df], and no more rows. *)
Definition shaped (df' df : DataFrame) : Prop :=
  columns df' = columns df /\ map dtype df' = map dtype df
  /\ len df' <= len df.

(** A small table with gaps: the second row is empty, the third lacks
    its name. *)
Definition with_gaps : DataFrame :=
  [ mkSeries "name" DObject [CStr "Ann"; CNull; CNull];
    mkSeries "qty" DFloat64
             [CFloat (QArith_base.Qmake 1 1); CNull;
              CFloat (QArith_base.Qmake 3 1)] ].

(** Two headers of text columns that differ only by case and a trailing
    space. *)
Definition same_name_twice : DataFrame :=
  [ mkSeries "Name" DObject [CStr "Ann"];
    mkSeries "name " DObject [CStr "Bob"] ].

(** The record of a column that [try_parse_dates] has converted. *)
Definition parsed_record (c : string) : Event :=
  EvLog INFO "Parsed dates in column: %s" [AStr c].

(** The record that the loop of [try_parse_dates] leaves for the name
    [c], lines 83-90: the column is missing, is converted, or is refused
    by [pd.to_datetime] because the label names several columns. *)
Definition date_record (df : DataFrame) (c : string) : Event :=
  if negb (mem c (columns df))
  then EvLog WARNING "Date column '%s' not found in DataFrame columns."
             [AStr c]
  else if Nat.eqb (count_label df c) 1
       then EvLog INFO "Parsed dates in column: %s" [AStr c]
       else EvLog WARNING "Failed to parse dates in column %s: %s"
                  [AStr c;
                   AExc (mkExc "ValueError"
                               "cannot assemble with duplicate keys")].

(** Steps 4 to 5 of [process_dataframe] on the frame [df] that step 3
    returns: the date columns, the drops, the fill. *)
Definition finish (env : Env) (date_cols : list string)
           (fillna_value : option string) (dropna_any : bool)
           (dropna_thresh : option Z) (df : DataFrame) : DataFrame :=
  let df := match date_cols with
            | [] => df
            | _ => fold_left (parse_column env) date_cols df
            end in
  let df := dropped dropna_any dropna_thresh df in
  match fillna_value with
  | Some v => fillna (read_timestamp env) v df
  | None => df
  end.

(** The frame that reaches step 3: normalised, then renamed. *)
Definition labelled (rename_map : dict) (df : DataFrame) : DataFrame :=
  relabel (renamed rename_map) (relabel normalize_col_name df).

(** The two errors step 3 can raise. *)
Definition accessor_error : Exception :=
  mkExc "AttributeError" "Can only use .str accessor with string values!".

Definition assignment_error : Exception :=
  mkExc "ValueError" "Columns must be same length as key".

(** What a trace holds. *)
Definition is_read (ev : Event) : bool :=
  match ev with EvReadCsv _ => true | _ => false end.

Definition is_error (ev : Event) : bool :=
  match ev with EvLog ERROR _ _ => true | _ => false end.

Definition writes (tr : list Event) : list Event := filter is_write tr.

(** The run ends without [SystemExit]. *)
Definition no_exit {A} (m : M A) : Prop := forall c, fst m <> Exited c.

(** A run that goes through: the checks pass, the files load, the frame
    is processed and the spreadsheet is written. *)
Definition succeeds (env : Env) (args : Args) : Prop :=
  paths_ok env args
  /\ exists df out,
       fst (load_and_concat env (args_input args)) = Done df
       /\ fst (processing env args df) = Done out
       /\ to_excel env out (args_output args) = Returns tt.

(** The ERROR record [main] leaves before it exits, lines 232, 237, 251,
    277 and 284. *)
Definition error_format (c : Failure) : string :=
  match c with
  | MissingInput => "Input file does not exist: %s"
  | WrongExtension => "Output file must have .xlsx extension."
  | LoadFailure => "Could not load input CSV(s): %s"
  | ProcessingFailure => "Processing failed: %s"
  | ExportFailure => "Export failed: %s"
  end.

(** A test on events that no INFO or WARNING record passes. *)
Definition calm (P : Event -> bool) : Prop :=
  forall lvl fmt a, lvl <> ERROR -> P (EvLog lvl fmt a) = false.

(** [main] from the loaded frame on, lines 254-287. *)
Definition after_load (env : Env) (args : Args) (rename_map : dict)
           (df : DataFrame) : M unit :=
  date_cols_flag <- resolve_date_cols (explicit_date_cols args) df ;;
  processed <- try_except
                 (run_process env args rename_map date_cols_flag df)
                 (fun e =>
                    log ERROR "Processing failed: %s" [AExc e] ;;
                    sys_exit 4) ;;
  try_except
    (export_to_excel env processed (args_output args))
    (fun e =>
       log ERROR "Export failed: %s" [AExc e] ;;
       sys_exit 5) ;;
  log INFO "All done. Output: %s" [AStr (args_output args)].

(** What lines 280-287 leave in the trace. *)
Definition export_trace (env : Env) (out : DataFrame) (path : string)
  : list Event :=
  [EvLog INFO "Exporting to Excel: %s" [AStr path]; EvToExcel path out]
  ++ match to_excel env out path with
     | Returns _ =>
         [EvLog INFO "Export successful." [];
          EvLog INFO "All done. Output: %s" [AStr path]]
     | Raises e =>
         [EvLog ERROR "Failed to export Excel file: %s" [AExc e];
          EvLog ERROR "Export failed: %s" [AExc e]]
     end.

(** The last event of a trace. *)
Definition final (tr : list Event) : option Event :=
  last (map Some tr) None.

(** The frames [pd.read_csv] returns for a list of files, when it
    returns one for each. *)
Fixpoint frames_of (env : Env) (files : list string)
  : option (list DataFrame) :=
  match files with
  | [] => Some []
  | f :: r =>
      match read_csv env f, frames_of env r with
      | Returns df, Some dfs => Some (df :: dfs)
      | _, _ => None
      end
  end.

End Table.

(* ===================================================================== *)
(** ** The script as the process runs it                                  *)
(* ===================================================================== *)

(** [DataPrep.main] starts from the parsed arguments and takes the
    answers of [Path.exists] from the environment. The process that runs
    the script has two more ways to end, which this module adds:
    [argparse] leaves by itself at line 225, and [Path.exists] raises at
    line 231, outside every [try]. *)
Module Script.
Import Py Pandas Sys DataPrep Spec Table.

(** What [parser.parse_args()] does with a command line: it returns the
    namespace, or it prints the help and leaves with status 0, or it
    prints a usage error and leaves with status 2. *)
Inductive Parse : Type :=
| Parsed (args : Args)
| HelpShown
| UsageError.

(** The host of a run: the collaborators of [DataPrep.main], [argparse]
    on the command line, and the [OSError] that [Path.exists] lets
    through for a path (up to Python 3.12 it swallows only the errors
    that say that the path is not there; a permission error or a name
    that is too long is raised). *)
Record Host : Type := mkHost {
  host_env : Env;
  argparse : list string -> Parse;
  stat_error : string -> option Exception
}.

(** [parse_args], lines 189-221. *)
Definition parse_args (h : Host) (argv : list string) : M Args :=
  match argparse h argv with
  | Parsed args => ret args
  | HelpShown => sys_exit 0
  | UsageError => sys_exit 2
  end.

(** [f.exists()] *)
Definition path_exists (h : Host) (f : string) : M bool :=
  match stat_error h f with
  | Some e => raise e
  | None => ret (Sys.path_exists (host_env h) f)
  end.

(** [main], lines 229-238. *)
Definition check_paths (h : Host) (args : Args) : M unit :=
  let input_files := args_input args in
  for_each input_files tt (fun _ f =>
    found <- path_exists h f ;;
    if negb found
    then log ERROR "Input file does not exist: %s" [AStr f] ;;
         sys_exit 2
    else ret tt) ;;
  let output_path := args_output args in
  if negb (String.eqb (lower (path_suffix (host_env h) output_path)) ".xlsx")
  then log ERROR "Output file must have .xlsx extension." [] ;;
       sys_exit 2
  else ret tt.

(** [main], lines 224-287: [parse_args], the path checks with
    [Path.exists] as it is, then the blocks of lines 240-287 as
    [DataPrep.main] has them. *)
Definition main (h : Host) (argv : list string) : M unit :=
  args <- parse_args h argv ;;
  check_paths h args ;;
  let env := host_env h in
  rename_map <- parse_rename_arg (args_rename args) ;;
  df <- load env args ;;
  after_load env args rename_map df.

(** The error of [Path.exists] that the loop of lines 230-233 runs into:
    that of the first input for which it raises, when every input before
    it exists. *)
Fixpoint first_stat_error (h : Host) (files : list string)
  : option Exception :=
  match files with
  | [] => None
  | f :: r =>
      match stat_error h f with
      | Some e => Some e
      | None =>
          if Sys.path_exists (host_env h) f
          then first_stat_error h r
          else None
      end
  end.

(** A host on the sample: [argparse] knows [--help] and the command
    lines [-i FILE -o FILE]; the directory [/locked] cannot be looked
    into. *)
Definition sample : Host :=
  mkHost Sample.env
         (fun argv =>
            if mem "--help" argv then HelpShown
            else match argv with
                 | [i; input; o; output] =>
                     if String.eqb i "-i" && String.eqb o "-o"
                     then Parsed (Sample.args [input] output)
                     else UsageError
                 | _ => UsageError
                 end)
         (fun f => if prefix "/locked/" f
                   then Some (mkExc "PermissionError" "Permission denied")
                   else None).

End Script.

(* ===================================================================== *)
(** ** Facts about the Python built-ins                                   *)
(* ===================================================================== *)

Section Characters.
Import Py Spec.

Ltac by_cases c := destruct c as [[] [] [] [] [] [] [] []]; reflexivity.

Lemma lower_char_idem c : lower_char (lower_char c) = lower_char c.
Proof. by_cases c. Qed.

Lemma isspace_lower_char c : isspace (lower_char c) = isspace c.
Proof. by_cases c. Qed.

Lemma is_separator_lower_char c :
  is_separator (lower_char c) = is_separator c.
Proof. by_cases c. Qed.

Lemma is_underscore_lower_char c :
  is_underscore (lower_char c) = is_underscore c.
Proof. by_cases c. Qed.

Lemma eqb_lower_char_sep a c :
  is_separator a || is_underscore a = true ->
  Ascii.eqb (lower_char c) a = Ascii.eqb c a.
Proof.
  unfold is_separator, is_underscore, separators; simpl.
  rewrite !orb_false_r, !orb_true_iff, !Ascii.eqb_eq.
  intros [[H|[H|[H|[H|H]]]]|H]; subst a; by_cases c.
Qed.

Lemma isspace_not_plain c : isspace c = true -> plain_char c = false.
Proof. unfold plain_char; intros ->; reflexivity. Qed.

End Characters.

Section Strings.
Import Py Spec.

Lemma prefix_cons a w c t :
  prefix (String a w) (String c t) = Ascii.eqb a c && prefix w t.
Proof.
  simpl. destruct (ascii_dec a c) as [->|Hne].
  - now rewrite Ascii.eqb_refl.
  - apply Ascii.eqb_neq in Hne. now rewrite Hne.
Qed.

Lemma prefix_empty_l s : prefix "" s = true.
Proof. destruct s; reflexivity. Qed.

Lemma prefix_empty_r a w : prefix (String a w) "" = false.
Proof. reflexivity. Qed.

Lemma contains_cons w c t :
  contains w (String c t) = prefix w (String c t) || contains w t.
Proof. reflexivity. Qed.

(** Induction on strings, two characters at a time. *)
Lemma string_pair_ind (P : string -> Prop) :
  P "" ->
  (forall c, P (String c "")) ->
  (forall c c' t, P t -> P (String c' t) -> P (String c (String c' t))) ->
  forall s, P s.
Proof.
  intros H0 H1 H2 s.
  assert (H : P s /\ forall c, P (String c s)).
  { induction s as [|c' t [IHt IHc]].
    - split; [exact H0 | exact H1].
    - split; [apply IHc | intros c; apply H2; [exact IHt | apply IHc]]. }
  exact (proj1 H).
Qed.

(** *** [lower] *)

Lemma lower_idem s : lower (lower s) = lower s.
Proof.
  induction s as [|c t IH]; simpl; [reflexivity|].
  now rewrite lower_char_idem, IH.
Qed.

Lemma length_lower s : String.length (lower s) = String.length s.
Proof. induction s as [|c t IH]; simpl; [reflexivity | now rewrite IH]. Qed.

Lemma all_chars_lower P s :
  (forall c, P (lower_char c) = P c) ->
  all_chars P (lower s) = all_chars P s.
Proof.
  intros HP. induction s as [|c t IH]; simpl; [reflexivity|].
  now rewrite HP, IH.
Qed.

(** *** [strip] *)

Lemma lstrip_head_ok s : head_ok (lstrip s) = true.
Proof.
  induction s as [|c t IH]; simpl; [reflexivity|].
  destruct (isspace c) eqn:Hc; [exact IH | simpl; now rewrite Hc].
Qed.

Lemma lstrip_fixed s : head_ok s = true -> lstrip s = s.
Proof.
  destruct s as [|c t]; simpl; [reflexivity|].
  now destruct (isspace c).
Qed.

Lemma rstrip_empty_iff s :
  rstrip s = "" <-> all_chars isspace s = true.
Proof.
  induction s as [|c t IH]; simpl; [tauto|].
  destruct (rstrip t) as [|c' t'] eqn:Ht.
  - destruct (isspace c); simpl.
    + split; [intros _; now apply IH | reflexivity].
    + split; discriminate.
  - split; [discriminate|].
    rewrite andb_true_iff. intros [_ H]. apply IH in H. discriminate.
Qed.

Lemma rstrip_last_ok s : last_ok (rstrip s) = true.
Proof.
  induction s as [|c t IH]; simpl; [reflexivity|].
  destruct (rstrip t) as [|c' t'] eqn:Ht.
  - destruct (isspace c) eqn:Hc; simpl; [reflexivity | now rewrite Hc].
  - exact IH.
Qed.

Lemma rstrip_fixed s : last_ok s = true -> rstrip s = s.
Proof.
  induction s as [|c t IH]; simpl; [reflexivity|].
  destruct t as [|c' t'].
  - simpl. intros H. now destruct (isspace c).
  - intros H. rewrite (IH H). reflexivity.
Qed.

Lemma rstrip_head_ok s : head_ok s = true -> head_ok (rstrip s) = true.
Proof.
  destruct s as [|c t]; simpl; [reflexivity|].
  intros Hc. destruct (rstrip t); simpl.
  - destruct (isspace c) eqn:E; simpl in *; [discriminate | now rewrite E].
  - exact Hc.
Qed.

Lemma strip_head_ok s : head_ok (strip s) = true.
Proof. apply rstrip_head_ok, lstrip_head_ok. Qed.

Lemma strip_last_ok s : last_ok (strip s) = true.
Proof. apply rstrip_last_ok. Qed.

Lemma strip_fixed s : head_ok s = true -> last_ok s = true -> strip s = s.
Proof.
  intros Hh Hl. unfold strip. rewrite (lstrip_fixed s Hh).
  now apply rstrip_fixed.
Qed.

Lemma lower_lstrip s : lower (lstrip s) = lstrip (lower s).
Proof.
  induction s as [|c t IH]; simpl; [reflexivity|].
  rewrite isspace_lower_char. now destruct (isspace c).
Qed.

Lemma lower_rstrip s : lower (rstrip s) = rstrip (lower s).
Proof.
  induction s as [|c t IH]; simpl; [reflexivity|].
  rewrite <- IH, isspace_lower_char.
  destruct (rstrip t) as [|c' t']; simpl;
    [now destruct (isspace c) | reflexivity].
Qed.

Lemma lower_strip s : lower (strip s) = strip (lower s).
Proof. unfold strip. now rewrite lower_rstrip, lower_lstrip. Qed.

End Strings.

Section Replace.
Import Py Spec.

Lemma all_chars_append P a b :
  all_chars P (a ++ b) = all_chars P a && all_chars P b.
Proof.
  induction a as [|c t IH]; simpl; [reflexivity|].
  now rewrite IH, andb_assoc.
Qed.

(** [replace] brings in no character that is in neither [s] nor [new]. *)
Lemma all_chars_replace_from P old new s k :
  all_chars P new = true -> all_chars P s = true ->
  all_chars P (replace_from old new s k) = true.
Proof.
  intros Hnew. revert k. induction s as [|c t IH]; intros k Hs; [reflexivity|].
  simpl in Hs. apply andb_true_iff in Hs as [Hc Ht].
  cbn [replace_from]. destruct k as [|k]; [|now apply IH].
  destruct (prefix old (String c t)).
  - rewrite all_chars_append, Hnew. now apply IH.
  - simpl. rewrite Hc. now apply IH.
Qed.

Lemma all_chars_replace P a new s :
  all_chars P new = true -> all_chars P s = true ->
  all_chars P (replace (String a "") new s) = true.
Proof. apply all_chars_replace_from. Qed.

(** *** One character for another *)

Lemma replace_char_cons a b c t :
  replace (String a "") (String b "") (String c t)
  = String (if Ascii.eqb a c then b else c)
           (replace (String a "") (String b "") t).
Proof.
  unfold replace. cbn [replace_from].
  rewrite prefix_cons, prefix_empty_l, andb_true_r.
  now destruct (Ascii.eqb a c).
Qed.

Lemma replace_char_gone a b s :
  a <> b ->
  all_chars (fun c => negb (Ascii.eqb c a))
            (replace (String a "") (String b "") s) = true.
Proof.
  intros Hab. induction s as [|c t IH]; [reflexivity|].
  rewrite replace_char_cons. cbn [all_chars]. rewrite IH, andb_true_r.
  destruct (Ascii.eqb a c) eqn:Hac.
  - apply negb_true_iff, Ascii.eqb_neq. congruence.
  - now rewrite Ascii.eqb_sym, Hac.
Qed.

Lemma replace_char_absent a b s :
  all_chars (fun c => negb (Ascii.eqb c a)) s = true ->
  replace (String a "") (String b "") s = s.
Proof.
  induction s as [|c t IH]; [reflexivity|].
  cbn [all_chars]. rewrite andb_true_iff, negb_true_iff. intros [Hc Ht].
  rewrite replace_char_cons, (IH Ht), Ascii.eqb_sym, Hc. reflexivity.
Qed.

Lemma replace_char_head_ok a b s :
  isspace b = false -> head_ok s = true ->
  head_ok (replace (String a "") (String b "") s) = true.
Proof.
  intros Hb. destruct s as [|c t]; [reflexivity|].
  rewrite replace_char_cons. simpl.
  destruct (Ascii.eqb a c); [now rewrite Hb | tauto].
Qed.

Lemma replace_char_last_ok a b s :
  isspace b = false -> last_ok s = true ->
  last_ok (replace (String a "") (String b "") s) = true.
Proof.
  intros Hb. induction s as [|c t IH]; [reflexivity|].
  rewrite replace_char_cons. destruct t as [|c' t'].
  - simpl. destruct (Ascii.eqb a c); [now rewrite Hb | tauto].
  - intros H. change (last_ok (String c' t') = true) in H.
    specialize (IH H). rewrite replace_char_cons in *. exact IH.
Qed.

Lemma lower_replace_char a b s :
  is_separator a || is_underscore a = true ->
  is_separator b || is_underscore b = true ->
  lower (replace (String a "") (String b "") s)
  = replace (String a "") (String b "") (lower s).
Proof.
  intros Ha Hb. induction s as [|c t IH]; [reflexivity|].
  simpl lower. rewrite !replace_char_cons. simpl lower. rewrite IH.
  rewrite (Ascii.eqb_sym a (lower_char c)), (eqb_lower_char_sep _ c Ha).
  rewrite (Ascii.eqb_sym c a).
  destruct (Ascii.eqb a c); [|reflexivity].
  f_equal. pose proof (eqb_lower_char_sep _ b Hb) as H.
  rewrite Ascii.eqb_refl in H. now apply Ascii.eqb_eq in H.
Qed.

(** *** Two underscores for one *)

Lemma replace_from_skip old new c t k :
  replace_from old new (String c t) (S k) = replace_from old new t k.
Proof. reflexivity. Qed.

Lemma replace_from_start old new c t :
  replace_from old new (String c t) 0
  = if prefix old (String c t)
    then new ++ replace_from old new t (String.length old - 1)
    else String c (replace_from old new t 0).
Proof. reflexivity. Qed.

Lemma squeeze_cons c c' t :
  squeeze (String c (String c' t))
  = if is_underscore c && is_underscore c'
    then String "_" (squeeze t)
    else String c (squeeze (String c' t)).
Proof. reflexivity. Qed.

Lemma replace_underscores s : replace "__" "_" s = squeeze s.
Proof.
  unfold replace.
  induction s as [| c | c c' t IHt IHc] using string_pair_ind.
  - reflexivity.
  - rewrite replace_from_start, prefix_cons. simpl.
    now rewrite andb_false_r.
  - rewrite replace_from_start, squeeze_cons.
    rewrite !prefix_cons, prefix_empty_l, andb_true_r.
    unfold is_underscore. rewrite (Ascii.eqb_sym c), (Ascii.eqb_sym c').
    destruct (Ascii.eqb "_" c && Ascii.eqb "_" c') eqn:Huu.
    + change (String.length "__" - 1) with 1.
      rewrite replace_from_skip, IHt. reflexivity.
    + now rewrite IHc.
Qed.

Lemma contains_underscores_cons c c' t :
  contains "__" (String c (String c' t))
  = is_underscore c && is_underscore c' || contains "__" (String c' t).
Proof.
  rewrite contains_cons, !prefix_cons, prefix_empty_l, andb_true_r.
  unfold is_underscore. now rewrite (Ascii.eqb_sym c), (Ascii.eqb_sym c').
Qed.

Lemma contains_underscores_one c : contains "__" (String c "") = false.
Proof.
  rewrite contains_cons, prefix_cons. simpl. now rewrite andb_false_r.
Qed.

Lemma length_squeeze_le s : String.length (squeeze s) <= String.length s.
Proof.
  induction s as [| c | c c' t IHt IHc] using string_pair_ind;
    [reflexivity | reflexivity |].
  rewrite squeeze_cons.
  destruct (is_underscore c && is_underscore c'); simpl in *; lia.
Qed.

Lemma length_squeeze_lt s :
  contains "__" s = true -> String.length (squeeze s) < String.length s.
Proof.
  induction s as [| c | c c' t IHt IHc] using string_pair_ind.
  - discriminate.
  - rewrite contains_underscores_one. discriminate.
  - rewrite contains_underscores_cons, squeeze_cons.
    destruct (is_underscore c && is_underscore c'); simpl orb.
    + intros _. pose proof (length_squeeze_le t). simpl. lia.
    + intros H. specialize (IHc H). simpl in *. lia.
Qed.

Lemma squeeze_head_ok s : head_ok s = true -> head_ok (squeeze s) = true.
Proof.
  destruct s as [|c [|c' t]]; [reflexivity | tauto |].
  rewrite squeeze_cons.
  destruct (is_underscore c && is_underscore c') eqn:H; [reflexivity | tauto].
Qed.

Lemma squeeze_empty s : squeeze s = "" -> s = "".
Proof.
  destruct s as [|c [|c' t]]; [reflexivity | discriminate |].
  rewrite squeeze_cons.
  destruct (is_underscore c && is_underscore c'); discriminate.
Qed.

Lemma last_ok_cons c s : s <> "" -> last_ok (String c s) = last_ok s.
Proof. destruct s; [congruence | reflexivity]. Qed.

Lemma squeeze_last_ok s : last_ok s = true -> last_ok (squeeze s) = true.
Proof.
  induction s as [| c | c c' t IHt IHc] using string_pair_ind;
    [reflexivity | tauto |].
  intros H. change (last_ok (String c' t) = true) in H.
  rewrite squeeze_cons. destruct (is_underscore c && is_underscore c') eqn:Huu.
  - destruct t as [|c'' t']; [reflexivity|].
    rewrite last_ok_cons.
    + apply IHt. exact H.
    + intros E. apply squeeze_empty in E. discriminate.
  - rewrite last_ok_cons; [now apply IHc|].
    intros E. apply squeeze_empty in E. discriminate.
Qed.

Lemma lower_squeeze s : lower (squeeze s) = squeeze (lower s).
Proof.
  induction s as [| c | c c' t IHt IHc] using string_pair_ind;
    [reflexivity | reflexivity |].
  cbn [lower] in *. rewrite !squeeze_cons, !is_underscore_lower_char.
  destruct (is_underscore c && is_underscore c').
  - cbn [lower]. rewrite IHt. f_equal.
  - cbn [lower]. now rewrite IHc.
Qed.

Lemma contains_underscores_lower s :
  contains "__" (lower s) = contains "__" s.
Proof.
  induction s as [| c | c c' t IHt IHc] using string_pair_ind.
  - reflexivity.
  - simpl lower. now rewrite !contains_underscores_one.
  - cbn [lower] in *. rewrite !contains_underscores_cons, IHc.
    now rewrite !is_underscore_lower_char.
Qed.

End Replace.

(* ===================================================================== *)
(** ** [normalize_col_name]                                               *)
(* ===================================================================== *)

Section Normalizer.
Import Py Spec DataPrep.

(** The loop of lines 45-46 stops because the test fails, not because the
    fuel runs out. *)
Lemma collapse_loop_done fuel s :
  String.length s <= S fuel -> contains "__" (collapse_loop fuel s) = false.
Proof.
  revert s. induction fuel as [|k IH]; intros s Hlen; simpl.
  - destruct s as [|c [|c' t]]; [reflexivity | | simpl in Hlen; lia].
    apply contains_underscores_one.
  - destruct (contains "__" s) eqn:Hs; [|exact Hs].
    apply IH. rewrite replace_underscores.
    pose proof (length_squeeze_lt s Hs). lia.
Qed.

Lemma collapse_loop_fixed fuel s :
  contains "__" s = false -> collapse_loop fuel s = s.
Proof. intros H. destruct fuel; simpl; [reflexivity | now rewrite H]. Qed.

(** Once the test of the loop fails, further iterations change nothing. *)
Lemma collapse_loop_more_fuel fuel extra s :
  contains "__" (collapse_loop fuel s) = false ->
  collapse_loop (fuel + extra) s = collapse_loop fuel s.
Proof.
  revert s. induction fuel as [|k IH]; intros s; simpl.
  - intros H. now apply collapse_loop_fixed.
  - destruct (contains "__" s) eqn:Hs; [apply IH | reflexivity].
Qed.

Lemma collapse_loop_preserves (Q : string -> Prop) :
  (forall s, Q s -> Q (squeeze s)) ->
  forall fuel s, Q s -> Q (collapse_loop fuel s).
Proof.
  intros HQ fuel. induction fuel as [|k IH]; intros s Hs; simpl; [exact Hs|].
  destruct (contains "__" s); [|exact Hs].
  apply IH. rewrite replace_underscores. now apply HQ.
Qed.

Lemma lower_collapse_loop fuel s :
  lower (collapse_loop fuel s) = collapse_loop fuel (lower s).
Proof.
  revert s. induction fuel as [|k IH]; intros s; simpl; [reflexivity|].
  rewrite contains_underscores_lower.
  destruct (contains "__" s); [|reflexivity].
  now rewrite IH, !replace_underscores, lower_squeeze.
Qed.

Lemma all_chars_squeeze P s :
  P "_"%char = true -> all_chars P s = true -> all_chars P (squeeze s) = true.
Proof.
  intros HP Hs. rewrite <- replace_underscores.
  apply all_chars_replace_from; [simpl; now rewrite HP | exact Hs].
Qed.

(** The five replacements of lines 37-43. *)
Local Abbreviation underscored s :=
  (replace "." "_" (replace "\" "_" (replace "/" "_"
     (replace "-" "_" (replace " " "_" s))))).

Lemma underscored_no_separator s : no_separator (underscored s).
Proof.
  unfold no_separator.
  assert (Hsplit : forall x,
    all_chars (fun c => negb (is_separator c)) x
    = all_chars (fun c => negb (Ascii.eqb c " ")) x
      && all_chars (fun c => negb (Ascii.eqb c "-")) x
      && all_chars (fun c => negb (Ascii.eqb c "/")) x
      && all_chars (fun c => negb (Ascii.eqb c "\")) x
      && all_chars (fun c => negb (Ascii.eqb c ".")) x).
  { induction x as [|c t IH]; [reflexivity|].
    cbn [all_chars]. rewrite IH. unfold is_separator, separators. simpl.
    destruct (Ascii.eqb c " "), (Ascii.eqb c "-"), (Ascii.eqb c "/"),
      (Ascii.eqb c "\"), (Ascii.eqb c "."); simpl;
      repeat (rewrite ?andb_true_r, ?andb_false_r; simpl); try reflexivity;
      repeat (destruct (all_chars _ t); simpl; try reflexivity). }
  rewrite Hsplit. repeat (apply andb_true_iff; split);
    repeat first
      [ apply replace_char_gone; discriminate
      | apply all_chars_replace; [reflexivity|] ].
Qed.

Lemma underscored_head_ok s :
  head_ok s = true -> head_ok (underscored s) = true.
Proof.
  intros H. repeat (apply replace_char_head_ok; [reflexivity|]). exact H.
Qed.

Lemma underscored_last_ok s :
  last_ok s = true -> last_ok (underscored s) = true.
Proof.
  intros H. repeat (apply replace_char_last_ok; [reflexivity|]). exact H.
Qed.

Lemma underscored_fixed s : no_separator s -> underscored s = s.
Proof.
  unfold no_separator. intros H.
  assert (Hone : forall a, is_separator a = true ->
                 all_chars (fun c => negb (Ascii.eqb c a)) s = true).
  { intros a Ha. clear -H Ha. induction s as [|c t IH]; [reflexivity|].
    cbn [all_chars] in *. apply andb_true_iff in H as [Hc Ht].
    rewrite (IH Ht), andb_true_r. apply negb_true_iff, Ascii.eqb_neq.
    intros ->. rewrite Ha in Hc. discriminate. }
  rewrite (replace_char_absent " " "_" s) by (now apply Hone).
  rewrite (replace_char_absent "-" "_" s) by (now apply Hone).
  rewrite (replace_char_absent "/" "_" s) by (now apply Hone).
  rewrite (replace_char_absent "\" "_" s) by (now apply Hone).
  now apply replace_char_absent, Hone.
Qed.

Lemma lower_underscored s : lower (underscored s) = underscored (lower s).
Proof. now rewrite !lower_replace_char by reflexivity. Qed.

(** What every normalised name looks like. *)
Lemma normalize_col_name_shape s :
  let r := normalize_col_name s in
  lower_case r /\ no_separator r /\ trimmed r /\ no_underscore_run r.
Proof.
  unfold normalize_col_name.
  set (s1 := strip s). set (s2 := underscored s1).
  set (s3 := collapse_loop (String.length s2) s2). cbv zeta.
  assert (Hsep : no_separator s3).
  { apply (collapse_loop_preserves (fun x => no_separator x)).
    - intros x Hx. now apply all_chars_squeeze.
    - apply underscored_no_separator. }
  assert (Hhead : head_ok s3 = true).
  { apply (collapse_loop_preserves (fun x => head_ok x = true)).
    - apply squeeze_head_ok.
    - apply underscored_head_ok, strip_head_ok. }
  assert (Hlast : last_ok s3 = true).
  { apply (collapse_loop_preserves (fun x => last_ok x = true)).
    - apply squeeze_last_ok.
    - apply underscored_last_ok, strip_last_ok. }
  repeat split.
  - apply lower_idem.
  - unfold no_separator. rewrite all_chars_lower; [exact Hsep|].
    intros c. now rewrite is_separator_lower_char.
  - unfold trimmed. rewrite <- lower_strip. f_equal. now apply strip_fixed.
  - unfold no_underscore_run. rewrite contains_underscores_lower.
    apply collapse_loop_done. lia.
Qed.

(** A name of that shape is a fixed point. *)
Lemma normalize_col_name_fixed r :
  lower_case r -> no_separator r -> trimmed r -> no_underscore_run r ->
  normalize_col_name r = r.
Proof.
  intros Hlow Hsep Htrim Huu. unfold normalize_col_name.
  rewrite Htrim, (underscored_fixed _ Hsep), (collapse_loop_fixed _ _ Huu).
  exact Hlow.
Qed.

(** Normalisation does not depend on the case of the header. *)
Lemma normalize_col_name_lower s :
  normalize_col_name (lower s) = normalize_col_name s.
Proof.
  unfold normalize_col_name.
  rewrite <- lower_strip, <- lower_underscored, <- lower_collapse_loop.
  rewrite length_lower, lower_idem. reflexivity.
Qed.

End Normalizer.

(** *** Words that survive normalisation *)

Section PlainWords.
Import Py Spec DataPrep.

Lemma plain_char_differs a c :
  plain_char a = true -> plain_char c = false -> Ascii.eqb a c = false.
Proof.
  intros Ha Hc. apply Ascii.eqb_neq. intros ->. congruence.
Qed.

Lemma prefix_plain_head a w c t :
  plain_char a = true -> plain_char c = false ->
  prefix (String a w) (String c t) = false.
Proof.
  intros Ha Hc. now rewrite prefix_cons, (plain_char_differs _ _ Ha Hc).
Qed.

Lemma plain_word_inv w :
  plain_word w = true ->
  exists a w', w = String a w' /\ plain_char a = true
               /\ all_chars plain_char w' = true.
Proof.
  unfold plain_word. destruct w as [|a w']; [discriminate|].
  simpl. rewrite andb_true_iff. intros [Ha Hw]. now exists a, w'.
Qed.

Lemma plain_word_chars w : plain_word w = true -> all_chars plain_char w = true.
Proof. unfold plain_word. now rewrite andb_true_iff. Qed.

Lemma contains_plain_skip w c t :
  plain_word w = true -> plain_char c = false ->
  contains w (String c t) = contains w t.
Proof.
  intros Hw Hc. destruct (plain_word_inv _ Hw) as (a & w' & -> & Ha & _).
  now rewrite contains_cons, (prefix_plain_head _ _ _ _ Ha Hc).
Qed.

Lemma contains_plain_empty w : plain_word w = true -> contains w "" = false.
Proof.
  intros Hw. destruct (plain_word_inv _ Hw) as (a & w' & -> & _). reflexivity.
Qed.

(** [lstrip] and [rstrip] *)

Lemma contains_lstrip w s :
  plain_word w = true -> contains w (lstrip s) = contains w s.
Proof.
  intros Hw. induction s as [|c t IH]; [reflexivity|].
  simpl lstrip. destruct (isspace c) eqn:Hc; [|reflexivity].
  now rewrite IH, (contains_plain_skip _ _ _ Hw (isspace_not_plain _ Hc)).
Qed.

Lemma prefix_rstrip w s :
  all_chars plain_char w = true -> prefix w (rstrip s) = prefix w s.
Proof.
  revert w. induction s as [|c t IH]; intros w Hw; [reflexivity|].
  destruct w as [|a w']; [now rewrite !prefix_empty_l|].
  cbn [all_chars] in Hw. apply andb_true_iff in Hw as [Ha Hw'].
  specialize (IH w' Hw'). simpl rstrip.
  destruct (rstrip t) as [|c' t'] eqn:Ht.
  - destruct (isspace c) eqn:Hc.
    + now rewrite (prefix_plain_head _ _ _ _ Ha (isspace_not_plain _ Hc)).
    + now rewrite !prefix_cons, IH.
  - now rewrite !prefix_cons, IH.
Qed.

Lemma rstrip_cons c t :
  rstrip (String c t)
  = match rstrip t with
    | "" => if isspace c then "" else String c ""
    | t' => String c t'
    end.
Proof. reflexivity. Qed.

Lemma contains_rstrip w s :
  plain_word w = true -> contains w (rstrip s) = contains w s.
Proof.
  intros Hw. pose proof (plain_word_chars _ Hw) as Hch.
  induction s as [|c t IH]; [reflexivity|].
  rewrite (contains_cons w c t), <- (prefix_rstrip _ (String c t) Hch), <- IH.
  rewrite rstrip_cons. destruct (rstrip t) as [|c' t'] eqn:Ht.
  - destruct (isspace c); [|apply contains_cons].
    rewrite (contains_plain_empty _ Hw).
    destruct (plain_word_inv _ Hw) as (a & w' & -> & _). reflexivity.
  - apply contains_cons.
Qed.

Lemma contains_strip w s :
  plain_word w = true -> contains w (strip s) = contains w s.
Proof.
  intros Hw. unfold strip. now rewrite contains_rstrip, contains_lstrip.
Qed.

(** One separator for an underscore *)

Lemma prefix_replace_char w a b s :
  all_chars plain_char w = true ->
  plain_char a = false -> plain_char b = false ->
  prefix w (replace (String a "") (String b "") s) = prefix w s.
Proof.
  intros Hw Ha Hb. revert w Hw.
  induction s as [|c t IH]; intros w Hw; [reflexivity|].
  rewrite replace_char_cons.
  destruct w as [|x w']; [now rewrite !prefix_empty_l|].
  cbn [all_chars] in Hw. apply andb_true_iff in Hw as [Hx Hw'].
  rewrite !prefix_cons, (IH _ Hw').
  destruct (Ascii.eqb a c) eqn:Hac; [|reflexivity].
  apply Ascii.eqb_eq in Hac. subst c.
  now rewrite (plain_char_differs _ _ Hx Hb), (plain_char_differs _ _ Hx Ha).
Qed.

Lemma contains_replace_char w a b s :
  plain_word w = true ->
  plain_char a = false -> plain_char b = false ->
  contains w (replace (String a "") (String b "") s) = contains w s.
Proof.
  intros Hw Ha Hb. pose proof (plain_word_chars _ Hw) as Hch.
  induction s as [|c t IH]; [reflexivity|].
  rewrite (contains_cons w c t).
  rewrite <- (prefix_replace_char _ _ _ (String c t) Hch Ha Hb).
  rewrite <- IH, replace_char_cons. apply contains_cons.
Qed.

(** Two underscores for one *)

Lemma prefix_squeeze w s :
  all_chars plain_char w = true -> prefix w (squeeze s) = prefix w s.
Proof.
  revert w. induction s as [| c | c c' t IHt IHc] using string_pair_ind;
    intros w Hw; [reflexivity | reflexivity |].
  destruct w as [|x w']; [now rewrite !prefix_empty_l|].
  cbn [all_chars] in Hw. apply andb_true_iff in Hw as [Hx Hw'].
  rewrite squeeze_cons.
  destruct (is_underscore c && is_underscore c') eqn:Huu.
  - apply andb_true_iff in Huu as [Hc _].
    apply Ascii.eqb_eq in Hc. subst c.
    now rewrite !(prefix_plain_head _ _ _ _ Hx) by reflexivity.
  - now rewrite !(prefix_cons x w' c), (IHc _ Hw').
Qed.

Lemma contains_squeeze w s :
  plain_word w = true -> contains w (squeeze s) = contains w s.
Proof.
  intros Hw. pose proof (plain_word_chars _ Hw) as Hch.
  induction s as [| c | c c' t IHt IHc] using string_pair_ind;
    [reflexivity | reflexivity |].
  rewrite (contains_cons w c (String c' t)).
  rewrite <- (prefix_squeeze _ (String c (String c' t)) Hch), <- IHc.
  rewrite squeeze_cons.
  destruct (is_underscore c && is_underscore c') eqn:Huu.
  - apply andb_true_iff in Huu as [Hc Hc'].
    apply Ascii.eqb_eq in Hc, Hc'. subst c c'.
    rewrite IHc, !(contains_plain_skip _ _ _ Hw) by reflexivity.
    destruct (plain_word_inv _ Hw) as (a & w' & -> & Ha & _).
    rewrite (prefix_plain_head _ w' _ _ Ha) by reflexivity.
    now rewrite IHt.
  - apply contains_cons.
Qed.

Lemma contains_collapse_loop w fuel s :
  plain_word w = true -> contains w (collapse_loop fuel s) = contains w s.
Proof.
  intros Hw. revert s. induction fuel as [|k IH]; intros s; [reflexivity|].
  simpl. destruct (contains "__" s); [|reflexivity].
  now rewrite IH, replace_underscores, contains_squeeze.
Qed.

(** A plain word occurs in the normalised name exactly when it occurs in
    the lower-cased header. *)
Lemma contains_normalize_col_name w s :
  plain_word w = true ->
  contains w (normalize_col_name s) = contains w (lower s).
Proof.
  intros Hw. unfold normalize_col_name.
  rewrite lower_collapse_loop, lower_underscored, lower_strip.
  rewrite (contains_collapse_loop _ _ _ Hw).
  rewrite !(contains_replace_char _ _ _ _ Hw) by reflexivity.
  now apply contains_strip.
Qed.

End PlainWords.

Section NormalizerClaims.
Import Py Spec DataPrep.

Local Abbreviation underscored s :=
  (replace "." "_" (replace "\" "_" (replace "/" "_"
     (replace "-" "_" (replace " " "_" s))))).

Lemma all_chars_weaken (P Q : ascii -> bool) s :
  (forall c, P c = true -> Q c = true) ->
  all_chars P s = true -> all_chars Q s = true.
Proof.
  intros HPQ. induction s as [|c t IH]; [reflexivity|].
  simpl. rewrite !andb_true_iff. intros [Hc Ht]. split; auto.
Qed.

Lemma no_separator_no_space s : no_separator s -> no_space s.
Proof.
  apply all_chars_weaken. intros c.
  unfold is_separator, separators. simpl.
  now destruct (Ascii.eqb c " ").
Qed.

(** C1, as the specification states it, fails on a header with a tab in
    the middle: [strip] only trims the ends and only the space character
    is replaced, so the tab is still there in the result. *)
Lemma normalize_col_name_keeps_inner_tab :
  let r := normalize_col_name ("a" ++ String "009" "b") in
  r = "a" ++ String "009" "b"
  /\ ~ (lower_case r /\ no_whitespace r /\ no_underscore_run r).
Proof.
  split; [reflexivity|].
  intros (_ & Hws & _). vm_compute in Hws. discriminate.
Qed.

(** *** Whitespace inside the name *)

Lemma inner_whitespace_lower_char c :
  inner_whitespace (lower_char c) = inner_whitespace c.
Proof. destruct c as [[] [] [] [] [] [] [] []]; reflexivity. Qed.

Lemma inner_whitespace_fixed c :
  inner_whitespace c = true -> lower_char c = c.
Proof.
  destruct c as [[] [] [] [] [] [] [] []]; intros H; try reflexivity;
    discriminate H.
Qed.

Lemma only_lower s :
  only inner_whitespace (lower s) = only inner_whitespace s.
Proof.
  induction s as [|c t IH]; [reflexivity|].
  cbn [lower only]. rewrite inner_whitespace_lower_char, IH.
  destruct (inner_whitespace c) eqn:Hc; [|reflexivity].
  now rewrite (inner_whitespace_fixed c Hc).
Qed.

Lemma only_replace_char (P : ascii -> bool) a s :
  P a = false -> P "_"%char = false ->
  only P (replace (String a "") "_" s) = only P s.
Proof.
  intros Ha Hu. induction s as [|c t IH]; [reflexivity|].
  rewrite replace_char_cons. cbn [only]. rewrite IH.
  destruct (Ascii.eqb_spec a c) as [<-|_]; [now rewrite Hu, Ha | reflexivity].
Qed.

Lemma only_squeeze (P : ascii -> bool) s :
  P "_"%char = false -> only P (squeeze s) = only P s.
Proof.
  intros Hu.
  induction s as [| c | c c' t IHt IHc] using string_pair_ind;
    [reflexivity | reflexivity |].
  rewrite squeeze_cons.
  destruct (is_underscore c && is_underscore c') eqn:Huu.
  - apply andb_true_iff in Huu as [Hc Hc'].
    apply Ascii.eqb_eq in Hc, Hc'. subst c c'.
    cbn [only]. now rewrite Hu, IHt.
  - cbn [only] in *. now rewrite IHc.
Qed.

(** Normalisation keeps the whitespace inside the name that is not the
    space character: the tabs, line ends and the like of the trimmed
    header are those of the result, in the same order. *)
Lemma normalize_col_name_inner_whitespace s :
  only inner_whitespace (normalize_col_name s)
  = only inner_whitespace (strip s).
Proof.
  unfold normalize_col_name. cbv zeta. rewrite only_lower.
  set (u := underscored (strip s)).
  assert (Hu : only inner_whitespace u = only inner_whitespace (strip s)).
  { subst u. now rewrite !only_replace_char by reflexivity. }
  rewrite <- Hu.
  apply (collapse_loop_preserves
           (fun x => only inner_whitespace x = only inner_whitespace u));
    [|reflexivity].
  intros x Hx. now rewrite only_squeeze.
Qed.

(** C1, amended: for every input string [normalize_col_name] returns, the
    loop of lines 45-46 ending on its own test (more iterations would not
    change the name), and the string returned is lower-case, has no
    whitespace at either end, holds no space character and none of the
    other separators (hyphen, slash, backslash, period), and has no run
    of two or more underscores; the whitespace other than the space
    character that the trimmed input holds is kept, character by
    character and in the same order. *)
Theorem normalize_col_name_total s :
  let r := normalize_col_name s in
  let name := underscored (strip s) in
  (forall extra,
     collapse_loop (String.length name + extra) name
     = collapse_loop (String.length name) name)
  /\ lower_case r /\ trimmed r /\ no_space r /\ no_separator r
  /\ no_underscore_run r
  /\ only inner_whitespace r = only inner_whitespace (strip s).
Proof.
  destruct (normalize_col_name_shape s) as (Hlow & Hsep & Htrim & Huu).
  cbv zeta. repeat split; try assumption.
  - intros extra. apply collapse_loop_more_fuel, collapse_loop_done. lia.
  - now apply no_separator_no_space.
  - apply normalize_col_name_inner_whitespace.
Qed.

(** C8: normalising a normalised name returns it unchanged. *)
Theorem normalize_col_name_idempotent s :
  normalize_col_name (normalize_col_name s) = normalize_col_name s.
Proof.
  destruct (normalize_col_name_shape s) as (Hlow & Hsep & Htrim & Huu).
  now apply normalize_col_name_fixed.
Qed.

End NormalizerClaims.

(* ===================================================================== *)
(** ** The monad of runs                                                  *)
(* ===================================================================== *)

Section Runs.
Import Sys.

Lemma bind_done {A B} (m : M A) (k : A -> M B) a t :
  m = (Done a, t) -> bind m k = (fst (k a), (t ++ snd (k a))%list).
Proof. intros ->. reflexivity. Qed.

Lemma bind_ret {A B} (a : A) (k : A -> M B) : bind (ret a) k = k a.
Proof. unfold bind, ret. simpl. now destruct (k a). Qed.

Lemma bind_log {B} lvl fmt args (k : unit -> M B) :
  bind (log lvl fmt args) k
  = (fst (k tt), EvLog lvl fmt args :: snd (k tt)).
Proof. reflexivity. Qed.

Lemma bind_fst_done {A B} (m : M A) (k : A -> M B) a :
  fst m = Done a -> bind m k = (fst (k a), (snd m ++ snd (k a))%list).
Proof. unfold bind. now intros ->. Qed.

Lemma bind_fst_raised {A B} (m : M A) (k : A -> M B) e :
  fst m = Raised e -> bind m k = (Raised e, snd m).
Proof. unfold bind. now intros ->. Qed.

Lemma bind_fst_exited {A B} (m : M A) (k : A -> M B) c :
  fst m = Exited c -> bind m k = (Exited c, snd m).
Proof. unfold bind. now intros ->. Qed.

(** *** Events that a run never produces *)

Lemma never_ret {A} P (a : A) : Spec.never P (ret a).
Proof. reflexivity. Qed.

Lemma never_raise {A} P e : Spec.never P (@raise A e).
Proof. reflexivity. Qed.

Lemma never_sys_exit {A} P c : Spec.never P (@sys_exit A c).
Proof. reflexivity. Qed.

Lemma never_lift {A} P (x : Exc A) : Spec.never P (lift x).
Proof. destruct x; reflexivity. Qed.

Lemma never_log P lvl fmt args :
  P (EvLog lvl fmt args) = false -> Spec.never P (log lvl fmt args).
Proof. unfold Spec.never. simpl. now intros ->. Qed.

Lemma never_bind {A B} P (m : M A) (k : A -> M B) :
  Spec.never P m -> (forall a, Spec.never P (k a)) -> Spec.never P (bind m k).
Proof.
  unfold Spec.never, bind. intros Hm Hk.
  destruct (fst m); simpl; [|exact Hm | exact Hm].
  now rewrite existsb_app, Hm, Hk.
Qed.

Lemma never_try_except {A} P (m : M A) (h : Exception -> M A) :
  Spec.never P m -> (forall e, Spec.never P (h e)) ->
  Spec.never P (try_except m h).
Proof.
  unfold Spec.never, try_except. intros Hm Hh.
  destruct (fst m); simpl; [exact Hm | | exact Hm].
  now rewrite existsb_app, Hm, Hh.
Qed.

Lemma never_for_each {A B} P (l : list A) (body : B -> A -> M B) :
  (forall acc x, Spec.never P (body acc x)) ->
  forall acc, Spec.never P (for_each l acc body).
Proof.
  intros Hbody. induction l as [|x r IH]; intros acc; simpl.
  - apply never_ret.
  - apply never_bind; [apply Hbody | exact IH].
Qed.

(** *** The monad laws *)

Lemma bind_assoc {A B C} (m : M A) (f : A -> M B) (g : B -> M C) :
  bind (bind m f) g = bind m (fun a => bind (f a) g).
Proof.
  unfold bind. destruct m as [[a|e|c] t]; simpl; try reflexivity.
  destruct (f a) as [[b|e|c] t']; simpl; try reflexivity.
  now rewrite app_assoc.
Qed.

Lemma bind_ret_r {A} (m : M A) : bind m ret = m.
Proof.
  unfold bind, ret. destruct m as [[a|e|c] t]; simpl; try reflexivity.
  now rewrite app_nil_r.
Qed.

Lemma bind_ext {A B} (m : M A) (k k' : A -> M B) :
  (forall a, k a = k' a) -> bind m k = bind m k'.
Proof.
  intros H. unfold bind. destruct (fst m); try reflexivity. now rewrite H.
Qed.

Lemma for_each_fst_done {A B} (l : list A) (body : B -> A -> M B)
      (step : B -> A -> B) :
  (forall acc x, fst (body acc x) = Done (step acc x)) ->
  forall acc, fst (for_each l acc body) = Done (fold_left step l acc).
Proof.
  intros Hbody. induction l as [|x r IH]; intros acc; [reflexivity|].
  cbn [for_each fold_left].
  rewrite (bind_fst_done _ _ _ (Hbody acc x)). simpl. apply IH.
Qed.

End Runs.

(* ===================================================================== *)
(** ** [parse_rename_arg]                                                 *)
(* ===================================================================== *)

Section RenameParser.
Import Py Sys DataPrep Spec.

(** The loop of lines 59-64 from any mapping built so far: the entries
    with a colon are stored in order, the others are reported in order. *)
Lemma parse_rename_loop pairs :
  forall mapping,
  for_each pairs mapping (fun mapping pair =>
    if negb (contains ":" pair)
    then log WARNING "Ignoring invalid rename pair: %s (expected OLD:NEW)"
             [AStr pair] ;;
         ret mapping
    else let (old, new) := split_once ":" pair in
         ret (dict_set mapping (normalize_col_name old) (strip new)))
  = (Done (fold_left (fun d kv => dict_set d (fst kv) (snd kv))
                     (map rename_entry (filter has_colon pairs)) mapping),
     map rename_warning (filter (fun p => negb (has_colon p)) pairs)).
Proof.
  induction pairs as [|pair rest IH]; intros mapping; [reflexivity|].
  assert (E : rename_entry pair
              = (normalize_col_name (fst (split_once ":" pair)),
                 strip (snd (split_once ":" pair)))).
  { unfold rename_entry. now destruct (split_once ":" pair). }
  cbn [for_each filter]. change (has_colon pair) with (contains ":" pair).
  destruct (contains ":" pair) eqn:Hc; cbn [negb map fold_left].
  - rewrite E. destruct (split_once ":" pair) as [old new].
    rewrite bind_ret, IH. reflexivity.
  - rewrite bind_log. erewrite bind_done by reflexivity.
    rewrite IH. reflexivity.
Qed.

(** C5: the specification ["A:b,C:d"] yields exactly the mapping from
    [normalize "A"] to ["b"] and from [normalize "C"] to ["d"]; the entry
    ["A"], which has no colon, yields the empty mapping and one warning;
    in general the entries without a colon add nothing to the mapping and
    leave one warning each; an empty or absent specification yields the
    empty mapping. *)
Theorem parse_rename_arg_spec :
  parse_rename_arg (Some "A:b,C:d")
  = (Done [(normalize_col_name "A", "b"); (normalize_col_name "C", "d")], [])
  /\ parse_rename_arg (Some "A") = (Done [], [rename_warning "A"])
  /\ (forall arg,
        parse_rename_arg (Some arg)
        = (Done (dict_of (map rename_entry
                              (filter has_colon (comma_list arg)))),
           map rename_warning
               (filter (fun p => negb (has_colon p)) (comma_list arg))))
  /\ parse_rename_arg None = (Done [], [])
  /\ parse_rename_arg (Some "") = (Done [], []).
Proof.
  repeat split; try reflexivity.
  intros arg. destruct arg as [|c t]; [reflexivity|].
  unfold parse_rename_arg. apply parse_rename_loop.
Qed.

End RenameParser.

Lemma parse_rename_arg_done arg :
  exists d, fst (DataPrep.parse_rename_arg arg) = Sys.Done d.
Proof.
  destruct arg as [[|c t]|]; [now exists [] | | now exists []].
  unfold DataPrep.parse_rename_arg. rewrite parse_rename_loop.
  eexists. reflexivity.
Qed.

(* ===================================================================== *)
(** ** Date columns: the heuristic and when it runs                       *)
(* ===================================================================== *)

Section DateColumns.
Import Py Pandas Sys DataPrep Spec.

(** The loop of lines 70-74 is a filter. *)
Lemma auto_detect_date_cols_filter df :
  auto_detect_date_cols df = filter date_like (columns df).
Proof.
  unfold auto_detect_date_cols.
  assert (H : forall l acc,
    fold_left (fun candidates c =>
                 if date_like c then (candidates ++ [c])%list else candidates)
              l acc
    = (acc ++ filter date_like l)%list).
  { induction l as [|c r IH]; intros acc; simpl.
    - now rewrite app_nil_r.
    - rewrite IH. destruct (date_like c); [|reflexivity].
      now rewrite <- app_assoc. }
  apply H.
Qed.

(** The test on the raw header and the test on the normalised name agree. *)
Lemma date_like_normalized c :
  date_like c = names_a_date (lower (normalize_col_name c)).
Proof.
  destruct (normalize_col_name_shape c) as (Hlow & _). cbv zeta in Hlow.
  rewrite Hlow. unfold date_like, names_a_date, date_words. cbn [existsb].
  rewrite !contains_normalize_col_name by reflexivity.
  now rewrite orb_false_r, !orb_assoc.
Qed.

Create HintDb quiet.

Ltac quiet_step :=
  match goal with
  | |- never _ (ret _) => apply never_ret
  | |- never _ (raise _) => apply never_raise
  | |- never _ (sys_exit _) => apply never_sys_exit
  | |- never _ (lift _) => apply never_lift
  | |- never _ (log _ _ _) => apply never_log; reflexivity
  | |- never _ (read _ _) => reflexivity
  | |- never _ (write _ _ _) => reflexivity
  | |- never _ (bind _ _) => apply never_bind; [|intros ?]
  | |- never _ (try_except _ _) => apply never_try_except; [|intros ?]
  | |- never _ (for_each _ _ _) => apply never_for_each; intros ? ?
  | |- never _ (if ?b then _ else _) => destruct b
  | |- never _ (match ?x with _ => _ end) => destruct x
  | |- never _ _ => solve [auto with quiet]
  end.

Ltac quiet := repeat quiet_step.

Lemma quiet_check_paths env args :
  never auto_detect_record (check_paths env args).
Proof. unfold check_paths. quiet. Qed.

Lemma quiet_parse_rename_arg arg :
  never auto_detect_record (parse_rename_arg arg).
Proof. unfold parse_rename_arg. quiet. Qed.

Lemma quiet_load env args : never auto_detect_record (load env args).
Proof. unfold load, load_and_concat. quiet. Qed.

Lemma quiet_try_parse_dates env df cols :
  never auto_detect_record (try_parse_dates env df cols).
Proof. unfold try_parse_dates. quiet. Qed.

Lemma quiet_run_process env args rename_map date_cols_flag df :
  never auto_detect_record (run_process env args rename_map date_cols_flag df).
Proof.
  pose proof quiet_try_parse_dates as Hdates.
  unfold run_process, process_dataframe, normalize_columns, apply_rename_map,
    trim_strings, parse_date_columns, drop_missing, fill_missing.
  quiet; apply Hdates.
Qed.

Lemma quiet_export_to_excel env df output_path :
  never auto_detect_record (export_to_excel env df output_path).
Proof. unfold export_to_excel. quiet. Qed.

Hint Resolve quiet_check_paths quiet_parse_rename_arg quiet_load
  quiet_run_process quiet_export_to_excel : quiet.

Lemma resolve_date_cols_auto df :
  exists ev,
    resolve_date_cols [] df = (Done (auto_detect_date_cols df), [ev])
    /\ auto_detect_record ev = true.
Proof.
  unfold resolve_date_cols.
  destruct (auto_detect_date_cols df) as [|c r]; eexists; split; reflexivity.
Qed.

Lemma ran_bind_done {A B} (m : M A) (k : A -> M B) a :
  fst m = Done a ->
  auto_detection_ran (snd (k a)) = true ->
  auto_detection_ran (snd (bind m k)) = true.
Proof.
  intros Hm Hk. rewrite (bind_fst_done _ k _ Hm).
  unfold auto_detection_ran in *.
  simpl. now rewrite existsb_app, Hk, orb_true_r.
Qed.

(** A run with an explicit list never reaches the detection; a run
    without one that gets as far as the loaded frame goes through it. *)
Lemma detection_skipped env args :
  explicit_date_cols args <> [] ->
  auto_detection_ran (snd (main env args)) = false.
Proof.
  intros Hflags. change (never auto_detect_record (main env args)).
  unfold main. destruct (explicit_date_cols args) as [|flag flags] eqn:E;
    [congruence|].
  quiet. reflexivity.
Qed.

Lemma detection_runs env args df :
  explicit_date_cols args = [] ->
  fst (check_paths env args) = Done tt ->
  fst (load env args) = Done df ->
  auto_detection_ran (snd (main env args)) = true.
Proof.
  intros Hflags Hpaths Hload. unfold main.
  apply (ran_bind_done _ _ _ Hpaths).
  destruct (parse_rename_arg_done (args_rename args)) as [d Hd].
  apply (ran_bind_done _ _ _ Hd).
  apply (ran_bind_done _ _ _ Hload).
  rewrite Hflags. destruct (resolve_date_cols_auto df) as (ev & -> & Hev).
  unfold bind, auto_detection_ran. simpl. now rewrite Hev.
Qed.

End DateColumns.

(* ===================================================================== *)
(** ** [main]: the checks before loading                                  *)
(* ===================================================================== *)

Section PathChecks.
Import Py Pandas Sys DataPrep Spec.

Lemma forallb_first_failure {A} (P : A -> bool) l :
  forallb P l = false ->
  exists good bad rest,
    l = (good ++ bad :: rest)%list /\ forallb P good = true /\ P bad = false.
Proof.
  induction l as [|x r IH]; [discriminate|].
  simpl. destruct (P x) eqn:Hx; simpl.
  - intros H. destruct (IH H) as (good & bad & rest & -> & Hgood & Hbad).
    exists (x :: good), bad, rest. simpl. now rewrite Hx, Hgood.
  - intros _. now exists [], x, r.
Qed.

(** The loop of lines 230-233. *)
Lemma check_inputs_exist env files :
  forallb (path_exists env) files = true ->
  for_each files tt (fun _ f =>
    if negb (path_exists env f)
    then log ERROR "Input file does not exist: %s" [AStr f] ;; sys_exit 2
    else ret tt)
  = ret tt.
Proof.
  induction files as [|f r IH]; [reflexivity|].
  cbn [for_each forallb]. rewrite andb_true_iff. intros [Hf Hr].
  rewrite Hf. cbn [negb]. rewrite bind_ret. now apply IH.
Qed.

Lemma check_inputs_missing env files :
  forallb (path_exists env) files = false ->
  exists f,
    In f files /\ path_exists env f = false
    /\ for_each files tt (fun _ f =>
         if negb (path_exists env f)
         then log ERROR "Input file does not exist: %s" [AStr f] ;; sys_exit 2
         else ret tt)
       = (Exited 2, [EvLog ERROR "Input file does not exist: %s" [AStr f]]).
Proof.
  induction files as [|f r IH]; [discriminate|].
  cbn [for_each forallb]. destruct (path_exists env f) eqn:Hf; cbn [negb andb].
  - intros H. destruct (IH H) as (g & Hin & Hg & Hrun).
    exists g. repeat split; [now right | exact Hg |].
    now rewrite bind_ret, Hrun.
  - intros _. exists f. repeat split; [now left | exact Hf].
Qed.

Lemma check_paths_missing env args :
  inputs_exist env args = false ->
  exists f,
    check_paths env args
    = (Exited 2, [EvLog ERROR "Input file does not exist: %s" [AStr f]]).
Proof.
  intros H. destruct (check_inputs_missing env _ H) as (f & _ & _ & Hrun).
  exists f. unfold check_paths. now rewrite Hrun.
Qed.

Lemma check_paths_extension env args :
  inputs_exist env args = true -> extension_ok env args = false ->
  check_paths env args
  = (Exited 2, [EvLog ERROR "Output file must have .xlsx extension." []]).
Proof.
  intros Hin Hext. unfold check_paths.
  rewrite (check_inputs_exist env _ Hin), bind_ret.
  unfold extension_ok in Hext. now rewrite Hext.
Qed.

Lemma check_paths_ok env args :
  paths_ok env args -> check_paths env args = ret tt.
Proof.
  intros [Hin Hext]. unfold check_paths.
  rewrite (check_inputs_exist env _ Hin), bind_ret.
  unfold extension_ok in Hext. now rewrite Hext.
Qed.

(** C9: when the output path does not end in [.xlsx] the run is refused
    with exit code 2 before any file is read, loaded or written; when the
    inputs all exist, the refusal is the one of the extension check. *)
Theorem wrong_extension_rejected_before_reading env args :
  extension_ok env args = false ->
  exists tr,
    main env args = (Exited 2, tr)
    /\ reads tr = []
    /\ existsb is_write tr = false
    /\ (inputs_exist env args = true ->
        tr = [EvLog ERROR "Output file must have .xlsx extension." []]).
Proof.
  intros Hext. unfold main.
  destruct (inputs_exist env args) eqn:Hin.
  - rewrite (check_paths_extension env args Hin Hext).
    eexists. repeat split.
  - destruct (check_paths_missing env args Hin) as (f & ->).
    eexists. repeat split. discriminate.
Qed.

(** The destination [out.csv] of the specification, on the sample. *)
Lemma wrong_extension_rejected_before_reading_witness :
  exists tr,
    main Sample.env (Sample.args ["jan.csv"] "out.csv") = (Exited 2, tr)
    /\ reads tr = []
    /\ existsb is_write tr = false
    /\ (inputs_exist Sample.env (Sample.args ["jan.csv"] "out.csv") = true ->
        tr = [EvLog ERROR "Output file must have .xlsx extension." []]).
Proof.
  apply (wrong_extension_rejected_before_reading
           Sample.env (Sample.args ["jan.csv"] "out.csv")).
  reflexivity.
Defined.

End PathChecks.

(* ===================================================================== *)
(** ** [load_and_concat]                                                  *)
(* ===================================================================== *)

Section Loader.
Import Py Pandas Sys DataPrep Spec.

(** The body of the loop of lines 97-104. *)
Local Abbreviation read_into env :=
  (fun (dfs : list DataFrame) (f : string) =>
     try_except
       (log INFO "Reading CSV: %s" [AStr f] ;;
        df <- read env f ;;
        ret (dfs ++ [df])%list)
       (fun e =>
          log ERROR "Failed to read %s: %s" [AStr f; AExc e] ;;
          raise e)).

Lemma read_into_ok env dfs f df :
  read_csv env f = Returns df ->
  read_into env dfs f
  = (Done (dfs ++ [df])%list,
     [EvLog INFO "Reading CSV: %s" [AStr f]; EvReadCsv f]).
Proof.
  intros H. unfold try_except, bind, read, log, ret. simpl. now rewrite H.
Qed.

Lemma read_into_fails env dfs f e :
  read_csv env f = Raises e ->
  read_into env dfs f
  = (Raised e,
     [EvLog INFO "Reading CSV: %s" [AStr f]; EvReadCsv f;
      EvLog ERROR "Failed to read %s: %s" [AStr f; AExc e]]).
Proof.
  intros H. unfold try_except, bind, read, log, raise. simpl. now rewrite H.
Qed.

Lemma load_loop_ok env files :
  forallb (readable env) files = true ->
  forall acc, exists dfs tr,
    for_each files acc (read_into env) = (Done (acc ++ dfs)%list, tr)
    /\ reads tr = files /\ List.length dfs = List.length files.
Proof.
  induction files as [|f r IH]; intros Hall acc.
  - exists [], []. simpl. now rewrite app_nil_r.
  - cbn [forallb] in Hall. apply andb_true_iff in Hall as [Hf Hr].
    unfold readable in Hf. destruct (read_csv env f) as [df|] eqn:Hread;
      [|discriminate].
    destruct (IH Hr (acc ++ [df])%list) as (dfs & tr & Hrun & Hreads & Hlen).
    exists (df :: dfs), ([EvLog INFO "Reading CSV: %s" [AStr f]; EvReadCsv f]
                         ++ tr)%list.
    cbn [for_each]. rewrite (read_into_ok env acc f df Hread).
    erewrite bind_done by reflexivity. rewrite Hrun.
    rewrite <- app_assoc. repeat split; simpl; congruence.
Qed.

Lemma load_loop_fails env good bad rest e :
  forallb (readable env) good = true -> read_csv env bad = Raises e ->
  forall acc, exists tr,
    for_each (good ++ bad :: rest) acc (read_into env) = (Raised e, tr)
    /\ reads tr = (good ++ [bad])%list.
Proof.
  intros Hgood Hbad. induction good as [|f r IH]; intros acc.
  - eexists. cbn [app for_each]. rewrite (read_into_fails env acc bad e Hbad).
    split; reflexivity.
  - cbn [forallb] in Hgood. apply andb_true_iff in Hgood as [Hf Hr].
    unfold readable in Hf. destruct (read_csv env f) as [df|] eqn:Hread;
      [|discriminate].
    destruct (IH Hr (acc ++ [df])%list) as (tr & Hrun & Hreads).
    eexists. cbn [app for_each]. rewrite (read_into_ok env acc f df Hread).
    erewrite bind_done by reflexivity. rewrite Hrun.
    split; [reflexivity|]. simpl. now rewrite Hreads.
Qed.

(** C10: when one of the listed files cannot be read, [load_and_concat]
    raises the error of the first such file: the files before it have
    been read, those after it are not, no frame is returned, and [main]
    leaves with exit code 3 from the handler of lines 250-252. *)
Theorem load_and_concat_fails_on_first_unreadable env files :
  forallb (readable env) files = false ->
  exists good bad rest e tr,
    files = (good ++ bad :: rest)%list
    /\ forallb (readable env) good = true
    /\ read_csv env bad = Raises e
    /\ load_and_concat env files = (Raised e, tr)
    /\ reads tr = (good ++ [bad])%list
    /\ forall args, args_input args = files -> fst (load env args) = Exited 3.
Proof.
  intros Hsome.
  destruct (forallb_first_failure _ _ Hsome)
    as (good & bad & rest & -> & Hgood & Hbad).
  unfold readable in Hbad. destruct (read_csv env bad) as [|e] eqn:Hread;
    [discriminate|].
  destruct (load_loop_fails env good bad rest e Hgood Hread [])
    as (tr & Hrun & Hreads).
  assert (Hload : load_and_concat env (good ++ bad :: rest) = (Raised e, tr)).
  { unfold load_and_concat. now rewrite Hrun. }
  exists good, bad, rest, e, tr. repeat split; try assumption.
  intros args Hargs. unfold load. now rewrite Hargs, Hload.
Qed.

(** January is readable, [broken.csv] is not, February is never read. *)
Lemma load_and_concat_fails_on_first_unreadable_witness :
  exists good bad rest e tr,
    ["jan.csv"; "broken.csv"; "feb.csv"] = (good ++ bad :: rest)%list
    /\ forallb (readable Sample.env) good = true
    /\ read_csv Sample.env bad = Raises e
    /\ load_and_concat Sample.env ["jan.csv"; "broken.csv"; "feb.csv"]
       = (Raised e, tr)
    /\ reads tr = (good ++ [bad])%list
    /\ forall args,
         args_input args = ["jan.csv"; "broken.csv"; "feb.csv"] ->
         fst (load Sample.env args) = Exited 3.
Proof.
  apply (load_and_concat_fails_on_first_unreadable
           Sample.env ["jan.csv"; "broken.csv"; "feb.csv"]).
  reflexivity.
Defined.

End Loader.

(* ===================================================================== *)
(** ** [main]: exit codes                                                 *)
(* ===================================================================== *)

Section ExitCodes.
Import Py Pandas Sys DataPrep Spec.

Lemma exit_status_bind_done {A} (m : M A) (k : A -> M unit) a :
  fst m = Done a -> exit_status (bind m k) = exit_status (k a).
Proof. intros H. now rewrite (bind_fst_done m k a H). Qed.

Lemma exit_status_bind_exited {A} (m : M A) (k : A -> M unit) c :
  fst m = Exited c -> exit_status (bind m k) = c.
Proof. intros H. now rewrite (bind_fst_exited m k c H). Qed.

Lemma try_except_done {A} (m : M A) h a :
  fst m = Done a -> try_except m h = m.
Proof. unfold try_except. now intros ->. Qed.

Lemma try_except_raised {A} (m : M A) h e :
  fst m = Raised e -> fst (try_except m h) = fst (h e).
Proof. unfold try_except. now intros ->. Qed.

Lemma rename_map_of_done args :
  fst (parse_rename_arg (args_rename args)) = Done (rename_map_of args).
Proof.
  unfold rename_map_of.
  destruct (parse_rename_arg_done (args_rename args)) as [d ->]. reflexivity.
Qed.

Lemma date_cols_of_done args df :
  fst (resolve_date_cols (explicit_date_cols args) df)
  = Done (date_cols_of args df).
Proof.
  unfold date_cols_of, resolve_date_cols.
  destruct (explicit_date_cols args); [|reflexivity].
  now destruct (auto_detect_date_cols df).
Qed.

Lemma export_to_excel_result env df output_path :
  fst (export_to_excel env df output_path)
  = match to_excel env df output_path with
    | Returns _ => Done tt
    | Raises e => Raised e
    end.
Proof.
  unfold export_to_excel, try_except, bind, write, log, raise. simpl.
  now destruct (to_excel env df output_path).
Qed.

(** [main] from the loaded frame on, lines 254-287. *)
Lemma main_after_load env args df :
  paths_ok env args ->
  fst (load_and_concat env (args_input args)) = Done df ->
  exit_status (main env args)
  = match fst (processing env args df) with
    | Done out =>
        match to_excel env out (args_output args) with
        | Returns _ => 0%Z
        | Raises _ => 5%Z
        end
    | Raised _ => 4%Z
    | Exited c => c
    end.
Proof.
  intros Hpaths Hload. unfold main.
  rewrite (check_paths_ok env args Hpaths), bind_ret.
  rewrite (exit_status_bind_done _ _ _ (rename_map_of_done args)).
  assert (Hload' : fst (load env args) = Done df).
  { unfold load. now rewrite (try_except_done _ _ df Hload). }
  rewrite (exit_status_bind_done _ _ _ Hload').
  rewrite (exit_status_bind_done _ _ _ (date_cols_of_done args df)).
  fold (processing env args df).
  destruct (fst (processing env args df)) as [out|e|c] eqn:Hproc.
  - rewrite (exit_status_bind_done _ _ out);
      [|now rewrite (try_except_done _ _ out Hproc)].
    pose proof (export_to_excel_result env out (args_output args)) as Hexp.
    destruct (to_excel env out (args_output args)) as [u|e].
    + rewrite (exit_status_bind_done _ _ tt);
        [reflexivity | now rewrite (try_except_done _ _ tt Hexp)].
    + apply exit_status_bind_exited.
      now rewrite (try_except_raised _ _ e Hexp).
  - apply exit_status_bind_exited.
    now rewrite (try_except_raised _ _ e Hproc).
  - apply exit_status_bind_exited. unfold try_except. now rewrite Hproc.
Qed.

(** C2, as the specification states it, fails: a run with a missing
    input path and a run with a wrong output extension are failures of
    two different classes and leave with the same exit code, 2. *)
Lemma path_checks_share_exit_code :
  fails Sample.env (Sample.args ["nope.csv"] "out.xlsx") MissingInput
  /\ fails Sample.env (Sample.args ["jan.csv"] "out.csv") WrongExtension
  /\ MissingInput <> WrongExtension
  /\ exit_status (main Sample.env (Sample.args ["nope.csv"] "out.xlsx"))
     = exit_status (main Sample.env (Sample.args ["jan.csv"] "out.csv")).
Proof.
  repeat split; try reflexivity. discriminate.
Qed.

(** C2, amended: a failure of each class ends the process with the code
    of its class, 2 for a missing input path, 2 for a wrong output
    extension, 3 for a load failure, 4 for a processing failure and 5 for
    an export failure; two classes have the same code only when both are
    path checks. *)
Theorem exit_status_by_failure_class :
  (forall env args c,
     fails env args c -> exit_status (main env args) = exit_code c)
  /\ (forall c1 c2,
        exit_code c1 = exit_code c2 ->
        c1 = c2 \/ (path_check c1 = true /\ path_check c2 = true)).
Proof.
  split.
  - intros env args [] Hfail; unfold fails in Hfail.
    + destruct (check_paths_missing env args Hfail) as (f & Hrun).
      unfold main. now rewrite Hrun.
    + destruct Hfail as [Hin Hext]. unfold main.
      now rewrite (check_paths_extension env args Hin Hext).
    + destruct Hfail as (Hpaths & e & Hload). unfold main.
      rewrite (check_paths_ok env args Hpaths), bind_ret.
      rewrite (exit_status_bind_done _ _ _ (rename_map_of_done args)).
      apply exit_status_bind_exited. unfold load.
      now rewrite (try_except_raised _ _ e Hload).
    + destruct Hfail as (Hpaths & df & e & Hload & Hproc).
      now rewrite (main_after_load env args df Hpaths Hload), Hproc.
    + destruct Hfail as (Hpaths & df & out & e & Hload & Hproc & Hexp).
      now rewrite (main_after_load env args df Hpaths Hload), Hproc, Hexp.
  - intros [] []; simpl; intros H; try discriminate H; auto.
Qed.

(** A file whose only column holds booleans and a gap is loaded and then
    fails in processing: exit code 4. *)
Lemma exit_status_by_failure_class_witness :
  exit_status (main Sample.env (Sample.args ["flags.csv"] "out.xlsx"))
  = exit_code ProcessingFailure.
Proof.
  apply (proj1 exit_status_by_failure_class
           Sample.env (Sample.args ["flags.csv"] "out.xlsx") ProcessingFailure).
  split; [split; reflexivity|].
  exists Sample.flags,
    (mkExc "AttributeError" "Can only use .str accessor with string values!").
  split; reflexivity.
Defined.

End ExitCodes.

(* ===================================================================== *)
(** ** [process_dataframe]: missing values                                *)
(* ===================================================================== *)

Section MissingValues.
Import Py Pandas Sys DataPrep Spec.

Lemma fill_cells_no_null v l : existsb isnull (map (fill_cell v) l) = false.
Proof.
  induction l as [|c t IH]; [reflexivity|]. destruct c; simpl; exact IH.
Qed.

Lemma fill_moments_no_null t l :
  existsb isnull (map (fill_moment t) l) = false.
Proof.
  induction l as [|c r IH]; [reflexivity|]. destruct c; simpl; exact IH.
Qed.

(** A column that leaves [fillna] with a gap is a datetime64 column that
    came with the gap, and the fill value reads as NaT. *)
Lemma fill_column_gap stamp v s :
  existsb isnull (cells (fill_column stamp v s)) = true ->
  dtype s = DDatetime64 /\ stamp v = NaT /\ fill_column stamp v s = s.
Proof.
  unfold fill_column. destruct (existsb isnull (cells s)) eqn:Hgap;
    [|congruence].
  destruct (dtype s) eqn:Hd; cbn [cells];
    try (rewrite fill_cells_no_null; discriminate).
  destruct (stamp v); cbn [cells]; [| now repeat split |].
  - rewrite fill_moments_no_null. discriminate.
  - rewrite fill_cells_no_null. discriminate.
Qed.

Lemma no_gap_no_null (df : DataFrame) :
  Forall (fun s => existsb isnull (cells s) = false) df -> null_count df = 0.
Proof.
  induction 1 as [|s r Hs Hr IH]; [reflexivity|].
  assert (E : filter isnull (cells s) = []).
  { clear -Hs. induction (cells s) as [|c t IHc]; [reflexivity|].
    simpl in *. destruct (isnull c); [discriminate | now apply IHc]. }
  unfold null_count in *. cbn [map]. rewrite E. exact IH.
Qed.

(** The fill is the last thing [process_dataframe] does: a run with a
    fill value is the run without one, followed by the fill. *)
Lemma process_dataframe_fill_last
      env df date_cols rename_map v dropna_any dropna_thresh strip_strings :
  process_dataframe env df date_cols rename_map (Some v)
                    dropna_any dropna_thresh strip_strings
  = (d <- process_dataframe env df date_cols rename_map None
                            dropna_any dropna_thresh strip_strings ;;
     log INFO "Filled remaining missing values with: %s" [AStr v] ;;
     ret (fillna (read_timestamp env) v d)).
Proof.
  unfold process_dataframe.
  do 5 (rewrite bind_assoc; apply bind_ext; intros ?).
  unfold fill_missing. now rewrite bind_ret_r, bind_ret, bind_ret.
Qed.

(** What the fill does keep of its contract: it runs last, after the row
    drops (the run is the run without a fill value followed by the fill),
    it cannot fail, and in the frame that comes out only a datetime64
    column can still have a missing cell; when [Timestamp] does not read
    the fill value as NaT, no column has one. *)
Theorem fill_runs_last_spec
        env df date_cols rename_map v dropna_any dropna_thresh strip_strings :
  process_dataframe env df date_cols rename_map (Some v)
                    dropna_any dropna_thresh strip_strings
  = (d <- process_dataframe env df date_cols rename_map None
                            dropna_any dropna_thresh strip_strings ;;
     d <- fill_missing env (Some v) d ;;
     ret d)
  /\ (forall d,
        fst (process_dataframe env df date_cols rename_map None
                               dropna_any dropna_thresh strip_strings)
        = Done d ->
        fst (process_dataframe env df date_cols rename_map (Some v)
                               dropna_any dropna_thresh strip_strings)
        = Done (fillna (read_timestamp env) v d))
  /\ (forall out,
        fst (process_dataframe env df date_cols rename_map (Some v)
                               dropna_any dropna_thresh strip_strings)
        = Done out ->
        Forall (fun s => dtype s <> DDatetime64 ->
                         forallb notnull (cells s) = true) out
        /\ (read_timestamp env v <> NaT -> null_count out = 0)).
Proof.
  pose proof (process_dataframe_fill_last env df date_cols rename_map v
                dropna_any dropna_thresh strip_strings) as Hlast.
  assert (Hgap : forall l, existsb isnull l = false ->
                           forallb notnull l = true).
  { induction l as [|c t IH]; [reflexivity|]. simpl. unfold notnull at 1.
    destruct (isnull c); [discriminate | exact IH]. }
  split; [|split].
  - rewrite Hlast. apply bind_ext. intros d. unfold fill_missing.
    now rewrite bind_ret_r.
  - intros d Hd. rewrite Hlast. now rewrite (bind_fst_done _ _ d Hd).
  - intros out. rewrite Hlast.
    destruct (fst (process_dataframe env df date_cols rename_map None
                     dropna_any dropna_thresh strip_strings)) as [d|e|c] eqn:Hd.
    + rewrite (bind_fst_done _ _ d Hd). simpl. intros [= <-]. split.
      * unfold fillna. apply Forall_map, Forall_forall. intros s _ Hdate.
        apply Hgap.
        destruct (existsb isnull (cells (fill_column (read_timestamp env) v s)))
          eqn:Hs; [|reflexivity].
        destruct (fill_column_gap _ _ _ Hs) as (Hd' & _ & Hsame).
        rewrite Hsame in Hdate. contradiction.
      * intros Hstamp. apply no_gap_no_null.
        unfold fillna. apply Forall_map, Forall_forall. intros s _.
        destruct (existsb isnull (cells (fill_column (read_timestamp env) v s)))
          eqn:Hs; [|reflexivity].
        destruct (fill_column_gap _ _ _ Hs) as (_ & Hnat & _). contradiction.
    + now rewrite (bind_fst_raised _ _ e Hd).
    + now rewrite (bind_fst_exited _ _ c Hd).
Qed.

(** The January file of the sample with an empty column next to it and
    the fill value ["n/a"]: the gap is filled, nothing is missing. *)
Lemma fill_runs_last_spec_witness :
  exists out,
    fst (process_dataframe Sample.env
           (Sample.sales_jan ++ [mkSeries "Sold" DObject [CNull]])%list
           ["sold"] [] (Some "n/a") false None true) = Done out
    /\ null_count out = 0.
Proof.
  eexists. split; [reflexivity|].
  apply (proj2 (proj2 (fill_runs_last_spec
           Sample.env
           (Sample.sales_jan ++ [mkSeries "Sold" DObject [CNull]])%list
           ["sold"] [] "n/a" false None true))); [reflexivity|].
  discriminate.
Defined.

(** C6 fails on the code. The two files of the specification's scenario
    are loaded, [Sale-Date] is detected and parsed, and the text
    ["not-a-date"] becomes the missing marker of its datetime64 column.
    With the fill value ["NaT"] the fill runs last, and [df.fillna] has
    the datetime64 column read the value as a timestamp: it reads as NaT,
    the cell is still missing, and the run writes the frame with the gap
    and ends with exit code 0, its log saying that the remaining missing
    values were filled. *)
Theorem fill_leaves_missing_dates :
  let run := main Sample.env
               (mkArgs ["jan.csv"; "feb.csv"] "out.xlsx"
                       None None (Some "NaT") false None false) in
  exit_status run = 0%Z
  /\ filter is_write (snd run)
     = [EvToExcel "out.xlsx"
          [ mkSeries "name" DObject [CStr "Ann"; CStr "Bob"];
            mkSeries "sale_date" DDatetime64
                     [CDate 1704067200000000000; CNull] ]]
  /\ In (EvLog INFO "Filled remaining missing values with: %s" [AStr "NaT"])
        (snd run)
  /\ fst (fill_missing Sample.env (Some "NaT")
                       [mkSeries "sale_date" DDatetime64
                                 [CDate 1704067200000000000; CNull]])
     = Done [mkSeries "sale_date" DDatetime64
                      [CDate 1704067200000000000; CNull]].
Proof.
  repeat split. vm_compute. tauto.
Qed.

End MissingValues.

(* ===================================================================== *)
(** ** [try_parse_dates]                                                  *)
(* ===================================================================== *)

Section DateCoercion.
Import Py Pandas Sys DataPrep Spec.

Lemma filter_label_none k (df : DataFrame) :
  (forall s, In s df -> label s <> k) ->
  filter (fun s => String.eqb (label s) k) df = [].
Proof.
  induction df as [|x r IH]; intros H; [reflexivity|].
  simpl. destruct (String.eqb_spec (label x) k) as [E|_].
  - exfalso. apply (H x); [now left | exact E].
  - apply IH. intros s Hs. apply H. now right.
Qed.

(** In a frame without repeated labels a label picks one column. *)
Lemma filter_label_unique (df : DataFrame) s :
  NoDup (columns df) -> In s df ->
  filter (fun x => String.eqb (label x) (label s)) df = [s].
Proof.
  induction df as [|x r IH]; intros Hnd Hin; [contradiction|].
  cbn [columns map] in Hnd. inversion Hnd as [|? ? Hx Hr]; subst.
  simpl. destruct Hin as [->|Hin].
  - rewrite String.eqb_refl. f_equal. apply filter_label_none.
    intros y Hy E. apply Hx. rewrite <- E. now apply in_map.
  - destruct (String.eqb_spec (label x) (label s)) as [E|_].
    + exfalso. apply Hx. rewrite E. now apply in_map.
    + now apply IH.
Qed.

Lemma mem_In k l : mem k l = true <-> In k l.
Proof.
  unfold mem. rewrite existsb_exists. split.
  - intros (x & Hx & E). apply String.eqb_eq in E. now subst.
  - intros H. exists k. split; [exact H | apply String.eqb_refl].
Qed.

Lemma mem_cons k c l : mem k (c :: l) = String.eqb k c || mem k l.
Proof. reflexivity. Qed.

Lemma coerce_cell_idem parse x :
  coerce_cell parse (coerce_cell parse x) = coerce_cell parse x.
Proof. destruct x; simpl; try reflexivity; now destruct (parse _). Qed.

(** A coerced cell is missing or a timestamp, and no parser touches it. *)
Lemma coerce_cell_settled p q x :
  coerce_cell p (coerce_cell q x) = coerce_cell q x.
Proof. destruct x; simpl; try reflexivity; now destruct (q _). Qed.

Lemma to_datetime_column_idem env s :
  to_datetime_column env (to_datetime_column env s) = to_datetime_column env s.
Proof.
  unfold to_datetime_column. cbn [label cells]. f_equal. rewrite map_map.
  apply map_ext. intros x. apply coerce_cell_settled.
Qed.

(** One pass of the loop, with its log records left out. *)
Lemma try_parse_dates_step env df c :
  fst ((fun df c =>
          if negb (mem c (columns df))
          then log WARNING "Date column '%s' not found in DataFrame columns."
                   [AStr c] ;;
               ret df
          else try_except
                 (parsed <- lift (match getitem df c with
                                  | Returns sel =>
                                      to_datetime (guess_datetime_format env)
                                                  (strptime env)
                                                  (parse_datetime env) sel
                                  | Raises e => Raises e
                                  end) ;;
                  log INFO "Parsed dates in column: %s" [AStr c] ;;
                  ret (setitem df c parsed))
                 (fun e =>
                    log WARNING "Failed to parse dates in column %s: %s"
                        [AStr c; AExc e] ;;
                    ret df)) df c)
  = Done (parse_column env df c).
Proof.
  unfold parse_column. cbv beta.
  destruct (mem c (columns df)); [|reflexivity]. cbn [negb].
  destruct (getitem df c) as [sel|e]; [|reflexivity].
  destruct (to_datetime _ _ _ sel) as [parsed|e]; reflexivity.
Qed.

Lemma try_parse_dates_fold env df cols :
  fst (try_parse_dates env df cols)
  = Done (fold_left (parse_column env) cols df).
Proof.
  unfold try_parse_dates. apply for_each_fst_done.
  intros acc x. apply (try_parse_dates_step env acc x).
Qed.

(** One pass: the column named [c] is converted when there is exactly
    one; with none, or with several, the frame is kept as it is. *)
Lemma parse_column_exact env df c :
  parse_column env df c
  = map (fun s => if String.eqb (label s) c && Nat.eqb (count_label df c) 1
                  then to_datetime_column env s else s) df.
Proof.
  unfold parse_column, getitem, count_label.
  destruct (mem c (columns df)) eqn:Hmem.
  - destruct (filter (fun s => String.eqb (label s) c) df)
      as [|s0 [|s1 l]] eqn:Hsel.
    + exfalso. apply mem_In, in_map_iff in Hmem as (s & Hlab & Hs).
      assert (H : In s (filter (fun s => String.eqb (label s) c) df)).
      { apply filter_In. split; [exact Hs | now apply String.eqb_eq]. }
      now rewrite Hsel in H.
    + cbn [to_datetime List.length Nat.eqb]. unfold setitem. rewrite Hmem.
      apply map_ext_in. intros s Hs. rewrite andb_true_r.
      destruct (String.eqb_spec (label s) c) as [E|_]; [|reflexivity].
      assert (H : In s (filter (fun s => String.eqb (label s) c) df)).
      { apply filter_In. split; [exact Hs | now apply String.eqb_eq]. }
      rewrite Hsel in H. destruct H as [<-|[]].
      unfold to_datetime_column. now rewrite E.
    + cbn [to_datetime List.length Nat.eqb]. symmetry.
      rewrite <- (map_id df) at 2. apply map_ext. intros s.
      now rewrite andb_false_r.
  - symmetry. rewrite <- (map_id df) at 2. apply map_ext_in. intros s Hs.
    destruct (String.eqb_spec (label s) c) as [E|_]; [|reflexivity].
    exfalso. assert (H : mem c (columns df) = true).
    { apply mem_In. rewrite <- E. now apply in_map. }
    congruence.
Qed.

Lemma count_label_map_if (P : Series -> bool) env df k :
  count_label (map (fun s => if P s then to_datetime_column env s else s) df) k
  = count_label df k.
Proof.
  unfold count_label. induction df as [|s r IH]; [reflexivity|].
  cbn [map filter].
  assert (E : label (if P s then to_datetime_column env s else s) = label s).
  { now destruct (P s). }
  rewrite E. destruct (String.eqb (label s) k); simpl; now rewrite IH.
Qed.

(** The whole loop: the columns whose name is listed and names one column
    are converted, every other column is kept. *)
Lemma try_parse_dates_exact env cols :
  forall df,
  fold_left (parse_column env) cols df
  = map (fun s => if converted df cols s
                  then to_datetime_column env s else s) df.
Proof.
  unfold converted.
  induction cols as [|c rest IH]; intros df.
  - simpl. symmetry. apply map_id.
  - cbn [fold_left]. rewrite (parse_column_exact env df c), IH.
    rewrite map_map. apply map_ext. intros s.
    rewrite count_label_map_if, mem_cons.
    destruct (String.eqb_spec (label s) c) as [E|_]; cbn [orb andb].
    + subst c. destruct (Nat.eqb (count_label df (label s)) 1) eqn:Hone;
        cbn [to_datetime_column label];
        rewrite ?Hone, ?andb_true_r, ?andb_false_r; [|reflexivity].
      destruct (mem (label s) rest);
        [apply to_datetime_column_idem | reflexivity].
    + destruct (mem (label s) rest && Nat.eqb (count_label df (label s)) 1);
        reflexivity.
Qed.

Lemma converted_unique df cols s :
  NoDup (columns df) -> In s df -> converted df cols s = mem (label s) cols.
Proof.
  intros Hnd Hs. unfold converted, count_label.
  rewrite (filter_label_unique df s Hnd Hs). apply andb_true_r.
Qed.

(** C4, as the specification states it, fails: the cells of a column are
    not parsed independently of each other. With
    [infer_datetime_format=True] the format is taken from the first value
    of the column and every cell is read with it: the text ["2024-01-03"]
    is parsed when it is alone in its column, and becomes the missing
    marker when it comes after ["01/02/2024"]. *)
Lemma date_cells_depend_on_first_value :
  fst (try_parse_dates Sample.env
         [mkSeries "d" DObject [CStr "2024-01-03"]] ["d"])
  = Done [mkSeries "d" DDatetime64 [CDate 1704240000000000000]]
  /\ fst (try_parse_dates Sample.env
            [mkSeries "d" DObject [CStr "01/02/2024"; CStr "2024-01-03"]]
            ["d"])
     = Done [mkSeries "d" DDatetime64 [CDate 1704153600000000000; CNull]].
Proof. split; reflexivity. Qed.

(** C4, amended: [try_parse_dates] never ends in an error; every listed
    column whose name is the name of one column is converted and every
    other column is kept, so that on a table (column names are unique)
    every listed column that is present is converted. A converted column
    is read with the one parser chosen from its first value that is not
    missing: a missing cell stays missing, a timestamp is kept, any other
    cell becomes the date the parser reads in it, or the missing marker
    when the parser rejects it. The result of a cell depends on its value
    and on the first value of its column, on nothing else. On the column
    ["created_at"] holding ["2024-01-01"] and ["not-a-date"], when the
    parser chosen from ["2024-01-01"] reads the first and rejects the
    second, the result is the parsed date followed by the missing
    marker. *)
Theorem try_parse_dates_spec :
  (forall env df cols,
     exists tr,
       try_parse_dates env df cols
       = (Done (map (fun s => if converted df cols s
                              then to_datetime_column env s else s) df), tr))
  /\ (forall env df cols,
        NoDup (columns df) ->
        fst (try_parse_dates env df cols)
        = Done (map (fun s => if mem (label s) cols
                              then to_datetime_column env s else s) df))
  /\ (forall env s,
        Forall2 (fun x y =>
                   match x with
                   | CNull => y = CNull
                   | CDate t => y = CDate t
                   | _ =>
                       match parser_for env (first_value (cells s)) x with
                       | Some t => y = CDate t
                       | None => y = CNull
                       end
                   end)
                (cells s) (cells (to_datetime_column env s)))
  /\ (forall env s s' i j x,
        first_value (cells s) = first_value (cells s') ->
        nth_error (cells s) i = Some x ->
        nth_error (cells s') j = Some x ->
        nth_error (cells (to_datetime_column env s)) i
        = nth_error (cells (to_datetime_column env s')) j)
  /\ (forall env t,
        parser_for env (Some (CStr "2024-01-01")) (CStr "2024-01-01")
        = Some t ->
        parser_for env (Some (CStr "2024-01-01")) (CStr "not-a-date")
        = None ->
        fst (try_parse_dates env created_at_example ["created_at"])
        = Done [mkSeries "created_at" DDatetime64 [CDate t; CNull]]).
Proof.
  split; [|split; [|split; [|split]]].
  - intros env df cols. pose proof (try_parse_dates_fold env df cols) as H.
    rewrite try_parse_dates_exact in H.
    destruct (try_parse_dates env df cols) as [r tr]. simpl in H. subst r.
    eauto.
  - intros env df cols Hnd.
    rewrite try_parse_dates_fold, try_parse_dates_exact. f_equal.
    apply map_ext_in. intros s Hs. now rewrite converted_unique.
  - intros env s. unfold to_datetime_column. cbn [cells].
    generalize (parser_for env (first_value (cells s))). intros p.
    induction (cells s) as [|x r IH]; [constructor|].
    cbn [map]. constructor; [|exact IH].
    destruct x; cbn [coerce_cell]; try reflexivity; now destruct (p _).
  - intros env s s' i j x Hfirst Hi Hj.
    unfold to_datetime_column. cbn [cells].
    rewrite !nth_error_map, Hi, Hj, Hfirst. reflexivity.
  - intros env t Hdate Hbad.
    rewrite try_parse_dates_fold, try_parse_dates_exact.
    unfold created_at_example, to_datetime_column.
    cbn [map converted mem existsb label cells count_label filter
         first_value find notnull isnull negb coerce_cell].
    rewrite Hdate, Hbad. reflexivity.
Qed.

(** The example of the specification with the parser of the sample. *)
Lemma try_parse_dates_spec_witness :
  fst (try_parse_dates Sample.env created_at_example ["created_at"])
  = Done [mkSeries "created_at" DDatetime64
            [CDate 1704067200000000000; CNull]]
  /\ fst (try_parse_dates Sample.env Sample.sales_jan ["Sale-Date"])
     = Done [ mkSeries "Name " DObject [CStr " Ann "];
              mkSeries "Sale-Date" DDatetime64
                       [CDate 1704067200000000000] ]
  /\ nth_error
       (cells (to_datetime_column Sample.env
                 (mkSeries "a" DObject
                           [CStr "01/02/2024"; CStr "2024-01-03"]))) 1
     = nth_error
         (cells (to_datetime_column Sample.env
                   (mkSeries "b" DObject
                             [CNull; CStr "01/02/2024"; CStr "x";
                              CStr "2024-01-03"]))) 3.
Proof.
  destruct try_parse_dates_spec as (_ & Htable & _ & Hsame & Hexample).
  split; [|split].
  - apply (Hexample Sample.env 1704067200000000000%Z); reflexivity.
  - rewrite (Htable Sample.env Sample.sales_jan ["Sale-Date"]);
      [reflexivity|].
    repeat constructor; simpl; intuition discriminate.
  - apply (Hsame Sample.env _ _ 1 3 (CStr "2024-01-03"))%nat; reflexivity.
Defined.

End DateCoercion.

(* ===================================================================== *)
(** ** [process_dataframe]: trimming strings                              *)
(* ===================================================================== *)

Section Trimmer.
Import Py Pandas Sys DataPrep Spec.

Lemma apply_str_strip_returns sel stripped :
  apply str_strip sel = Returns stripped ->
  stripped = map strip_series sel
  /\ forallb str_accessor_ok sel = true.
Proof.
  revert stripped. induction sel as [|s r IH]; intros stripped.
  - simpl. intros [= <-]. now split.
  - cbn [apply]. unfold str_strip at 1.
    destruct (str_accessor_ok s) eqn:Hok; [|discriminate].
    destruct (apply str_strip r) as [r'|e]; [|discriminate].
    intros [= <-]. destruct (IH r' eq_refl) as [-> Hr].
    split; [reflexivity|]. simpl. now rewrite Hok, Hr.
Qed.

Lemma apply_str_strip_ok sel :
  forallb str_accessor_ok sel = true ->
  apply str_strip sel = Returns (map strip_series sel).
Proof.
  induction sel as [|s r IH]; [reflexivity|].
  simpl. rewrite andb_true_iff. intros [Hs Hr].
  unfold str_strip at 1. now rewrite Hs, (IH Hr).
Qed.

(** A label that occurs once names one column. *)
Lemma count_label_unique (df : DataFrame) a b :
  count_label df (label a) = 1 -> In a df -> In b df -> label b = label a ->
  b = a.
Proof.
  unfold count_label. intros Hcount Ha Hb Hlab.
  assert (Ha' : In a (filter (fun s => String.eqb (label s) (label a)) df)).
  { apply filter_In. split; [exact Ha | apply String.eqb_refl]. }
  assert (Hb' : In b (filter (fun s => String.eqb (label s) (label a)) df)).
  { apply filter_In. split; [exact Hb | now apply String.eqb_eq]. }
  destruct (filter _ df) as [|x [|y l]]; try discriminate.
  destruct Ha' as [<-|[]], Hb' as [<-|[]]. reflexivity.
Qed.

Lemma filter_label_counted (df : DataFrame) a :
  count_label df (label a) = 1 -> In a df ->
  filter (fun s => String.eqb (label s) (label a)) df = [a].
Proof.
  unfold count_label. intros Hcount Ha.
  assert (Ha' : In a (filter (fun s => String.eqb (label s) (label a)) df)).
  { apply filter_In. split; [exact Ha | apply String.eqb_refl]. }
  destruct (filter _ df) as [|x [|y l]]; try discriminate.
  now destruct Ha' as [<-|[]].
Qed.

Lemma getitem_list_counted (df : DataFrame) sel :
  (forall s, In s sel -> In s df /\ count_label df (label s) = 1) ->
  getitem_list df (map label sel) = sel.
Proof.
  unfold getitem_list. induction sel as [|s r IH]; intros H; [reflexivity|].
  cbn [map flat_map]. destruct (H s (or_introl eq_refl)) as [Hin Hcount].
  rewrite (filter_label_counted df s Hcount Hin), IH; [reflexivity|].
  intros x Hx. apply H. now right.
Qed.

Lemma lookup_series_combine k sel (g : Series -> Series) :
  lookup_series k (combine (map label sel) (map g sel))
  = option_map g (find (fun s => String.eqb (label s) k) sel).
Proof.
  induction sel as [|s r IH]; [reflexivity|].
  simpl. now destruct (String.eqb (label s) k).
Qed.

Lemma forallb_count_label (df : DataFrame) sel :
  forallb (fun k => Nat.eqb (count_label df k) 1) (map label sel) = true ->
  forall s, In s sel -> count_label df (label s) = 1.
Proof.
  rewrite forallb_forall. intros H s Hs.
  apply Nat.eqb_eq, H. now apply in_map.
Qed.

(** The assignment of line 143, given that every object label occurs
    once: each object column is replaced by its stripped form. *)
Lemma setitem_stripped (df : DataFrame) :
  (forall s, In s (select_dtypes_object df) -> count_label df (label s) = 1) ->
  map (fun s =>
         match lookup_series (label s)
                 (combine (columns (select_dtypes_object df))
                          (map strip_series (select_dtypes_object df))) with
         | Some v => mkSeries (label s) (dtype v) (cells v)
         | None => s
         end) df
  = map trim_column df.
Proof.
  intros Hcount. apply map_ext_in. intros s Hs.
  unfold columns. rewrite lookup_series_combine. unfold trim_column.
  destruct (find _ (select_dtypes_object df)) as [o|] eqn:Hfind.
  - apply find_some in Hfind as [Ho Hlab]. apply String.eqb_eq in Hlab.
    pose proof Ho as Ho'. apply filter_In in Ho' as [Hodf Hobj].
    assert (s = o) as ->.
    { apply (count_label_unique df o s); auto. }
    now rewrite Hobj.
  - destruct (is_object s) eqn:Hobj; [|reflexivity]. exfalso.
    assert (Hin : In s (select_dtypes_object df)).
    { apply filter_In. now split. }
    pose proof (find_none _ _ Hfind s Hin) as H. cbv beta in H.
    rewrite String.eqb_refl in H. discriminate.
Qed.

Lemma trim_column_fixed df :
  select_dtypes_object df = [] -> map trim_column df = df.
Proof.
  intros H. rewrite <- (map_id df) at 2. apply map_ext_in. intros s Hs.
  unfold trim_column. destruct (is_object s) eqn:Hobj; [|reflexivity].
  exfalso. assert (Hin : In s (select_dtypes_object df)).
  { apply filter_In. now split. }
  now rewrite H in Hin.
Qed.

(** What step 3 returns, whenever it returns. *)
Lemma trim_strings_done df df' :
  fst (trim_strings true df) = Done df' -> df' = map trim_column df.
Proof.
  unfold trim_strings.
  destruct (0 <? List.length (columns (select_dtypes_object df)))%nat eqn:Hany.
  - destruct (apply str_strip
                (getitem_list df (columns (select_dtypes_object df))))
      as [stripped|e] eqn:Happly; [|discriminate].
    cbn [lift]. rewrite bind_ret.
    destruct (setitem_list df (columns (select_dtypes_object df)) stripped)
      as [out|e] eqn:Hset; [|discriminate].
    cbn [lift]. rewrite bind_ret, bind_log. cbn [fst ret].
    intros [= <-]. unfold setitem_list in Hset.
    destruct (nodupb _ && forallb _ _ && _) eqn:Hcond; [|discriminate].
    apply andb_true_iff in Hcond as [Hcond _].
    apply andb_true_iff in Hcond as [_ Hcount].
    pose proof (forallb_count_label df _ Hcount) as Hone.
    unfold columns in Happly at 1.
    rewrite getitem_list_counted in Happly.
    + apply apply_str_strip_returns in Happly as [-> _].
      injection Hset as <-. now apply setitem_stripped.
    + intros s Hs. split; [|now apply Hone].
      now apply filter_In in Hs as [Hs _].
  - cbn [fst ret]. intros [= <-]. symmetry. apply trim_column_fixed.
    apply Nat.ltb_ge in Hany. unfold columns in Hany.
    rewrite length_map in Hany.
    now destruct (select_dtypes_object df); [|simpl in Hany; lia].
Qed.

Lemma nodupb_NoDup l : NoDup l -> nodupb l = true.
Proof.
  induction 1 as [|x l Hx Hl IH]; [reflexivity|].
  simpl. rewrite IH, andb_true_r. apply negb_true_iff.
  destruct (mem x l) eqn:Hmem; [|reflexivity].
  apply mem_In in Hmem. contradiction.
Qed.

Lemma NoDup_columns_filter (P : Series -> bool) df :
  NoDup (columns df) -> NoDup (columns (filter P df)).
Proof.
  unfold columns. induction df as [|s r IH]; intros Hnd; [constructor|].
  simpl in Hnd. inversion Hnd as [|? ? Hs Hr]; subst.
  simpl. destruct (P s); [|now apply IH].
  simpl. constructor; [|now apply IH].
  intros Hin. apply Hs. apply in_map_iff in Hin as (x & Hx & Hin).
  apply filter_In in Hin as [Hin _]. rewrite <- Hx. now apply in_map.
Qed.

Lemma count_label_NoDup df s :
  NoDup (columns df) -> In s df -> count_label df (label s) = 1.
Proof.
  intros Hnd Hs. unfold count_label.
  now rewrite (filter_label_unique df s Hnd Hs).
Qed.

Lemma text_column_accessor_ok s :
  text_column s = true -> str_accessor_ok s = true.
Proof.
  unfold text_column, str_accessor_ok. rewrite andb_true_iff.
  intros [-> Htext]. simpl.
  induction (cells s) as [|c t IH]; [reflexivity|].
  simpl in Htext. apply andb_true_iff in Htext as [Hc Ht].
  destruct c; try discriminate; simpl; [now apply IH | reflexivity].
Qed.

(** Step 3 succeeds on a table whose object columns hold text. *)
Lemma trim_strings_text df :
  NoDup (columns df) ->
  (forall s, In s df -> is_object s = true -> text_column s = true) ->
  fst (trim_strings true df) = Done (map trim_column df).
Proof.
  intros Hnd Htext. unfold trim_strings.
  destruct (0 <? List.length (columns (select_dtypes_object df)))%nat eqn:Hany.
  - assert (Hone : forall s, In s (select_dtypes_object df) ->
                             In s df /\ count_label df (label s) = 1).
    { intros s Hs. apply filter_In in Hs as [Hs _].
      split; [exact Hs | now apply count_label_NoDup]. }
    assert (Hget : getitem_list df (columns (select_dtypes_object df))
                   = select_dtypes_object df).
    { now apply getitem_list_counted. }
    assert (Hkey : nodupb (columns (select_dtypes_object df)) = true).
    { now apply nodupb_NoDup, NoDup_columns_filter. }
    assert (Hcount : forallb (fun k => Nat.eqb (count_label df k) 1)
                             (columns (select_dtypes_object df)) = true).
    { apply forallb_forall. intros k Hk.
      apply in_map_iff in Hk as (s & <- & Hs).
      apply Nat.eqb_eq. now apply Hone. }
    assert (Hlen : Nat.eqb
                     (List.length (map strip_series (select_dtypes_object df)))
                     (List.length (columns (select_dtypes_object df))) = true).
    { unfold columns. rewrite !length_map. apply Nat.eqb_refl. }
    rewrite Hget, apply_str_strip_ok.
    + cbn [lift]. rewrite bind_ret. unfold setitem_list.
      rewrite Hkey, Hcount, Hlen.
      cbn [andb lift]. rewrite bind_ret, bind_log. cbn [fst ret]. f_equal.
      apply setitem_stripped. intros s Hs. now apply Hone.
    + apply forallb_forall. intros s Hs. apply filter_In in Hs as [Hs Hobj].
      apply text_column_accessor_ok. now apply Htext.
  - cbn [fst ret]. f_equal. symmetry. apply trim_column_fixed.
    apply Nat.ltb_ge in Hany. unfold columns in Hany.
    rewrite length_map in Hany.
    now destruct (select_dtypes_object df); [|simpl in Hany; lia].
Qed.

End Trimmer.

Section TrimmerClaim.
Import Py Pandas Sys DataPrep Spec.

Lemma Forall2_map_same {A B} (R : A -> B -> Prop) (f : A -> B) l :
  (forall x, In x l -> R x (f x)) -> Forall2 R l (map f l).
Proof.
  induction l as [|x r IH]; intros H; [constructor|].
  simpl. constructor; [apply H; now left|].
  apply IH. intros y Hy. apply H. now right.
Qed.

Lemma trim_column_len df : len (map trim_column df) = len df.
Proof.
  destruct df as [|s r]; [reflexivity|].
  simpl. unfold trim_column. destruct (is_object s); [|reflexivity].
  apply length_map.
Qed.

Lemma strip_text_cells l :
  forallb text_cell l = true -> map str_strip_cell l = map trimmed_cell l.
Proof.
  induction l as [|c t IH]; [reflexivity|].
  simpl. rewrite andb_true_iff. intros [Hc Ht].
  rewrite (IH Ht). now destruct c.
Qed.

(** A column of text stays an object column. *)
Lemma stripped_dtype_text l :
  forallb text_cell l = true -> stripped_dtype l = DObject.
Proof.
  intros Htext. unfold stripped_dtype.
  assert (E : existsb notnull l = existsb is_str l).
  { induction l as [|c t IH]; [reflexivity|].
    simpl in *. apply andb_true_iff in Htext as [Hc Ht].
    rewrite (IH Ht). now destruct c. }
  rewrite E. now destruct (existsb is_str l).
Qed.

(** What step 3 does keep of its contract: when it returns, the row count
    is unchanged, every value of free-form text in every object column is
    replaced by its whitespace-trimmed form, and every column of another
    type is unchanged; on a table whose object columns all hold text the
    step does return. (The frame returned is [map trim_column df] in
    every case.) *)
Theorem trim_strings_spec :
  (forall df df',
     fst (trim_strings true df) = Done df' ->
     df' = map trim_column df
     /\ len df' = len df
     /\ Forall2 trimmed_column df df')
  /\ (forall df,
        NoDup (columns df) ->
        (forall s, In s df -> is_object s = true -> text_column s = true) ->
        exists df', fst (trim_strings true df) = Done df').
Proof.
  split.
  - intros df df' Hdone. apply trim_strings_done in Hdone. subst df'.
    split; [reflexivity|]. split; [apply trim_column_len|].
    apply Forall2_map_same. intros s _.
    unfold trimmed_column, trim_column, text_column.
    destruct (is_object s) eqn:Hobj.
    + cbn [strip_series label cells dtype andb]. rewrite length_map.
      split; [reflexivity|]. split; [reflexivity|].
      split; [|split; [|discriminate]].
      * intros _. apply Forall2_map_same. intros x _ Hx. now destruct x.
      * intros Htext. split; [|now apply strip_text_cells].
        rewrite (stripped_dtype_text _ Htext).
        unfold is_object in Hobj. now destruct (dtype s).
    + repeat split; discriminate.
  - intros df Hnd Htext. eexists. now apply trim_strings_text.
Qed.

(** The January file of the sample with a numeric column next to it: the
    name is trimmed, the number is left alone. *)
Lemma trim_strings_spec_witness :
  let df := (Sample.sales_jan ++ [mkSeries "Qty" DInt64 [CInt 3]])%list in
  exists df',
    fst (trim_strings true df) = Done df'
    /\ df' = map trim_column df
    /\ len df' = len df
    /\ Forall2 trimmed_column df df'.
Proof.
  eexists. split; [reflexivity|].
  apply (proj1 trim_strings_spec
           (Sample.sales_jan ++ [mkSeries "Qty" DInt64 [CInt 3]])%list).
  reflexivity.
Defined.

(** C3 fails on the code. Two input files share the headers [Code] and
    [Name]; the codes are numbers in the first file and text in the
    second, so the concatenated column has dtype object and holds the
    number 7 and the text [" x1 "]. Step 3 hands the column to
    [.str.strip()]: the text is trimmed, and the number, a cell that is
    not text, does not stay as it is but becomes the missing marker. The
    run ends with exit code 0 and writes the frame without the 7. *)
Theorem trim_strings_loses_numbers :
  let mixed := [mkSeries "code" DObject [CInt 7; CStr " x1 "]] in
  let run := main Sample.env
               (Sample.args ["codes_a.csv"; "codes_b.csv"] "out.xlsx") in
  fst (trim_strings true mixed)
  = Done [mkSeries "code" DObject [CNull; CStr "x1"]]
  /\ exit_status run = 0%Z
  /\ filter is_write (snd run)
     = [EvToExcel "out.xlsx"
          [ mkSeries "code" DObject [CNull; CStr "x1"];
            mkSeries "name" DObject [CStr "Ann"; CStr "Bob"] ]].
Proof. repeat split. Qed.

End TrimmerClaim.

(* ===================================================================== *)
(** ** A run of the sample                                                *)
(* ===================================================================== *)

Section SampleRun.
Import Py Pandas Sys DataPrep Spec.

(** The scenario of the specification: two files with the headers
    ["Name "] and ["Sale-Date"], concatenated, normalised, the date column
    detected and parsed, no row dropped, the fill value ["0"] applied. The
    spreadsheet has two rows under [name] and [sale_date] and no missing
    cell, whatever [Timestamp] makes of ["0"], as long as it is not
    NaT. *)
Example two_files_end_to_end stamp :
  stamp "0" <> NaT ->
  let run := main (Sample.env_with stamp)
               (mkArgs ["jan.csv"; "feb.csv"] "out.xlsx"
                       None None (Some "0") false None false) in
  exit_status run = 0%Z
  /\ reads (snd run) = ["jan.csv"; "feb.csv"]
  /\ exists out,
       filter is_write (snd run) = [EvToExcel "out.xlsx" out]
       /\ columns out = ["name"; "sale_date"]
       /\ len out = 2
       /\ null_count out = 0.
Proof.
  intros Hstamp run. subst run.
  split; [reflexivity|]. split; [reflexivity|].
  eexists. split; [reflexivity|].
  cbv [Sample.env_with read_timestamp fillna fill_column map].
  cbn [cells dtype existsb isnull orb].
  destruct (stamp "0"); [| contradiction |]; repeat split.
Qed.

End SampleRun.

(* ===================================================================== *)
(** ** Dictionaries: [d[k] = v], comprehensions and lookups               *)
(* ===================================================================== *)

Section Dicts.
Import Py Pandas Sys DataPrep Spec Table.

Local Abbreviation store :=
  (fun (d : dict) (kv : string * string) => dict_set d (fst kv) (snd kv)).

Lemma dict_get_set d k v k' :
  dict_get (dict_set d k v) k'
  = if String.eqb k k' then Some v else dict_get d k'.
Proof.
  induction d as [|[a b] r IH]; simpl; [reflexivity|].
  destruct (String.eqb_spec a k) as [->|Hak]; simpl.
  - now destruct (String.eqb k k').
  - rewrite IH. destruct (String.eqb_spec a k') as [->|_]; [|reflexivity].
    now destruct (String.eqb_spec k k'); [congruence|].
Qed.

(** A dictionary built item by item answers with the last item stored
    under the key. *)
Lemma dict_get_fold items :
  forall acc k,
  dict_get (fold_left store items acc) k
  = match lookup_last k items with
    | Some v => Some v
    | None => dict_get acc k
    end.
Proof.
  induction items as [|[a b] r IH]; intros acc k; [reflexivity|].
  cbn [fold_left lookup_last fst snd]. rewrite IH.
  destruct (lookup_last k r); [reflexivity|].
  rewrite dict_get_set. now destruct (String.eqb a k).
Qed.

Lemma keys_dict_set d k v :
  keys (dict_set d k v)
  = if mem k (keys d) then keys d else (keys d ++ [k])%list.
Proof.
  unfold keys. induction d as [|[a b] r IH]; [reflexivity|].
  cbn [dict_set map fst]. rewrite mem_cons, (String.eqb_sym k a).
  destruct (String.eqb a k) eqn:Hak; cbn [orb map fst]; [reflexivity|].
  rewrite IH. now destruct (mem k (map fst r)).
Qed.

Lemma NoDup_keys_dict_set d k v :
  NoDup (keys d) -> NoDup (keys (dict_set d k v)).
Proof.
  intros Hnd. rewrite keys_dict_set.
  destruct (mem k (keys d)) eqn:Hmem; [exact Hnd|].
  apply NoDup_app; [exact Hnd | repeat constructor; intros [] |].
  intros a Ha [<-|[]]. apply mem_In in Ha. congruence.
Qed.

Lemma NoDup_keys_fold items :
  forall acc, NoDup (keys acc) -> NoDup (keys (fold_left store items acc)).
Proof.
  induction items as [|kv r IH]; intros acc Hnd; [exact Hnd|].
  cbn [fold_left]. now apply IH, NoDup_keys_dict_set.
Qed.

Lemma keys_fold_In items :
  forall acc k,
  In k (keys (fold_left store items acc)) ->
  In k (keys acc) \/ In k (map fst items).
Proof.
  induction items as [|kv r IH]; intros acc k Hk; [now left|].
  cbn [fold_left] in Hk. destruct (IH _ _ Hk) as [H|H].
  - rewrite keys_dict_set in H. destruct (mem (fst kv) (keys acc)).
    + now left.
    + apply in_app_or in H as [H|[<-|[]]]; [now left|]. right. now left.
  - right. now right.
Qed.

Lemma dict_set_fresh d k v :
  ~ In k (keys d) -> dict_set d k v = (d ++ [(k, v)])%list.
Proof.
  induction d as [|[a b] r IH]; intros Hk; [reflexivity|].
  cbn [dict_set app]. destruct (String.eqb_spec a k) as [->|_].
  - exfalso. apply Hk. now left.
  - f_equal. apply IH. intros H. apply Hk. now right.
Qed.

(** Rebuilding a dictionary from its own items gives it back. *)
Lemma dict_of_fixed d : NoDup (keys d) -> dict_of d = d.
Proof.
  unfold dict_of.
  assert (H : forall items acc,
    NoDup (keys (acc ++ items)%list) ->
    fold_left store items acc = (acc ++ items)%list).
  { induction items as [|[a b] r IH]; intros acc Hnd.
    - now rewrite app_nil_r.
    - cbn [fold_left fst snd]. rewrite dict_set_fresh.
      + rewrite IH; rewrite <- app_assoc; [reflexivity | exact Hnd].
      + unfold keys in Hnd. rewrite map_app in Hnd. cbn [map fst] in Hnd.
        apply NoDup_remove_2 in Hnd. intros Hin. apply Hnd.
        apply in_or_app. now left. }
  intros Hnd. now apply (H d []).
Qed.

Lemma lookup_last_image (f : string -> string) cols k :
  lookup_last k (map (fun c => (c, f c)) cols)
  = if mem k cols then Some (f k) else None.
Proof.
  induction cols as [|c r IH]; [reflexivity|].
  cbn [map lookup_last]. rewrite IH, mem_cons, (String.eqb_sym k c).
  destruct (mem k r); [now rewrite orb_true_r|].
  now destruct (String.eqb_spec c k) as [->|_].
Qed.

Lemma dict_get_filter (P : string -> bool) d k :
  dict_get (filter (fun kv => P (fst kv)) d) k
  = if P k then dict_get d k else None.
Proof.
  induction d as [|[a b] r IH]; simpl; [now destruct (P k)|].
  destruct (P a) eqn:Ha; simpl; rewrite IH.
  - destruct (String.eqb_spec a k) as [->|_]; [now rewrite Ha | reflexivity].
  - destruct (String.eqb_spec a k) as [->|_]; [now rewrite Ha | reflexivity].
Qed.

End Dicts.

(* ===================================================================== *)
(** ** Steps 1 and 2 of [process_dataframe]: the labels                   *)
(* ===================================================================== *)

Section Renamer.
Import Py Pandas Sys DataPrep Spec Table.

Lemma rename_relabel d df : rename d df = relabel (renamed d) df.
Proof.
  unfold rename, relabel, renamed. apply map_ext. intros [l t c]. simpl.
  now destruct (dict_get d l).
Qed.

Lemma relabel_ext_in f g df :
  (forall c, In c (columns df) -> f c = g c) -> relabel f df = relabel g df.
Proof.
  intros H. apply map_ext_in. intros s Hs. rewrite H; [reflexivity|].
  now apply in_map.
Qed.

Lemma relabel_id df : relabel (fun c => c) df = df.
Proof.
  unfold relabel. rewrite <- (map_id df) at 2. apply map_ext. now intros [].
Qed.

Lemma relabel_relabel f g df :
  relabel g (relabel f df) = relabel (fun c => g (f c)) df.
Proof. unfold relabel. rewrite map_map. reflexivity. Qed.

Lemma columns_relabel f df : columns (relabel f df) = map f (columns df).
Proof. unfold columns, relabel. rewrite !map_map. reflexivity. Qed.

Lemma normalize_col_name_twice s :
  normalize_col_name (normalize_col_name s) = normalize_col_name s.
Proof.
  destruct (normalize_col_name_shape s) as (Hlow & Hsep & Htrim & Huu).
  now apply normalize_col_name_fixed.
Qed.

(** Lines 124-127: the comprehension and the rename give every column
    its normalised label, also when two headers are equal. *)
Lemma normalize_columns_run df :
  normalize_columns df
  = (Done (relabel normalize_col_name df),
     [EvLog INFO "Normalized column names." []]).
Proof.
  unfold normalize_columns. rewrite bind_log. cbn [ret fst snd].
  f_equal. f_equal. rewrite rename_relabel. apply relabel_ext_in.
  intros c Hc. unfold renamed, dict_of.
  rewrite dict_get_fold, lookup_last_image.
  apply mem_In in Hc. now rewrite Hc.
Qed.

(** Only the entries whose key is a column matter to the rename. *)
Lemma relabel_matching rename_map df :
  relabel (renamed (matching rename_map df)) df
  = relabel (renamed rename_map) df.
Proof.
  apply relabel_ext_in. intros c Hc. unfold renamed, matching.
  rewrite (dict_get_filter (fun k => mem k (columns df))).
  apply mem_In in Hc. now rewrite Hc.
Qed.

Lemma relabel_no_match rename_map df :
  matching rename_map df = [] -> relabel (renamed rename_map) df = df.
Proof.
  intros H. rewrite <- relabel_matching, H. apply relabel_id.
Qed.

Lemma apply_rename_map_run rename_map df :
  apply_rename_map rename_map df
  = (Done (relabel (renamed rename_map) df),
     match rename_map, matching rename_map df with
     | [], _ => []
     | _, [] =>
         [EvLog WARNING "No rename mappings matched existing columns." []]
     | _, applicable =>
         [EvLog INFO "Applied %d column renames."
                [AInt (Z.of_nat (List.length applicable))]]
     end).
Proof.
  unfold apply_rename_map. destruct rename_map as [|kv r].
  - unfold ret. f_equal. f_equal. symmetry. apply relabel_id.
  - fold (matching (kv :: r) df).
    destruct (matching (kv :: r) df) as [|kv' r'] eqn:Hm.
    + rewrite bind_log. cbn [ret fst snd]. f_equal. f_equal.
      symmetry. now apply relabel_no_match.
    + rewrite bind_log. cbn [ret fst snd]. f_equal. f_equal.
      now rewrite rename_relabel, <- Hm, relabel_matching.
Qed.

(** The mapping [main] works with is built from the entries that have a
    colon. *)
Lemma rename_map_of_entries args :
  exists pairs, rename_map_of args = dict_of (map rename_entry pairs).
Proof.
  unfold rename_map_of.
  destruct (args_rename args) as [[|c t]|];
    [now exists [] | | now exists []].
  unfold parse_rename_arg. rewrite parse_rename_loop. eexists. reflexivity.
Qed.

Lemma rename_map_of_keys args :
  NoDup (keys (rename_map_of args))
  /\ forall k, In k (keys (rename_map_of args)) -> normalize_col_name k = k.
Proof.
  destruct (rename_map_of_entries args) as [pairs ->]. unfold dict_of. split.
  - apply NoDup_keys_fold. constructor.
  - intros k Hk. apply keys_fold_In in Hk as [[]|Hk].
    rewrite map_map in Hk. apply in_map_iff in Hk as (pair & <- & _).
    unfold rename_entry. destruct (split_once ":" pair) as [old new].
    apply normalize_col_name_twice.
Qed.

End Renamer.

Section RenamerProperties.
Import Py Pandas Sys DataPrep Spec Table.

(** X1: step 1 of [process_dataframe] cannot fail and leaves one INFO
    record; the labels of the frame it returns are the normalised labels
    of the input, column by column and in the same order (also when two
    headers are equal), the dtypes and the cells are untouched, and
    running the step on its own output returns that output. *)
Theorem normalize_columns_spec df :
  exists out,
    normalize_columns df
    = (Done out, [EvLog INFO "Normalized column names." []])
    /\ columns out = map normalize_col_name (columns df)
    /\ map dtype out = map dtype df
    /\ map cells out = map cells df
    /\ fst (normalize_columns out) = Done out.
Proof.
  exists (relabel normalize_col_name df).
  split; [apply normalize_columns_run|].
  split; [apply columns_relabel|].
  unfold relabel. rewrite !map_map. repeat split.
  rewrite normalize_columns_run. cbn [fst]. f_equal.
  fold (relabel normalize_col_name df). rewrite relabel_relabel.
  apply relabel_ext_in. intros c _. apply normalize_col_name_twice.
Qed.

(** X2: step 2 cannot fail; a column whose label is a key of the rename
    mapping gets the value stored under it, every other column keeps its
    label, and the dtypes and cells are untouched, so the entries whose
    key is no column have no effect. With an empty mapping nothing is
    logged; with a mapping none of whose keys is a column the frame is
    returned as it is, with one WARNING; otherwise one INFO record
    counts the entries that matched. *)
Theorem apply_rename_map_spec rename_map df :
  exists out,
    apply_rename_map rename_map df
    = (Done out,
       match rename_map, matching rename_map df with
       | [], _ => []
       | _, [] =>
           [EvLog WARNING "No rename mappings matched existing columns." []]
       | _, applicable =>
           [EvLog INFO "Applied %d column renames."
                  [AInt (Z.of_nat (List.length applicable))]]
       end)
    /\ columns out = map (renamed rename_map) (columns df)
    /\ map dtype out = map dtype df
    /\ map cells out = map cells df
    /\ (matching rename_map df = [] -> out = df).
Proof.
  exists (relabel (renamed rename_map) df).
  split; [apply apply_rename_map_run|].
  split; [apply columns_relabel|].
  unfold relabel at 1 2. rewrite !map_map. repeat split.
  apply relabel_no_match.
Qed.

(** A mapping for a column that the January file does not have. *)
Lemma apply_rename_map_spec_witness :
  exists out,
    apply_rename_map [("price", "cost")] Sample.sales_jan
    = (Done out,
       [EvLog WARNING "No rename mappings matched existing columns." []])
    /\ out = Sample.sales_jan.
Proof.
  destruct (apply_rename_map_spec [("price", "cost")] Sample.sales_jan)
    as (out & Hrun & _ & _ & _ & Hsame).
  exists out. split; [exact Hrun | apply Hsame; reflexivity].
Defined.

(** X3: the rename mapping that [main] gets from [parse_rename_arg] has
    distinct keys, each of them a normalised name, so the second
    normalisation of its keys at line 264 returns the same mapping. *)
Theorem rename_map_normalized_once args :
  normalize_rename_map (rename_map_of args) = rename_map_of args
  /\ NoDup (keys (rename_map_of args))
  /\ Forall (fun k => normalize_col_name k = k) (keys (rename_map_of args)).
Proof.
  destruct (rename_map_of_keys args) as [Hnd Hfix].
  split; [|split; [exact Hnd | now apply Forall_forall]].
  unfold normalize_rename_map.
  rewrite (map_ext_in _ (fun kv => kv)), map_id; [now apply dict_of_fixed|].
  intros [k v] Hkv. cbn [fst snd]. rewrite Hfix; [reflexivity|].
  apply (in_map fst) in Hkv. exact Hkv.
Qed.

(** X4: [parse_rename_arg] cannot fail, and in the mapping it returns a
    key is bound to the right side of the last entry of the argument
    whose normalised left side is that key: a later entry for the same
    column overrides an earlier one, and no key is stored twice. *)
Theorem parse_rename_arg_last_wins arg :
  exists d tr,
    parse_rename_arg (Some arg) = (Done d, tr)
    /\ NoDup (keys d)
    /\ forall k,
         dict_get d k
         = lookup_last k (map rename_entry
                              (filter has_colon (comma_list arg))).
Proof.
  destruct arg as [|c t].
  - exists [], []. repeat split. constructor.
  - unfold parse_rename_arg. rewrite parse_rename_loop.
    eexists. eexists. split; [reflexivity|]. split.
    + apply NoDup_keys_fold. constructor.
    + intros k. rewrite dict_get_fold.
      now destruct (lookup_last k _).
Qed.

End RenamerProperties.

(* ===================================================================== *)
(** ** The comma-separated lists of [--rename] and [--date-cols]          *)
(* ===================================================================== *)

Section CommaLists.
Import Py Pandas Sys DataPrep Spec Table.

Lemma all_chars_lstrip P s :
  all_chars P s = true -> all_chars P (lstrip s) = true.
Proof.
  induction s as [|c t IH]; [reflexivity|].
  cbn [lstrip]. destruct (isspace c); [|trivial].
  cbn [all_chars]. rewrite andb_true_iff. now intros [_ H]; apply IH.
Qed.

Lemma all_chars_rstrip P s :
  all_chars P s = true -> all_chars P (rstrip s) = true.
Proof.
  induction s as [|c t IH]; [reflexivity|].
  cbn [all_chars rstrip]. rewrite andb_true_iff. intros [Hc Ht].
  specialize (IH Ht). destruct (rstrip t) as [|c' t'].
  - destruct (isspace c); [reflexivity|]. cbn [all_chars]. now rewrite Hc.
  - cbn [all_chars] in *. now rewrite Hc.
Qed.

Lemma all_chars_strip P s :
  all_chars P s = true -> all_chars P (strip s) = true.
Proof. intros H. now apply all_chars_rstrip, all_chars_lstrip. Qed.

Lemma all_space_lstrip s :
  all_chars isspace (lstrip s) = all_chars isspace s.
Proof.
  induction s as [|c t IH]; [reflexivity|].
  cbn [lstrip]. destruct (isspace c) eqn:Hc; [|reflexivity].
  cbn [all_chars]. now rewrite Hc.
Qed.

Lemma strip_empty_iff s : strip s = "" <-> all_chars isspace s = true.
Proof. unfold strip. now rewrite rstrip_empty_iff, all_space_lstrip. Qed.

Lemma strip_strip s : strip (strip s) = strip s.
Proof. apply strip_fixed; [apply strip_head_ok | apply strip_last_ok]. Qed.

(** No piece of [s.split(sep)] holds the separator. *)
Lemma split_no_sep sep s :
  forallb (all_chars (fun c => negb (Ascii.eqb c sep))) (split sep s) = true.
Proof.
  induction s as [|c t IH]; [reflexivity|].
  cbn [split]. destruct (Ascii.eqb c sep) eqn:Hc; [exact IH|].
  destruct (split sep t) as [|w ws]; cbn [forallb all_chars] in *;
    now rewrite Hc.
Qed.

(** A test that the separator passes holds of [s] exactly when it holds
    of every piece. *)
Lemma split_all_chars sep Q s :
  Q sep = true ->
  forallb (all_chars Q) (split sep s) = all_chars Q s.
Proof.
  intros Hsep. induction s as [|c t IH]; [reflexivity|].
  cbn [split all_chars]. destruct (Ascii.eqb_spec c sep) as [->|_].
  - cbn [forallb all_chars]. now rewrite IH, Hsep.
  - destruct (split sep t) as [|w ws]; cbn [forallb all_chars] in *.
    + now rewrite <- IH, !andb_true_r.
    + now rewrite <- IH, andb_assoc.
Qed.

Lemma filter_nil_iff {A} (P : A -> bool) l :
  filter P l = [] <-> forallb (fun x => negb (P x)) l = true.
Proof.
  induction l as [|x r IH]; simpl; [tauto|].
  destruct (P x); simpl; [split; discriminate | exact IH].
Qed.

Lemma forallb_map {A B} (f : B -> bool) (g : A -> B) l :
  forallb f (map g l) = forallb (fun x => f (g x)) l.
Proof. induction l as [|x r IH]; simpl; [reflexivity | now rewrite IH]. Qed.

End CommaLists.

Section CommaListProperties.
Import Py Pandas Sys DataPrep Spec Table.

(** X5: every entry of the list made of a comma-separated argument
    (lines 58 and 245) is non-empty, has no whitespace at either end and
    holds no comma; the list is empty exactly when the argument holds
    nothing but commas and whitespace. *)
Theorem comma_list_entries arg :
  Forall (fun p => p <> ""
                   /\ strip p = p
                   /\ all_chars (fun c => negb (Ascii.eqb c ",")) p = true)
         (comma_list arg)
  /\ (comma_list arg = []
      <-> all_chars (fun c => isspace c || Ascii.eqb c ",") arg = true).
Proof.
  unfold comma_list. split.
  - apply Forall_forall. intros p Hp.
    apply filter_In in Hp as [Hp Hne].
    apply in_map_iff in Hp as (q & <- & Hq).
    split; [|split].
    + intros E. rewrite E in Hne. discriminate.
    + apply strip_strip.
    + apply all_chars_strip.
      pose proof (split_no_sep "," arg) as H.
      rewrite forallb_forall in H. now apply H.
  - rewrite filter_nil_iff, forallb_map.
    rewrite <- (split_all_chars "," (fun c => isspace c || Ascii.eqb c ","))
      by reflexivity.
    pose proof (split_no_sep "," arg) as Hsep.
    rewrite forallb_forall in Hsep.
    rewrite !forallb_forall. split; intros H p Hp; specialize (H p Hp).
    + rewrite negb_involutive in H. apply String.eqb_eq, strip_empty_iff in H.
      revert H. apply all_chars_weaken. intros c ->. reflexivity.
    + rewrite negb_involutive. apply String.eqb_eq, strip_empty_iff.
      specialize (Hsep p Hp). clear -H Hsep.
      induction p as [|c t IH]; [reflexivity|].
      cbn [all_chars] in *. apply andb_true_iff in H as [Hc Ht].
      apply andb_true_iff in Hsep as [Hn Hs].
      rewrite (IH Hs Ht), andb_true_r.
      destruct (Ascii.eqb c ","); [discriminate|].
      now rewrite orb_false_r in Hc.
Qed.

End CommaListProperties.

(* ===================================================================== *)
(** ** Date columns: what the user supplied and when the detection runs   *)
(* ===================================================================== *)

Section DateColumnsClaim.
Import Py Pandas Sys DataPrep Spec Table.

Lemma comma_list_nil_iff arg :
  comma_list arg = []
  <-> all_chars (fun c => isspace c || Ascii.eqb c ",") arg = true.
Proof.
  unfold comma_list. rewrite filter_nil_iff, forallb_map.
  rewrite <- (split_all_chars "," (fun c => isspace c || Ascii.eqb c ","))
    by reflexivity.
  pose proof (split_no_sep "," arg) as Hsep.
  rewrite forallb_forall in Hsep.
  rewrite !forallb_forall. split; intros H p Hp; specialize (H p Hp).
  - rewrite negb_involutive in H. apply String.eqb_eq, strip_empty_iff in H.
    revert H. apply all_chars_weaken. intros c ->. reflexivity.
  - rewrite negb_involutive. apply String.eqb_eq, strip_empty_iff.
    specialize (Hsep p Hp). clear -H Hsep.
    induction p as [|c t IH]; [reflexivity|].
    cbn [all_chars] in *. apply andb_true_iff in H as [Hc Ht].
    apply andb_true_iff in Hsep as [Hn Hs].
    rewrite (IH Hs Ht), andb_true_r.
    destruct (Ascii.eqb c ","); [discriminate|].
    now rewrite orb_false_r in Hc.
Qed.

(** Lines 242-245 on what the user gave: the guard of line 243 adds
    nothing to the comprehension of line 245. *)
Lemma explicit_date_cols_entries args :
  explicit_date_cols args
  = match args_date_cols args with
    | Some s => comma_list s
    | None => []
    end.
Proof.
  unfold explicit_date_cols.
  now destruct (args_date_cols args) as [[|c t]|].
Qed.

Lemma explicit_date_cols_nil args :
  explicit_date_cols args = [] <-> names_supplied args = false.
Proof.
  rewrite explicit_date_cols_entries. unfold names_supplied.
  destruct (args_date_cols args) as [s|]; [|tauto].
  rewrite comma_list_nil_iff, negb_false_iff. tauto.
Qed.

Lemma date_cols_of_auto args df :
  explicit_date_cols args = [] ->
  date_cols_of args df = auto_detect_date_cols df.
Proof.
  intros H. unfold date_cols_of, resolve_date_cols. rewrite H.
  now destruct (auto_detect_date_cols df).
Qed.

(** C7: a column is a date candidate exactly when its normalised name,
    compared without regard to case, contains "date", "time", "created"
    or "updated". The list [main] works with is made of the value the
    user gave to [--date-cols], and it is empty exactly when the user
    named no column: the option is absent, or its value holds nothing
    but commas and whitespace. In that case, and only in that case,
    [main] runs the detection (once the frame is loaded) and takes its
    result; when the user named a column the detection is never reached
    and the names the user gave are the date columns. *)
Theorem auto_detection_spec :
  (forall df c,
     In c (auto_detect_date_cols df)
     <-> In c (columns df)
         /\ names_a_date (lower (normalize_col_name c)) = true)
  /\ (forall args,
        explicit_date_cols args
        = match args_date_cols args with
          | Some s => comma_list s
          | None => []
          end)
  /\ (forall args,
        explicit_date_cols args = [] <-> names_supplied args = false)
  /\ (forall df, exists ev,
        resolve_date_cols [] df = (Done (auto_detect_date_cols df), [ev])
        /\ auto_detect_record ev = true)
  /\ (forall flag flags df,
        resolve_date_cols (flag :: flags) df = (Done (flag :: flags), []))
  /\ (forall env args,
        names_supplied args = true ->
        auto_detection_ran (snd (main env args)) = false)
  /\ (forall env args df,
        names_supplied args = false ->
        fst (check_paths env args) = Done tt ->
        fst (load env args) = Done df ->
        auto_detection_ran (snd (main env args)) = true
        /\ date_cols_of args df = auto_detect_date_cols df)
  /\ (forall args s df,
        args_date_cols args = Some s ->
        names_supplied args = true ->
        date_cols_of args df = comma_list s).
Proof.
  split; [|split; [|split; [|split; [|split; [|split; [|split]]]]]].
  - intros df c. rewrite auto_detect_date_cols_filter, filter_In.
    now rewrite date_like_normalized.
  - apply explicit_date_cols_entries.
  - apply explicit_date_cols_nil.
  - apply resolve_date_cols_auto.
  - reflexivity.
  - intros env args Hnames. apply detection_skipped.
    intros Hnil. apply explicit_date_cols_nil in Hnil. congruence.
  - intros env args df Hnames Hpaths Hload.
    apply explicit_date_cols_nil in Hnames.
    split; [now apply (detection_runs env args df) |].
    now apply date_cols_of_auto.
  - intros args s df Hs Hnames. unfold date_cols_of, resolve_date_cols.
    pose proof (explicit_date_cols_entries args) as Hlist.
    rewrite Hs in Hlist.
    destruct (explicit_date_cols args) as [|flag flags] eqn:E.
    + apply explicit_date_cols_nil in E. congruence.
    + exact Hlist.
Qed.

(** On the January file of the sample: without the option the detection
    runs; with [--date-cols Sale-Date] it does not; with a value made of
    commas and blanks, which names no column, it runs. *)
Lemma auto_detection_spec_witness :
  auto_detection_ran
    (snd (main Sample.env (Sample.args ["jan.csv"] "out.xlsx"))) = true
  /\ auto_detection_ran
       (snd (main Sample.env
               (mkArgs ["jan.csv"] "out.xlsx" (Some "Sale-Date")
                       None None false None false))) = false
  /\ auto_detection_ran
       (snd (main Sample.env
               (mkArgs ["jan.csv"] "out.xlsx" (Some " , ,")
                       None None false None false))) = true.
Proof.
  destruct auto_detection_spec as (_ & _ & _ & _ & _ & Hskip & Hrun & _).
  split; [|split].
  - apply (Hrun Sample.env (Sample.args ["jan.csv"] "out.xlsx")
             Sample.sales_jan); reflexivity.
  - apply (Hskip Sample.env); reflexivity.
  - apply (Hrun Sample.env
             (mkArgs ["jan.csv"] "out.xlsx" (Some " , ,")
                     None None false None false)
             Sample.sales_jan); reflexivity.
Defined.

End DateColumnsClaim.

(* ===================================================================== *)
(** ** Rows: what [dropna] keeps                                          *)
(* ===================================================================== *)

Section Rows.
Import Py Pandas Sys DataPrep Spec Table.

Lemma take_rows_pick mask l : take_rows mask l = pick mask l.
Proof.
  revert l. induction mask as [|b m IH]; intros [|x t]; simpl;
    try reflexivity.
  now rewrite IH.
Qed.

Lemma take_rows_nil mask : take_rows mask [] = [].
Proof. now destruct mask. Qed.

Lemma length_take_rows mask :
  forall l, List.length l = List.length mask ->
  List.length (take_rows mask l) = List.length (filter (fun b => b) mask).
Proof.
  induction mask as [|b m IH]; intros [|x t] H; try discriminate H;
    [reflexivity|].
  injection H as H. cbn [take_rows filter].
  destruct b; cbn [List.length]; now rewrite IH.
Qed.

Lemma length_take_rows_le mask :
  forall l, List.length (take_rows mask l) <= List.length l.
Proof.
  induction mask as [|b m IH]; intros [|x t]; simpl; try lia.
  specialize (IH t). destruct b; simpl; lia.
Qed.

Lemma pick_map_filter {A} (keep : A -> bool) l :
  pick (map keep l) l = filter keep l.
Proof.
  induction l as [|x r IH]; [reflexivity|].
  cbn [map pick filter]. now rewrite IH.
Qed.

Lemma filter_andb {A} (p q : A -> bool) l :
  filter q (filter p l) = filter (fun x => p x && q x) l.
Proof.
  induction l as [|x r IH]; [reflexivity|].
  cbn [filter]. destruct (p x); cbn [filter andb]; now rewrite IH.
Qed.

Lemma length_rows df : List.length (rows df) = len df.
Proof. unfold rows. now rewrite length_map, length_seq. Qed.

Lemma rectangular_Forall df :
  rectangular df = true <->
  Forall (fun s => List.length (cells s) = len df) df.
Proof.
  unfold rectangular. rewrite forallb_forall, Forall_forall.
  split; intros H s Hs; specialize (H s Hs); now apply Nat.eqb_eq.
Qed.

Lemma row_tails df i : row (tails df) i = row df (S i).
Proof.
  unfold row, tails. rewrite map_map. apply map_ext. intros s.
  cbn [cells]. destruct (cells s); [now destruct i | reflexivity].
Qed.

(** A frame with a first row is that row on top of the rest. *)
Lemma rows_cons df n :
  len df = S n -> rows df = row df 0 :: rows (tails df).
Proof.
  intros Hlen. unfold rows. rewrite Hlen. cbn [seq map]. f_equal.
  rewrite <- seq_shift, map_map.
  assert (Htl : len (tails df) = n).
  { destruct df as [|s r]; [discriminate|]. cbn [tails map len cells] in *.
    destruct (cells s); [discriminate|]. simpl in Hlen. simpl. lia. }
  rewrite Htl. apply map_ext. intros i. symmetry. apply row_tails.
Qed.

Lemma select_false m df : select (false :: m) df = select m (tails df).
Proof.
  unfold select, tails. rewrite map_map. apply map_ext. intros s.
  cbn [label dtype cells]. destruct (cells s); [|reflexivity].
  cbn [tl take_rows]. now rewrite ?take_rows_nil.
Qed.

Lemma tails_select_true m df :
  tails (select (true :: m) df) = select m (tails df).
Proof.
  unfold select, tails. rewrite !map_map. apply map_ext. intros s.
  cbn [label dtype cells]. destruct (cells s); [|reflexivity].
  cbn [tl take_rows]. now rewrite ?take_rows_nil.
Qed.

Lemma row_select_true m df :
  Forall (fun s => cells s <> []) df ->
  row (select (true :: m) df) 0 = row df 0.
Proof.
  intros H. unfold row, select. rewrite map_map. apply map_ext_in.
  intros s Hs. rewrite Forall_forall in H. specialize (H s Hs).
  cbn [cells]. now destruct (cells s).
Qed.

(** The rows of a selection are the selected rows. *)
Lemma rows_select mask :
  forall df, df <> [] ->
  Forall (fun s => List.length (cells s) = List.length mask) df ->
  rows (select mask df) = pick mask (rows df).
Proof.
  induction mask as [|b m IH]; intros df Hne Hlen.
  - destruct df as [|s r]; [contradiction|]. unfold rows.
    cbn [select map len cells take_rows List.length seq]. reflexivity.
  - assert (Hdf : len df = S (List.length m)).
    { destruct df as [|s r]; [contradiction|].
      inversion Hlen; subst. assumption. }
    assert (Htails : Forall (fun s => List.length (cells s) = List.length m)
                            (tails df)).
    { unfold tails. rewrite Forall_map. revert Hlen. apply Forall_impl.
      intros s Hs. cbn [cells]. destruct (cells s); [discriminate|].
      simpl in *. lia. }
    assert (Hne' : tails df <> []).
    { destruct df; [contradiction | discriminate]. }
    rewrite (rows_cons df _ Hdf). specialize (IH (tails df) Hne' Htails).
    destruct b.
    + cbn [pick].
      assert (Hfull : Forall (fun s => cells s <> []) df).
      { revert Hlen. apply Forall_impl. intros s Hs E.
        rewrite E in Hs. discriminate. }
      assert (Hsel : exists k, len (select (true :: m) df) = S k).
      { destruct df as [|s r]; [contradiction|].
        inversion Hfull; subst.
        cbn [select map len cells]. destruct (cells s); [contradiction|].
        cbn [take_rows]. eexists. reflexivity. }
      destruct Hsel as [k Hk].
      rewrite (rows_cons _ _ Hk), tails_select_true, IH.
      now rewrite row_select_true.
    + cbn [pick]. now rewrite select_false.
Qed.

Lemma filter_rows_select keep df :
  filter_rows keep df = select (map keep (rows df)) df.
Proof. unfold filter_rows, select, rows. now rewrite map_map. Qed.

(** [filter_rows] keeps the rows that pass the test, in their order. *)
Lemma rows_filter_rows keep df :
  rectangular df = true ->
  rows (filter_rows keep df) = filter keep (rows df).
Proof.
  intros Hrect. destruct df as [|s r] eqn:Hdf; [reflexivity|].
  rewrite <- Hdf in *. rewrite filter_rows_select, rows_select.
  - apply pick_map_filter.
  - now rewrite Hdf.
  - apply rectangular_Forall in Hrect. revert Hrect. apply Forall_impl.
    intros x Hx. now rewrite length_map, length_rows.
Qed.

Lemma rectangular_filter_rows keep df :
  rectangular df = true -> rectangular (filter_rows keep df) = true.
Proof.
  intros Hrect. apply rectangular_Forall.
  apply rectangular_Forall in Hrect.
  assert (Hall : Forall (fun s => List.length (cells s)
                                  = List.length
                                      (filter (fun b => b)
                                              (map keep (rows df))))
                        (filter_rows keep df)).
  { rewrite filter_rows_select. unfold select. rewrite Forall_map.
    revert Hrect. apply Forall_impl. intros s Hs. cbn [cells].
    apply length_take_rows. now rewrite length_map, length_rows. }
  destruct (filter_rows keep df) as [|s r]; [constructor|].
  inversion Hall as [|? ? Hs Hr]; subst. cbn [len].
  constructor; [reflexivity|]. revert Hr. apply Forall_impl.
  intros x Hx. now rewrite Hx, Hs.
Qed.

Lemma columns_filter_rows keep df :
  columns (filter_rows keep df) = columns df.
Proof. unfold columns, filter_rows. now rewrite map_map. Qed.

Lemma dtypes_filter_rows keep df :
  map dtype (filter_rows keep df) = map dtype df.
Proof. unfold filter_rows. now rewrite map_map. Qed.

Lemma len_filter_rows_le keep df : len (filter_rows keep df) <= len df.
Proof.
  destruct df as [|s r]; [reflexivity|].
  unfold filter_rows. cbn [map len cells]. apply length_take_rows_le.
Qed.

(** A rectangular frame whose rows are complete has no missing cell. *)
Lemma complete_rows_no_null df :
  rectangular df = true ->
  Forall (fun r => complete r = true) (rows df) ->
  null_count df = 0.
Proof.
  intros Hrect Hrows. apply rectangular_Forall in Hrect.
  rewrite Forall_forall in Hrect, Hrows.
  unfold null_count.
  rewrite (map_ext_in _ (fun _ => 0)); [clear; now induction df|].
  intros s Hs.
  assert (E : filter isnull (cells s) = []).
  { apply filter_nil_iff. apply forallb_forall. intros x Hx.
    apply (In_nth _ _ CNull) in Hx as (i & Hi & <-).
    rewrite (Hrect s Hs) in Hi.
    assert (Hrow : In (row df i) (rows df)).
    { unfold rows. apply in_map, in_seq. lia. }
    specialize (Hrows _ Hrow). unfold complete in Hrows.
    rewrite forallb_forall in Hrows.
    apply (Hrows (nth i (cells s) CNull)).
    unfold row. now apply (in_map (fun s => nth i (cells s) CNull)). }
  now rewrite E.
Qed.

End Rows.

(* ===================================================================== *)
(** ** Step 5 of [process_dataframe]: the row drops                       *)
(* ===================================================================== *)

Section RowDrops.
Import Py Pandas Sys DataPrep Spec Table.

Lemma drop_missing_result dropna_any dropna_thresh df :
  fst (drop_missing dropna_any dropna_thresh df)
  = Done (dropped dropna_any dropna_thresh df).
Proof.
  unfold drop_missing, dropped.
  destruct (len (dropna_all df) <? len df)%nat, dropna_any,
    dropna_thresh as [[|p|p]|]; reflexivity.
Qed.

Lemma filter_rows_shape keep df' df :
  shaped df' df -> shaped (filter_rows keep df') df.
Proof.
  unfold shaped. intros (C & T & L).
  rewrite columns_filter_rows, dtypes_filter_rows.
  pose proof (len_filter_rows_le keep df'). repeat split; try assumption.
  lia.
Qed.

(** The three drops keep the labels and the dtypes and add no row. *)
Lemma dropped_shape dropna_any dropna_thresh df :
  shaped (dropped dropna_any dropna_thresh df) df.
Proof.
  unfold dropped, dropna_all, Pandas.dropna_any, Pandas.dropna_thresh.
  assert (H0 : shaped df df) by (unfold shaped; repeat split; lia).
  destruct dropna_any, dropna_thresh as [[|p|p]|];
    repeat apply filter_rows_shape; exact H0.
Qed.

(** The rows that are left are the rows that pass the tests of the
    drops that are switched on, in their order. *)
Lemma dropped_rows dropna_any dropna_thresh df :
  rectangular df = true ->
  rows (dropped dropna_any dropna_thresh df)
  = filter (kept dropna_any dropna_thresh) (rows df)
  /\ rectangular (dropped dropna_any dropna_thresh df) = true.
Proof.
  intros Hrect.
  unfold dropped, dropna_all, Pandas.dropna_any, Pandas.dropna_thresh.
  set (d1 := filter_rows (existsb notnull) df).
  assert (R1 : rectangular d1 = true) by now apply rectangular_filter_rows.
  assert (E1 : rows d1 = filter has_value (rows df))
    by now apply rows_filter_rows.
  set (d2 := if dropna_any then filter_rows (forallb notnull) d1 else d1).
  assert (R2 : rectangular d2 = true).
  { subst d2. destruct dropna_any; [|exact R1].
    now apply rectangular_filter_rows. }
  assert (E2 : rows d2
               = filter (fun r => has_value r
                                  && if dropna_any then complete r else true)
                        (rows df)).
  { subst d2. destruct dropna_any.
    - rewrite rows_filter_rows, E1 by exact R1. apply filter_andb.
    - rewrite E1. apply filter_ext. intros r. now rewrite andb_true_r. }
  assert (Hskip : rows d2
                  = filter (fun r => has_value r
                                     && (if dropna_any then complete r
                                         else true) && true) (rows df)).
  { rewrite E2. apply filter_ext. intros r. now rewrite andb_true_r. }
  unfold kept.
  destruct dropna_thresh as [[|p|p]|]; try (split; [exact Hskip | exact R2]);
    (split; [|now apply rectangular_filter_rows]);
    rewrite rows_filter_rows, E2 by exact R2; apply filter_andb.
Qed.

(** When every row passes the test nothing is dropped. *)
Lemma take_rows_all mask :
  forall l, List.length l = List.length mask ->
  forallb (fun b => b) mask = true -> take_rows mask l = l.
Proof.
  induction mask as [|b m IH]; intros [|x t] Hlen Hall; try discriminate Hlen;
    [reflexivity|].
  cbn [forallb] in Hall. apply andb_true_iff in Hall as [-> Hm].
  cbn [take_rows]. f_equal. apply IH; [now injection Hlen | exact Hm].
Qed.

Lemma filter_rows_all keep df :
  rectangular df = true ->
  forallb keep (rows df) = true -> filter_rows keep df = df.
Proof.
  intros Hrect Hall. apply rectangular_Forall in Hrect.
  rewrite Forall_forall in Hrect.
  rewrite filter_rows_select. unfold select.
  rewrite <- (map_id df) at 2. apply map_ext_in. intros s Hs.
  rewrite take_rows_all; [now destruct s | |].
  - now rewrite length_map, length_rows, (Hrect s Hs).
  - now rewrite forallb_map.
Qed.

Lemma length_filter_le {A} (P : A -> bool) l :
  List.length (filter P l) <= List.length l.
Proof.
  induction l as [|x r IH]; [reflexivity|].
  simpl. destruct (P x); simpl; lia.
Qed.

Lemma has_value_enough n r :
  (n <= 1)%Z -> has_value r = true -> enough n r = true.
Proof.
  intros Hn Hr. unfold enough, has_value in *. apply Z.leb_le.
  apply existsb_exists in Hr as (x & Hx & Hnn).
  assert (Hin : In x (filter notnull r)) by now apply filter_In.
  destruct (filter notnull r); [contradiction | simpl List.length; lia].
Qed.

End RowDrops.

Section RowDropProperties.
Import Py Pandas Sys DataPrep Spec Table.

(** X6: on a rectangular frame the three drops of lines 151-168 cannot
    fail and return the frame made of the rows that pass the tests of the
    drops that are switched on (a value in some column; with
    [--dropna-any] a value in every column; with a threshold at least
    that many values), in their original order; no row that passes is
    lost, none that fails is left, the labels and dtypes are kept and the
    frame is still rectangular. *)
Theorem drop_missing_rows dropna_any dropna_thresh df :
  rectangular df = true ->
  exists out tr,
    drop_missing dropna_any dropna_thresh df = (Done out, tr)
    /\ rows out = filter (kept dropna_any dropna_thresh) (rows df)
    /\ columns out = columns df
    /\ map dtype out = map dtype df
    /\ rectangular out = true.
Proof.
  intros Hrect.
  pose proof (drop_missing_result dropna_any dropna_thresh df) as Hres.
  destruct (drop_missing dropna_any dropna_thresh df) as [r tr].
  cbn [fst] in Hres. subst r.
  destruct (dropped_rows dropna_any dropna_thresh df Hrect) as [Hrows Hr].
  destruct (dropped_shape dropna_any dropna_thresh df) as (Hc & Ht & _).
  exists (dropped dropna_any dropna_thresh df), tr. now repeat split.
Qed.

(** Of the three rows of the table with gaps, the empty one goes. *)
Lemma drop_missing_rows_witness :
  exists out tr,
    drop_missing false None with_gaps = (Done out, tr)
    /\ rows out = filter (kept false None) (rows with_gaps)
    /\ columns out = columns with_gaps
    /\ map dtype out = map dtype with_gaps
    /\ rectangular out = true.
Proof.
  apply (drop_missing_rows false None with_gaps). reflexivity.
Defined.

(** X7: with [--dropna-any] the frame that leaves the drops has no
    missing cell, whatever the threshold. *)
Theorem dropna_any_leaves_no_null dropna_thresh df :
  rectangular df = true ->
  exists out,
    fst (drop_missing true dropna_thresh df) = Done out
    /\ null_count out = 0.
Proof.
  intros Hrect. exists (dropped true dropna_thresh df).
  split; [apply drop_missing_result|].
  destruct (dropped_rows true dropna_thresh df Hrect) as [Hrows Hr].
  apply complete_rows_no_null; [exact Hr|].
  rewrite Hrows. apply Forall_forall. intros r Hin.
  apply filter_In in Hin as [_ Hkept]. unfold kept in Hkept.
  apply andb_true_iff in Hkept as [Hkept _].
  now apply andb_true_iff in Hkept as [_ Hkept].
Qed.

Lemma dropna_any_leaves_no_null_witness :
  exists out,
    fst (drop_missing true (Some 2%Z) with_gaps) = Done out
    /\ null_count out = 0.
Proof.
  apply (dropna_any_leaves_no_null (Some 2%Z) with_gaps). reflexivity.
Defined.

(** X8: a threshold of 1 or less drops nothing: the rows that are left
    after the drop of the empty rows all hold a value, so the frame
    returned is the one returned without a threshold. *)
Theorem dropna_thresh_one_drops_nothing dropna_any thresh df :
  rectangular df = true -> (thresh <= 1)%Z ->
  fst (drop_missing dropna_any (Some thresh) df)
  = fst (drop_missing dropna_any None df).
Proof.
  intros Hrect Hone. rewrite !drop_missing_result. f_equal.
  destruct (dropped_rows dropna_any None df Hrect) as [Hrows Hr].
  assert (Hall : Pandas.dropna_thresh thresh (dropped dropna_any None df)
                 = dropped dropna_any None df).
  { apply filter_rows_all; [exact Hr|]. rewrite Hrows.
    apply forallb_forall. intros r Hin.
    apply filter_In in Hin as [_ Hkept]. unfold kept in Hkept.
    apply andb_true_iff in Hkept as [Hkept _].
    apply andb_true_iff in Hkept as [Hval _].
    now apply has_value_enough. }
  destruct thresh as [|p|p]; [reflexivity | exact Hall | exact Hall].
Qed.

Lemma dropna_thresh_one_drops_nothing_witness :
  fst (drop_missing false (Some 1%Z) with_gaps)
  = fst (drop_missing false None with_gaps).
Proof.
  apply (dropna_thresh_one_drops_nothing false 1%Z with_gaps);
    [reflexivity | lia].
Defined.

(** X9: a threshold above the number of columns drops every row, the
    columns are kept. *)
Theorem dropna_thresh_above_width_drops_all dropna_any thresh df :
  rectangular df = true -> (Z.of_nat (List.length df) < thresh)%Z ->
  exists out,
    fst (drop_missing dropna_any (Some thresh) df) = Done out
    /\ len out = 0
    /\ columns out = columns df.
Proof.
  intros Hrect Hwide. exists (dropped dropna_any (Some thresh) df).
  split; [apply drop_missing_result|].
  destruct (dropped_shape dropna_any (Some thresh) df) as (Hc & _ & _).
  split; [|exact Hc].
  destruct (dropped_rows dropna_any (Some thresh) df Hrect) as [Hrows _].
  rewrite <- length_rows, Hrows.
  assert (Hnone : filter (kept dropna_any (Some thresh)) (rows df) = []).
  { apply filter_nil_iff, forallb_forall. intros r Hin.
    apply negb_true_iff. unfold kept.
    assert (Hfew : enough thresh r = false).
    { unfold enough. apply Z.leb_gt.
      unfold rows in Hin. apply in_map_iff in Hin as (i & <- & _).
      pose proof (length_filter_le notnull (row df i)) as Hle.
      unfold row in Hle at 2. rewrite length_map in Hle. lia. }
    destruct thresh as [|p|p]; [lia | | lia].
    rewrite Hfew. apply andb_false_r. }
  now rewrite Hnone.
Qed.

Lemma dropna_thresh_above_width_drops_all_witness :
  exists out,
    fst (drop_missing false (Some 3%Z) with_gaps) = Done out
    /\ len out = 0
    /\ columns out = columns with_gaps.
Proof.
  apply (dropna_thresh_above_width_drops_all false 3%Z with_gaps);
    [reflexivity | simpl; lia].
Defined.

End RowDropProperties.

(* ===================================================================== *)
(** ** [try_parse_dates]: the records and the shape of the frame          *)
(* ===================================================================== *)

Section DateLoop.
Import Py Pandas Sys DataPrep Spec Table.

Lemma count_label_columns (df : DataFrame) c :
  count_label df c
  = List.length (filter (fun l => String.eqb l c) (columns df)).
Proof.
  unfold count_label, columns. induction df as [|s r IH]; [reflexivity|].
  cbn [filter map]. destruct (String.eqb (label s) c); simpl; now rewrite IH.
Qed.

Lemma date_record_columns df df' c :
  columns df' = columns df -> date_record df' c = date_record df c.
Proof.
  intros H. unfold date_record. now rewrite !count_label_columns, H.
Qed.

Lemma converted_columns df df' cols s :
  columns df' = columns df -> converted df' cols s = converted df cols s.
Proof.
  intros H. unfold converted. now rewrite !count_label_columns, H.
Qed.

Lemma columns_map_if (P : Series -> bool) env df :
  columns (map (fun s => if P s then to_datetime_column env s else s) df)
  = columns df.
Proof.
  unfold columns. rewrite map_map. apply map_ext. intros s.
  now destruct (P s).
Qed.

Lemma lengths_map_if (P : Series -> bool) env df :
  map (fun s => List.length (cells s))
      (map (fun s => if P s then to_datetime_column env s else s) df)
  = map (fun s => List.length (cells s)) df.
Proof.
  rewrite map_map. apply map_ext. intros s.
  destruct (P s); [|reflexivity]. cbn [to_datetime_column cells].
  apply length_map.
Qed.

Lemma columns_parse_column env df c :
  columns (parse_column env df c) = columns df.
Proof. rewrite parse_column_exact. apply columns_map_if. Qed.

(** The loop of lines 82-90, with its records. *)
Lemma try_parse_dates_run env cols :
  forall df,
  try_parse_dates env df cols
  = (Done (fold_left (parse_column env) cols df),
     map (date_record df) cols).
Proof.
  unfold try_parse_dates. induction cols as [|c rest IH]; intros df;
    [reflexivity|].
  cbn [for_each fold_left map].
  match goal with
  | |- bind ?b _ = _ =>
      assert (Hstep : b = (Done (parse_column env df c), [date_record df c]))
  end.
  { unfold parse_column, date_record, getitem, count_label.
    destruct (mem c (columns df)) eqn:Hmem; [|reflexivity]. cbn [negb].
    destruct (filter (fun s => String.eqb (label s) c) df)
      as [|s0 [|s1 l]] eqn:Hsel; [|reflexivity|reflexivity].
    exfalso. apply mem_In, in_map_iff in Hmem as (s & Hlab & Hs).
    assert (H : In s (filter (fun s => String.eqb (label s) c) df)).
    { apply filter_In. split; [exact Hs | now apply String.eqb_eq]. }
    now rewrite Hsel in H. }
  rewrite (bind_done _ _ _ _ Hstep), IH. cbn [fst snd app]. f_equal. f_equal.
  apply map_ext. intros x. apply date_record_columns, columns_parse_column.
Qed.

End DateLoop.

Section DateLoopProperties.
Import Py Pandas Sys DataPrep Spec Table.

(** X10: [try_parse_dates] leaves exactly one record for each listed
    name, in the order of the list: a WARNING when no column has that
    name, an INFO record when the column is converted, a WARNING with the
    error when [pd.to_datetime] refuses it; it never adds, removes,
    renames or reorders a column and never changes the length of one, and
    a second pass over its result with the same list returns that
    result. *)
Theorem try_parse_dates_records env df cols :
  exists out,
    try_parse_dates env df cols = (Done out, map (date_record df) cols)
    /\ columns out = columns df
    /\ map (fun s => List.length (cells s)) out
       = map (fun s => List.length (cells s)) df
    /\ fst (try_parse_dates env out cols) = Done out.
Proof.
  eexists. split; [apply try_parse_dates_run|].
  rewrite try_parse_dates_exact.
  split; [apply columns_map_if|]. split; [apply lengths_map_if|].
  rewrite try_parse_dates_run. cbn [fst]. f_equal.
  rewrite try_parse_dates_exact, map_map. apply map_ext. intros s.
  rewrite (converted_columns df _ cols _ (columns_map_if _ env df)).
  destruct (converted df cols s) eqn:Hs.
  - unfold converted in *. cbn [to_datetime_column label]. rewrite Hs.
    apply to_datetime_column_idem.
  - now rewrite Hs.
Qed.

End DateLoopProperties.

(* ===================================================================== *)
(** ** [load_and_concat] when every file can be read                      *)
(* ===================================================================== *)

Section LoaderSuccess.
Import Py Pandas Sys DataPrep Spec Table.

Local Abbreviation read_into env :=
  (fun (dfs : list DataFrame) (f : string) =>
     try_except
       (log INFO "Reading CSV: %s" [AStr f] ;;
        df <- read env f ;;
        ret (dfs ++ [df])%list)
       (fun e =>
          log ERROR "Failed to read %s: %s" [AStr f; AExc e] ;;
          raise e)).

Lemma reads_app a b : reads (a ++ b) = (reads a ++ reads b)%list.
Proof.
  induction a as [|ev r IH]; [reflexivity|].
  destruct ev; simpl; now rewrite IH.
Qed.

(** The loop of lines 97-104 collects the frames in the order of the
    files. *)
Lemma load_loop_frames env files :
  forall frames acc,
  frames_of env files = Some frames ->
  exists tr,
    for_each files acc (read_into env) = (Done (acc ++ frames)%list, tr)
    /\ reads tr = files
    /\ existsb is_error tr = false
    /\ existsb is_write tr = false.
Proof.
  induction files as [|f r IH]; intros frames acc Hfr.
  - injection Hfr as <-. exists []. simpl. now rewrite app_nil_r.
  - cbn [frames_of] in Hfr.
    destruct (read_csv env f) as [df|] eqn:Hread; [|discriminate].
    destruct (frames_of env r) as [dfs|] eqn:Hr; [|discriminate].
    injection Hfr as <-.
    destruct (IH dfs (acc ++ [df])%list eq_refl) as (tr & Hrun & Hreads & He & Hw).
    eexists. cbn [for_each]. rewrite (read_into_ok env acc f df Hread).
    erewrite bind_done by reflexivity. rewrite Hrun.
    rewrite <- app_assoc. cbn [fst snd]. split; [reflexivity|].
    simpl. now rewrite Hreads, He, Hw.
Qed.

End LoaderSuccess.

Section LoaderProperties.
Import Py Pandas Sys DataPrep Spec Table.

(** X11: when [pd.read_csv] returns a frame for every listed file,
    [load_and_concat] reads each file once, in the order of the list, and
    logs no error; a single file is returned as it was read, without a
    call of [pd.concat]; two or more frames are handed to [pd.concat] in
    the order of the files, whose result, or error, is the result of the
    function; an empty list of files raises [ValueError]. *)
Theorem load_and_concat_reads_all env files frames :
  frames_of env files = Some frames ->
  exists tr,
    load_and_concat env files
    = (match frames with
       | [] => Raised (mkExc "ValueError"
                             "No dataframes loaded from the provided files.")
       | [df] => Done df
       | _ => match pd_concat env frames with
              | Returns df => Done df
              | Raises e => Raised e
              end
       end, tr)
    /\ reads tr = files
    /\ existsb is_error tr = false
    /\ List.length frames = List.length files.
Proof.
  intros Hfr.
  destruct (load_loop_frames env files frames [] Hfr)
    as (tr & Hrun & Hreads & Herr & _).
  assert (Hlen : List.length frames = List.length files).
  { clear -Hfr. revert frames Hfr.
    induction files as [|f r IH]; intros frames Hfr.
    - now injection Hfr as <-.
    - cbn [frames_of] in Hfr. destruct (read_csv env f); [|discriminate].
      destruct (frames_of env r) as [dfs|]; [|discriminate].
      injection Hfr as <-. simpl. now rewrite (IH dfs). }
  unfold load_and_concat. rewrite Hrun. cbn [app].
  destruct frames as [|d [|d' rest]].
  - exists tr. unfold bind, raise. cbn [fst snd].
    rewrite app_nil_r. now repeat split.
  - exists tr. unfold bind, ret. cbn [fst snd].
    rewrite app_nil_r. now repeat split.
  - eexists. unfold bind at 1. cbn [fst snd]. rewrite bind_log.
    cbn [fst snd]. split; [|split; [|split; [|exact Hlen]]].
    + f_equal. now destruct (pd_concat env (d :: d' :: rest)).
    + rewrite reads_app. cbn [reads].
      destruct (pd_concat env (d :: d' :: rest)); cbn [lift ret raise snd reads];
        now rewrite app_nil_r.
    + rewrite existsb_app, Herr.
      now destruct (pd_concat env (d :: d' :: rest)).
Qed.

(** The two files of the sample. *)
Lemma load_and_concat_reads_all_witness :
  exists tr,
    load_and_concat Sample.env ["jan.csv"; "feb.csv"]
    = (match pd_concat Sample.env [Sample.sales_jan; Sample.sales_feb] with
       | Returns df => Done df
       | Raises e => Raised e
       end, tr)
    /\ reads tr = ["jan.csv"; "feb.csv"]
    /\ existsb is_error tr = false
    /\ List.length [Sample.sales_jan; Sample.sales_feb]
       = List.length ["jan.csv"; "feb.csv"].
Proof.
  apply (load_and_concat_reads_all Sample.env ["jan.csv"; "feb.csv"]
           [Sample.sales_jan; Sample.sales_feb]).
  reflexivity.
Defined.

End LoaderProperties.

(* ===================================================================== *)
(** ** [process_dataframe] as a whole                                     *)
(* ===================================================================== *)

Section Pipeline.
Import Py Pandas Sys DataPrep Spec Table.

Lemma len_map_cells (g : Series -> Series) df :
  (forall s, List.length (cells (g s)) = List.length (cells s)) ->
  len (map g df) = len df.
Proof. intros H. destruct df as [|s r]; [reflexivity | apply H]. Qed.

Lemma rectangular_map_cells (g : Series -> Series) df :
  (forall s, List.length (cells (g s)) = List.length (cells s)) ->
  rectangular (map g df) = rectangular df.
Proof.
  intros H. unfold rectangular. rewrite forallb_map, (len_map_cells g df H).
  generalize (len df). intros n.
  induction df as [|s r IH]; [reflexivity|].
  cbn [forallb]. now rewrite H, IH.
Qed.

Lemma length_cells_trim_column s :
  List.length (cells (trim_column s)) = List.length (cells s).
Proof.
  unfold trim_column. destruct (is_object s); [|reflexivity].
  apply length_map.
Qed.

Lemma length_cells_converted (P : Series -> bool) env s :
  List.length (cells (if P s then to_datetime_column env s else s))
  = List.length (cells s).
Proof. destruct (P s); [apply length_map | reflexivity]. Qed.

Lemma parse_date_columns_result env date_cols df :
  fst (parse_date_columns env date_cols df)
  = Done match date_cols with
         | [] => df
         | _ => fold_left (parse_column env) date_cols df
         end.
Proof.
  unfold parse_date_columns. destruct date_cols as [|c r]; [reflexivity|].
  apply try_parse_dates_fold.
Qed.

Lemma fill_missing_result env fillna_value df :
  fst (fill_missing env fillna_value df)
  = Done match fillna_value with
         | Some v => fillna (read_timestamp env) v df
         | None => df
         end.
Proof. now destruct fillna_value. Qed.

(** [process_dataframe] is step 3 on the relabelled frame, followed by
    steps that cannot fail. *)
Lemma process_dataframe_steps env df date_cols rename_map fillna_value
      dropna_any dropna_thresh strip_strings :
  fst (process_dataframe env df date_cols rename_map fillna_value
                         dropna_any dropna_thresh strip_strings)
  = match fst (trim_strings strip_strings (labelled rename_map df)) with
    | Done d =>
        Done (finish env date_cols fillna_value dropna_any dropna_thresh d)
    | Raised e => Raised e
    | Exited c => Exited c
    end.
Proof.
  unfold process_dataframe, labelled.
  rewrite (bind_done _ _ _ _ (normalize_columns_run df)). cbn [fst].
  rewrite (bind_done _ _ _ _ (apply_rename_map_run rename_map _)). cbn [fst].
  destruct (fst (trim_strings strip_strings _)) as [d|e|c] eqn:Htrim.
  - rewrite (bind_fst_done _ _ _ Htrim). cbn [fst].
    rewrite (bind_fst_done _ _ _ (parse_date_columns_result env date_cols d)).
    cbn [fst].
    rewrite (bind_fst_done _ _ _ (drop_missing_result _ _ _)). cbn [fst].
    rewrite (bind_fst_done _ _ _ (fill_missing_result _ _ _)). reflexivity.
  - now rewrite (bind_fst_raised _ _ _ Htrim).
  - now rewrite (bind_fst_exited _ _ _ Htrim).
Qed.

Lemma apply_str_strip_error sel e :
  apply str_strip sel = Raises e -> e = accessor_error.
Proof.
  induction sel as [|s r IH]; [discriminate|].
  cbn [apply]. unfold str_strip at 1.
  destruct (str_accessor_ok s); [|now intros [= <-]].
  destruct (apply str_strip r); [discriminate|].
  intros [= <-]. now apply IH.
Qed.

(** Step 3 ends with a frame or with one of two errors. *)
Lemma trim_strings_outcome strip_strings df :
  match fst (trim_strings strip_strings df) with
  | Done out => out = if strip_strings then map trim_column df else df
  | Raised e => strip_strings = true
                /\ (e = accessor_error \/ e = assignment_error)
  | Exited _ => False
  end.
Proof.
  destruct strip_strings; [|reflexivity].
  destruct (fst (trim_strings true df)) as [out|e|c] eqn:Hrun.
  - now apply trim_strings_done.
  - split; [reflexivity|]. unfold trim_strings in Hrun.
    destruct (0 <? _)%nat; [|discriminate].
    destruct (apply str_strip _) as [stripped|e'] eqn:Happly.
    + cbn [lift] in Hrun. rewrite bind_ret in Hrun.
      unfold setitem_list in Hrun.
      destruct (nodupb _ && forallb _ _ && _);
        [discriminate | injection Hrun as <-; now right].
    + injection Hrun as <-. left. now apply apply_str_strip_error in Happly.
  - unfold trim_strings in Hrun.
    destruct (0 <? _)%nat; [|discriminate].
    destruct (apply str_strip _) as [stripped|e'] eqn:Happly;
      [|discriminate].
    cbn [lift] in Hrun. rewrite bind_ret in Hrun.
    destruct (setitem_list _ _ _); discriminate.
Qed.

Lemma fill_column_shape stamp v s :
  label (fill_column stamp v s) = label s
  /\ List.length (cells (fill_column stamp v s)) = List.length (cells s).
Proof.
  unfold fill_column. destruct (existsb isnull (cells s)); [|now split].
  destruct (dtype s), (stamp v); cbn [label cells];
    rewrite ?length_map; now split.
Qed.

Lemma fillna_shape stamp v df :
  columns (fillna stamp v df) = columns df
  /\ len (fillna stamp v df) = len df
  /\ rectangular (fillna stamp v df) = rectangular df.
Proof.
  unfold fillna. split; [|split].
  - unfold columns. rewrite map_map. apply map_ext. intros s.
    apply fill_column_shape.
  - apply len_map_cells. intros s. apply fill_column_shape.
  - apply rectangular_map_cells. intros s. apply fill_column_shape.
Qed.

(** The steps after the trimmer keep the labels, add no row and keep the
    frame rectangular. *)
Lemma finish_shape env date_cols fillna_value dropna_any dropna_thresh df :
  columns (finish env date_cols fillna_value dropna_any dropna_thresh df)
  = columns df
  /\ len (finish env date_cols fillna_value dropna_any dropna_thresh df)
     <= len df
  /\ (rectangular df = true ->
      rectangular
        (finish env date_cols fillna_value dropna_any dropna_thresh df)
      = true).
Proof.
  unfold finish.
  set (d4 := match date_cols with
             | [] => df
             | _ => fold_left (parse_column env) date_cols df
             end).
  assert (H4 : columns d4 = columns df /\ len d4 = len df
               /\ rectangular d4 = rectangular df).
  { subst d4. destruct date_cols as [|c r]; [now repeat split|].
    rewrite try_parse_dates_exact. split; [apply columns_map_if|].
    split; [apply len_map_cells | apply rectangular_map_cells];
      intros s; apply length_cells_converted. }
  destruct H4 as (C4 & L4 & R4).
  destruct (dropped_shape dropna_any dropna_thresh d4) as (C5 & _ & L5).
  assert (R5 : rectangular df = true ->
               rectangular (dropped dropna_any dropna_thresh d4) = true).
  { intros H. apply dropped_rows. congruence. }
  destruct fillna_value as [v|].
  - destruct (fillna_shape (read_timestamp env) v
                           (dropped dropna_any dropna_thresh d4))
      as (C6 & L6 & R6).
    repeat split; [congruence | lia | intros H; rewrite R6; auto].
  - repeat split; [congruence | lia | exact R5].
Qed.

Lemma relabel_shape f df :
  len (relabel f df) = len df /\ rectangular (relabel f df) = rectangular df.
Proof.
  unfold relabel. split;
    [apply len_map_cells | apply rectangular_map_cells]; reflexivity.
Qed.

End Pipeline.

Section PipelineProperties.
Import Py Pandas Sys DataPrep Spec Table.

(** X12: whenever [process_dataframe] returns on a rectangular frame,
    the frame returned has one column for each column of the input, in
    the same order, labelled with the normalised header or, when that is
    a key of the rename mapping, with the name stored under it; it has no
    more rows than the input and is rectangular. *)
Theorem process_dataframe_shape env df date_cols rename_map fillna_value
        dropna_any dropna_thresh strip_strings out :
  rectangular df = true ->
  fst (process_dataframe env df date_cols rename_map fillna_value
                         dropna_any dropna_thresh strip_strings)
  = Done out ->
  columns out
  = map (fun c => renamed rename_map (normalize_col_name c)) (columns df)
  /\ List.length out = List.length df
  /\ len out <= len df
  /\ rectangular out = true.
Proof.
  intros Hrect Hrun. rewrite process_dataframe_steps in Hrun.
  pose proof (trim_strings_outcome strip_strings (labelled rename_map df))
    as Htrim.
  destruct (fst (trim_strings strip_strings (labelled rename_map df)))
    as [d|e|c]; [|discriminate|discriminate].
  injection Hrun as Hout.
  assert (H2 : columns (labelled rename_map df)
               = map (fun c => renamed rename_map (normalize_col_name c))
                     (columns df)
               /\ len (labelled rename_map df) = len df
               /\ rectangular (labelled rename_map df) = true).
  { unfold labelled. rewrite relabel_relabel.
    destruct (relabel_shape
                (fun c => renamed rename_map (normalize_col_name c)) df)
      as [L R].
    split; [apply columns_relabel|]. split; [exact L | congruence]. }
  destruct H2 as (C2 & L2 & R2).
  assert (H3 : columns d = columns (labelled rename_map df)
               /\ len d = len (labelled rename_map df)
               /\ rectangular d = true).
  { subst d. destruct strip_strings; [|now repeat split].
    split; [|split].
    - unfold columns. rewrite map_map. apply map_ext. intros s.
      unfold trim_column. now destruct (is_object s).
    - apply len_map_cells, length_cells_trim_column.
    - rewrite rectangular_map_cells; [exact R2|].
      apply length_cells_trim_column. }
  destruct H3 as (C3 & L3 & R3).
  destruct (finish_shape env date_cols fillna_value dropna_any
                         dropna_thresh d) as (C & L & R).
  rewrite Hout in C, L, R.
  split; [congruence|]. split; [|split; [lia | auto]].
  rewrite <- (length_map label out), <- (length_map label df).
  fold (columns out) (columns df). rewrite C, C3, C2. apply length_map.
Qed.

(** The January file of the sample. *)
Lemma process_dataframe_shape_witness :
  let out := [ mkSeries "name" DObject [CStr "Ann"];
               mkSeries "sale_date" DObject [CStr "2024-01-01"] ] in
  columns out
  = map (fun c => renamed [] (normalize_col_name c))
        (columns Sample.sales_jan)
  /\ List.length out = List.length Sample.sales_jan
  /\ len out <= len Sample.sales_jan
  /\ rectangular out = true.
Proof.
  apply (process_dataframe_shape Sample.env Sample.sales_jan [] [] None
           false None true); reflexivity.
Defined.

(** X13: [process_dataframe] never calls [sys.exit] and raises exactly
    when its step 3 raises on the normalised and renamed frame, with the
    same error, which is the [AttributeError] of the [.str] accessor or
    the [ValueError] of the assignment of line 143; every other step
    goes through, and with [strip_strings=False] the function always
    returns. *)
Theorem process_dataframe_fails_only_in_trim env df date_cols rename_map
        fillna_value dropna_any dropna_thresh strip_strings :
  no_exit (process_dataframe env df date_cols rename_map fillna_value
                             dropna_any dropna_thresh strip_strings)
  /\ (forall e,
        fst (process_dataframe env df date_cols rename_map fillna_value
                               dropna_any dropna_thresh strip_strings)
        = Raised e
        <-> fst (trim_strings strip_strings (labelled rename_map df))
            = Raised e)
  /\ (forall e,
        fst (process_dataframe env df date_cols rename_map fillna_value
                               dropna_any dropna_thresh strip_strings)
        = Raised e ->
        exc_type e = "AttributeError" \/ exc_type e = "ValueError")
  /\ exists out,
       fst (process_dataframe env df date_cols rename_map fillna_value
                              dropna_any dropna_thresh false)
       = Done out.
Proof.
  unfold no_exit. rewrite !process_dataframe_steps.
  pose proof (trim_strings_outcome strip_strings (labelled rename_map df))
    as Htrim.
  destruct (fst (trim_strings strip_strings (labelled rename_map df)))
    as [d|e|c]; [| |contradiction].
  - split; [discriminate|]. split; [now split|].
    split; [discriminate|]. eexists. reflexivity.
  - split; [discriminate|]. split; [now split|].
    split; [|eexists; reflexivity].
    intros e' [= <-]. destruct Htrim as [_ [->| ->]]; [now left | now right].
Qed.

(** The file of flags of the sample: its only column is an object column
    of booleans, and the [.str] accessor refuses it. *)
Lemma process_dataframe_fails_only_in_trim_witness :
  exc_type accessor_error = "AttributeError"
  \/ exc_type accessor_error = "ValueError".
Proof.
  apply (proj1 (proj2 (proj2 (process_dataframe_fails_only_in_trim
                                Sample.env Sample.flags [] [] None false
                                None true)))
           accessor_error).
  reflexivity.
Defined.

End PipelineProperties.

(* ===================================================================== *)
(** ** [main]: the whole run                                              *)
(* ===================================================================== *)

Section MainRuns.
Import Py Pandas Sys DataPrep Spec Table.

Ltac calm_step :=
  match goal with
  | |- never _ (ret _) => apply never_ret
  | |- never _ (raise _) => apply never_raise
  | |- never _ (sys_exit _) => apply never_sys_exit
  | |- never _ (lift _) => apply never_lift
  | H : calm ?P |- never ?P (log _ _ _) => apply never_log, H; discriminate
  | |- never _ (log _ _ _) => apply never_log; reflexivity
  | |- never _ (read _ _) => reflexivity
  | |- never _ (write _ _ _) => reflexivity
  | |- never _ (bind _ _) => apply never_bind; [|intros ?]
  | |- never _ (try_except _ _) => apply never_try_except; [|intros ?]
  | |- never _ (for_each _ _ _) => apply never_for_each; intros ? ?
  | |- never _ (if ?b then _ else _) => destruct b
  | |- never _ (match ?x with _ => _ end) => destruct x
  end.

Lemma calm_is_write : calm is_write.
Proof. intros lvl fmt a _. reflexivity. Qed.

Lemma calm_is_read : calm is_read.
Proof. intros lvl fmt a _. reflexivity. Qed.

Lemma calm_is_error : calm is_error.
Proof. intros [] fmt a H; try reflexivity. now destruct H. Qed.

Lemma calm_parse_rename_arg P arg :
  calm P -> never P (parse_rename_arg arg).
Proof. intros Hc. unfold parse_rename_arg. repeat calm_step. Qed.

Lemma calm_resolve_date_cols P flag df :
  calm P -> never P (resolve_date_cols flag df).
Proof. intros Hc. unfold resolve_date_cols. repeat calm_step. Qed.

Lemma calm_try_parse_dates P env df cols :
  calm P -> never P (try_parse_dates env df cols).
Proof. intros Hc. unfold try_parse_dates. repeat calm_step. Qed.

Lemma calm_processing P env args df :
  calm P -> never P (processing env args df).
Proof.
  intros Hc. pose proof (calm_try_parse_dates P env) as Hdates.
  unfold processing, run_process, process_dataframe, normalize_columns,
    apply_rename_map, trim_strings, parse_date_columns, drop_missing,
    fill_missing.
  repeat calm_step; now apply Hdates.
Qed.

Lemma load_and_concat_never_writes env files :
  never is_write (load_and_concat env files).
Proof. unfold load_and_concat. repeat calm_step. Qed.

Lemma never_reads {A} (m : M A) : never is_read m -> reads (snd m) = [].
Proof.
  unfold never. induction (snd m) as [|ev r IH]; [reflexivity|].
  destruct ev; simpl; [exact IH | discriminate | exact IH].
Qed.

Lemma never_writes {A} (m : M A) : never is_write m -> writes (snd m) = [].
Proof.
  unfold never, writes. induction (snd m) as [|ev r IH]; [reflexivity|].
  destruct ev; simpl; [exact IH | exact IH | discriminate].
Qed.

Lemma writes_app a b : writes (a ++ b) = (writes a ++ writes b)%list.
Proof. apply filter_app. Qed.

Lemma final_app a ev b : final (a ++ ev :: b) = final (ev :: b).
Proof.
  unfold final. rewrite map_app. cbn [map].
  induction a as [|x r IH]; [reflexivity|].
  cbn [map app]. rewrite <- IH.
  destruct (map Some r ++ Some ev :: map Some b)%list eqn:E; [|reflexivity].
  now destruct r.
Qed.

(** Every file can be read, or one of them cannot. *)
Lemma frames_of_cases env files :
  (exists frames, frames_of env files = Some frames)
  \/ forallb (readable env) files = false.
Proof.
  induction files as [|f r IH]; [left; now exists []|].
  cbn [frames_of forallb]. unfold readable at 1.
  destruct (read_csv env f) as [df|e]; [|now right].
  destruct IH as [[frames ->]|Hr]; [left; now eexists | now right].
Qed.

(** How [load_and_concat] ends: with a frame, every file read and no
    error logged, or with an error, the files read being the first ones
    of the list; never with [SystemExit]. *)
Lemma load_and_concat_outcome env files :
  (exists df tr,
     load_and_concat env files = (Done df, tr)
     /\ reads tr = files /\ existsb is_error tr = false)
  \/ (exists e tr n,
        load_and_concat env files = (Raised e, tr)
        /\ reads tr = firstn n files).
Proof.
  destruct (frames_of_cases env files) as [[frames Hfr]|Hbad].
  - destruct (load_loop_frames env files frames [] Hfr)
      as (tr & Hloop & Hreads & Herr & _).
    assert (Hall : reads tr = firstn (List.length files) files)
      by now rewrite firstn_all.
    unfold load_and_concat. rewrite (bind_done _ _ _ _ Hloop). cbn [app].
    destruct frames as [|d [|d' rest]].
    + right. eexists. exists tr, (List.length files).
      cbn [raise fst snd]. rewrite app_nil_r. now split.
    + left. exists d, tr. cbn [ret fst snd]. rewrite app_nil_r. now split.
    + rewrite bind_log. cbn [fst snd].
      assert (Hr : reads (tr ++ EvLog INFO "Concatenating %d files"
                                  [AInt (Z.of_nat
                                           (List.length (d :: d' :: rest)))]
                             :: snd (lift (pd_concat env (d :: d' :: rest))))
                   = reads tr).
      { rewrite reads_app. cbn [reads].
        destruct (pd_concat env (d :: d' :: rest)); cbn [lift ret raise snd];
          apply app_nil_r. }
      assert (He : existsb is_error
                     (tr ++ EvLog INFO "Concatenating %d files"
                                  [AInt (Z.of_nat
                                           (List.length (d :: d' :: rest)))]
                         :: snd (lift (pd_concat env (d :: d' :: rest))))
                   = false).
      { rewrite existsb_app, Herr.
        now destruct (pd_concat env (d :: d' :: rest)). }
      destruct (pd_concat env (d :: d' :: rest)) as [df|e] eqn:Hcat.
      * left. eexists. eexists. split; [reflexivity|].
        split; [now rewrite Hr | exact He].
      * right. eexists. eexists. exists (List.length files).
        split; [reflexivity | now rewrite Hr].
  - destruct (forallb_first_failure _ _ Hbad)
      as (good & bad & rest & -> & Hgood & Hunread).
    unfold readable in Hunread.
    destruct (read_csv env bad) as [|e] eqn:Hread; [discriminate|].
    destruct (load_loop_fails env good bad rest e Hgood Hread [])
      as (tr & Hrun & Hreads).
    right. exists e, tr, (List.length good + 1). split.
    + unfold load_and_concat. now rewrite Hrun.
    + now rewrite firstn_app_2.
Qed.

Lemma processing_no_exit env args df : no_exit (processing env args df).
Proof.
  unfold no_exit, processing, run_process. intros c.
  rewrite process_dataframe_steps.
  pose proof (trim_strings_outcome true
                (labelled (normalize_rename_map (rename_map_of args)) df))
    as Htrim.
  destruct (fst (trim_strings true _)); [discriminate | discriminate |].
  contradiction.
Qed.

(** Lines 280-287. *)
Lemma export_run env out path :
  (try_except
     (export_to_excel env out path)
     (fun e => log ERROR "Export failed: %s" [AExc e] ;; sys_exit 5) ;;
   log INFO "All done. Output: %s" [AStr path])
  = (match to_excel env out path with
     | Returns _ => Done tt
     | Raises _ => Exited 5
     end, export_trace env out path).
Proof.
  unfold export_to_excel, export_trace, try_except, bind, write, log, raise,
    sys_exit.
  simpl. destruct (to_excel env out path); reflexivity.
Qed.

(** [main] from the loaded frame on. *)
Lemma after_load_run env args df :
  after_load env args (rename_map_of args) df
  = (match fst (processing env args df) with
     | Done out =>
         match to_excel env out (args_output args) with
         | Returns _ => Done tt
         | Raises _ => Exited 5
         end
     | Raised _ => Exited 4
     | Exited c => Exited c
     end,
     snd (resolve_date_cols (explicit_date_cols args) df)
     ++ snd (processing env args df)
     ++ match fst (processing env args df) with
        | Done out => export_trace env out (args_output args)
        | Raised e => [EvLog ERROR "Processing failed: %s" [AExc e]]
        | Exited _ => []
        end)%list.
Proof.
  unfold after_load.
  rewrite (bind_fst_done _ _ _ (date_cols_of_done args df)).
  change (run_process env args (rename_map_of args) (date_cols_of args df) df)
    with (processing env args df).
  destruct (processing env args df) as [[out|e|c] tp].
  - rewrite (bind_done _ _ out tp) by reflexivity.
    rewrite export_run. reflexivity.
  - reflexivity.
  - cbn [fst snd]. unfold try_except, bind. cbn [fst snd].
    now rewrite app_nil_r.
Qed.

Lemma main_paths_ok_run env args :
  paths_ok env args ->
  main env args
  = (fst (bind (load env args) (after_load env args (rename_map_of args))),
     snd (parse_rename_arg (args_rename args))
     ++ snd (bind (load env args)
                  (after_load env args (rename_map_of args))))%list.
Proof.
  intros Hpaths. unfold main.
  rewrite (check_paths_ok env args Hpaths), bind_ret.
  rewrite (bind_fst_done _ _ _ (rename_map_of_done args)). reflexivity.
Qed.

Lemma main_loaded_run env args df :
  paths_ok env args ->
  fst (load_and_concat env (args_input args)) = Done df ->
  main env args
  = (fst (after_load env args (rename_map_of args) df),
     snd (parse_rename_arg (args_rename args))
     ++ snd (load_and_concat env (args_input args))
     ++ snd (after_load env args (rename_map_of args) df))%list.
Proof.
  intros Hpaths Hload. rewrite (main_paths_ok_run env args Hpaths).
  unfold load. rewrite (try_except_done _ _ df Hload).
  now rewrite (bind_fst_done _ _ _ Hload).
Qed.

Lemma main_load_failed_run env args e :
  paths_ok env args ->
  fst (load_and_concat env (args_input args)) = Raised e ->
  main env args
  = (Exited 3,
     snd (parse_rename_arg (args_rename args))
     ++ snd (load_and_concat env (args_input args))
     ++ [EvLog ERROR "Could not load input CSV(s): %s" [AExc e]])%list.
Proof.
  intros Hpaths Hload. rewrite (main_paths_ok_run env args Hpaths).
  unfold load, try_except. rewrite Hload. reflexivity.
Qed.

Lemma paths_cases env args :
  inputs_exist env args = false
  \/ (inputs_exist env args = true /\ extension_ok env args = false)
  \/ paths_ok env args.
Proof.
  unfold paths_ok.
  destruct (inputs_exist env args), (extension_ok env args); auto.
Qed.

End MainRuns.

Section MainProperties.
Import Py Pandas Sys DataPrep Spec Table.

(** From the checks on, with [Path.exists] answering: a run either goes
    through (the checks pass, the files load, the frame is processed, the
    spreadsheet is written) and returns, or fails in one of the five
    classes and leaves through [sys.exit] with the code of that class. *)
Lemma main_classes env args :
  (succeeds env args /\ fst (main env args) = Done tt)
  \/ (exists c,
        fails env args c /\ fst (main env args) = Exited (exit_code c)).
Proof.
  destruct (paths_cases env args) as [Hin|[[Hin Hext]|Hpaths]].
  - right. exists MissingInput. split; [exact Hin|].
    destruct (check_paths_missing env args Hin) as (f & Hrun).
    unfold main. now rewrite Hrun.
  - right. exists WrongExtension. split; [now split|].
    unfold main. now rewrite (check_paths_extension env args Hin Hext).
  - destruct (load_and_concat_outcome env (args_input args))
      as [(df & tr & Hrun & _)|(e & tr & n & Hrun & _)].
    + assert (Hload : fst (load_and_concat env (args_input args)) = Done df)
        by now rewrite Hrun.
      rewrite (main_loaded_run env args df Hpaths Hload), after_load_run.
      cbn [fst].
      destruct (fst (processing env args df)) as [out|e|c] eqn:Hproc.
      * destruct (to_excel env out (args_output args)) as [[]|e] eqn:Hexp.
        -- left. split; [|reflexivity]. split; [exact Hpaths|].
           now exists df, out.
        -- right. exists ExportFailure. split; [|reflexivity].
           split; [exact Hpaths|]. now exists df, out, e.
      * right. exists ProcessingFailure. split; [|reflexivity].
        split; [exact Hpaths|]. now exists df, e.
      * exfalso. now apply (processing_no_exit env args df c).
    + assert (Hload : fst (load_and_concat env (args_input args)) = Raised e)
        by now rewrite Hrun.
      right. exists LoadFailure. split.
      * split; [exact Hpaths|]. now exists e.
      * now rewrite (main_load_failed_run env args e Hpaths Hload).
Qed.

(** X15: a run hands a frame to [to_excel] at most once, and only after
    the checks have passed and the load and the processing have
    returned; the frame is the one [process_dataframe] returned and the
    path is the output path. A run that fails before the export writes
    nothing. *)
Theorem main_writes_once env args :
  writes (snd (main env args))
  = if inputs_exist env args && extension_ok env args
    then match fst (load_and_concat env (args_input args)) with
         | Done df =>
             match fst (processing env args df) with
             | Done out => [EvToExcel (args_output args) out]
             | _ => []
             end
         | _ => []
         end
    else [].
Proof.
  destruct (paths_cases env args) as [Hin|[[Hin Hext]|Hpaths]].
  - rewrite Hin. destruct (check_paths_missing env args Hin) as (f & Hrun).
    unfold main. now rewrite Hrun.
  - rewrite Hin, Hext. unfold main.
    now rewrite (check_paths_extension env args Hin Hext).
  - pose proof (never_writes _ (calm_parse_rename_arg is_write
                                  (args_rename args) calm_is_write)) as Wp.
    pose proof (never_writes _ (load_and_concat_never_writes
                                  env (args_input args))) as Wl.
    pose proof Hpaths as [Hin Hext]. rewrite Hin, Hext. cbn [andb].
    destruct (fst (load_and_concat env (args_input args))) as [df|e|c]
      eqn:Hload.
    + rewrite (main_loaded_run env args df Hpaths Hload), after_load_run.
      cbn [snd]. rewrite !writes_app, Wp, Wl.
      rewrite (never_writes _ (calm_resolve_date_cols is_write _ df
                                 calm_is_write)).
      rewrite (never_writes _ (calm_processing is_write env args df
                                 calm_is_write)).
      cbn [app]. destruct (fst (processing env args df)); try reflexivity.
      unfold export_trace. now destruct (to_excel env a (args_output args)).
    + rewrite (main_load_failed_run env args e Hpaths Hload).
      cbn [snd]. now rewrite !writes_app, Wp, Wl.
    + destruct (load_and_concat_outcome env (args_input args))
        as [(df & tr & Hrun & _)|(e & tr & n & Hrun & _)];
        rewrite Hrun in Hload; discriminate.
Qed.

(** X16: the files a run reads are the first ones of the input list, in
    the order of the list, each read once; nothing is read when a check
    fails, and every input is read when the load returns. *)
Theorem main_reads_inputs_in_order env args :
  (exists n, reads (snd (main env args)) = firstn n (args_input args))
  /\ reads (snd (main env args))
     = if inputs_exist env args && extension_ok env args
       then match fst (load_and_concat env (args_input args)) with
            | Done _ => args_input args
            | _ => reads (snd (load_and_concat env (args_input args)))
            end
       else [].
Proof.
  destruct (paths_cases env args) as [Hin|[[Hin Hext]|Hpaths]].
  - rewrite Hin. destruct (check_paths_missing env args Hin) as (f & Hrun).
    unfold main. rewrite Hrun. split; [now exists 0 | reflexivity].
  - rewrite Hin, Hext. unfold main.
    rewrite (check_paths_extension env args Hin Hext).
    split; [now exists 0 | reflexivity].
  - pose proof (never_reads _ (calm_parse_rename_arg is_read
                                 (args_rename args) calm_is_read)) as Rp.
    pose proof Hpaths as [Hin Hext]. rewrite Hin, Hext. cbn [andb].
    destruct (load_and_concat_outcome env (args_input args))
      as [(df & tr & Hrun & Hreads & _)|(e & tr & n & Hrun & Hreads)].
    + assert (Hload : fst (load_and_concat env (args_input args)) = Done df)
        by now rewrite Hrun.
      rewrite (main_loaded_run env args df Hpaths Hload), after_load_run.
      rewrite Hrun. cbn [fst snd]. rewrite !reads_app, Rp, Hreads.
      rewrite (never_reads _ (calm_resolve_date_cols is_read _ df
                                calm_is_read)).
      rewrite (never_reads _ (calm_processing is_read env args df
                                calm_is_read)).
      assert (Hrest : reads match fst (processing env args df) with
                            | Done out =>
                                export_trace env out (args_output args)
                            | Raised e =>
                                [EvLog ERROR "Processing failed: %s" [AExc e]]
                            | Exited _ => []
                            end = []).
      { destruct (fst (processing env args df)); try reflexivity.
        unfold export_trace.
        now destruct (to_excel env a (args_output args)). }
      rewrite Hrest. cbn [app]. rewrite app_nil_r.
      split; [|reflexivity].
      exists (List.length (args_input args)). now rewrite firstn_all.
    + assert (Hload : fst (load_and_concat env (args_input args)) = Raised e)
        by now rewrite Hrun.
      rewrite (main_load_failed_run env args e Hpaths Hload).
      rewrite Hrun. cbn [fst snd]. rewrite !reads_app, Rp, Hreads.
      cbn [reads app]. rewrite app_nil_r.
      split; [now exists n | reflexivity].
Qed.

(** From the checks on, with [Path.exists] answering: the exit status is
    0 exactly when the trace holds no ERROR record, and exactly when the
    last event of the trace is the record [All done. Output: ...] with
    the output path. *)
Lemma main_error_final env args :
  (exit_status (main env args) = 0%Z
   <-> existsb is_error (snd (main env args)) = false)
  /\ (exit_status (main env args) = 0%Z
      <-> final (snd (main env args))
          = Some (EvLog INFO "All done. Output: %s"
                        [AStr (args_output args)])).
Proof.
  destruct (paths_cases env args) as [Hin|[[Hin Hext]|Hpaths]].
  - destruct (check_paths_missing env args Hin) as (f & Hrun).
    unfold main. rewrite Hrun. split; split; discriminate.
  - unfold main. rewrite (check_paths_extension env args Hin Hext).
    split; split; discriminate.
  - pose proof (calm_parse_rename_arg is_error (args_rename args)
                  calm_is_error) as Ep.
    unfold never in Ep.
    destruct (load_and_concat_outcome env (args_input args))
      as [(df & tr & Hrun & _ & Herr)|(e & tr & n & Hrun & _)].
    + assert (Hload : fst (load_and_concat env (args_input args)) = Done df)
        by now rewrite Hrun.
      rewrite (main_loaded_run env args df Hpaths Hload), after_load_run.
      rewrite Hrun. unfold exit_status. cbn [fst snd].
      pose proof (calm_resolve_date_cols is_error (explicit_date_cols args)
                    df calm_is_error) as Er.
      pose proof (calm_processing is_error env args df calm_is_error) as Eq.
      unfold never in Er, Eq.
      rewrite !existsb_app, Ep, Herr, Er, Eq. cbn [orb].
      rewrite !app_assoc.
      destruct (fst (processing env args df)) as [out|e|c] eqn:Hproc.
      * unfold export_trace.
        destruct (to_excel env out (args_output args)) as [u|e];
          cbn [app]; rewrite final_app; split; split; try reflexivity;
          discriminate.
      * rewrite final_app. split; split; discriminate.
      * exfalso. now apply (processing_no_exit env args df c).
    + assert (Hload : fst (load_and_concat env (args_input args)) = Raised e)
        by now rewrite Hrun.
      rewrite (main_load_failed_run env args e Hpaths Hload).
      unfold exit_status. cbn [fst snd].
      rewrite !existsb_app, !app_assoc, final_app. cbn [existsb is_error].
      rewrite !orb_true_r. split; split; discriminate.
Qed.

(** X18: a run that fails ends its trace with the ERROR record of the
    stage that failed: the missing input, the extension, the load, the
    processing or the export; the two path checks, which share exit code
    2, leave different records. *)
Theorem main_names_failed_stage env args c :
  fails env args c ->
  exists a,
    final (snd (main env args)) = Some (EvLog ERROR (error_format c) a).
Proof.
  destruct c; unfold fails.
  - intros Hin. destruct (check_paths_missing env args Hin) as (f & Hrun).
    unfold main. rewrite Hrun. now eexists.
  - intros [Hin Hext]. unfold main.
    rewrite (check_paths_extension env args Hin Hext). now eexists.
  - intros (Hpaths & e & Hload).
    rewrite (main_load_failed_run env args e Hpaths Hload). cbn [snd].
    rewrite !app_assoc, final_app. now eexists.
  - intros (Hpaths & df & e & Hload & Hproc).
    rewrite (main_loaded_run env args df Hpaths Hload), after_load_run.
    cbn [snd]. rewrite Hproc, !app_assoc, final_app. now eexists.
  - intros (Hpaths & df & out & e & Hload & Hproc & Hexp).
    rewrite (main_loaded_run env args df Hpaths Hload), after_load_run.
    cbn [snd]. rewrite Hproc. unfold export_trace. rewrite Hexp.
    cbn [app]. rewrite !app_assoc, final_app. now eexists.
Qed.

(** The file of flags is loaded and fails in processing. *)
Lemma main_names_failed_stage_witness :
  exists a,
    final (snd (main Sample.env (Sample.args ["flags.csv"] "out.xlsx")))
    = Some (EvLog ERROR (error_format ProcessingFailure) a).
Proof.
  apply (main_names_failed_stage
           Sample.env (Sample.args ["flags.csv"] "out.xlsx")
           ProcessingFailure).
  split; [split; reflexivity|].
  exists Sample.flags, accessor_error. split; reflexivity.
Defined.

End MainProperties.

(* ===================================================================== *)
(** ** Edges: the first missing input, detected dates, equal headers      *)
(* ===================================================================== *)

Section Edges.
Import Py Pandas Sys DataPrep Spec Table.

Lemma check_inputs_first_missing env good bad rest :
  forallb (path_exists env) good = true -> path_exists env bad = false ->
  for_each (good ++ bad :: rest) tt (fun _ f =>
    if negb (path_exists env f)
    then log ERROR "Input file does not exist: %s" [AStr f] ;; sys_exit 2
    else ret tt)
  = (Exited 2, [EvLog ERROR "Input file does not exist: %s" [AStr bad]]).
Proof.
  intros Hgood Hbad. induction good as [|f r IH].
  - cbn [app for_each]. now rewrite Hbad.
  - cbn [forallb] in Hgood. apply andb_true_iff in Hgood as [Hf Hr].
    cbn [app for_each]. rewrite Hf. cbn [negb]. rewrite bind_ret.
    now apply IH.
Qed.

(** A name is among the normalised detected names exactly when it holds
    one of the four words. *)
Lemma mem_detected (df : DataFrame) l :
  In l (columns df) ->
  mem (normalize_col_name l)
      (map normalize_col_name (auto_detect_date_cols df))
  = names_a_date (normalize_col_name l).
Proof.
  intros Hl. rewrite auto_detect_date_cols_filter.
  assert (Hword : forall x,
            date_like x = names_a_date (normalize_col_name x)).
  { intros x. rewrite date_like_normalized.
    destruct (normalize_col_name_shape x) as (Hlow & _). cbv zeta in Hlow.
    unfold lower_case in Hlow. now rewrite Hlow. }
  destruct (names_a_date (normalize_col_name l)) eqn:Hdate.
  - apply mem_In, in_map, filter_In. split; [exact Hl|].
    now rewrite Hword.
  - destruct (mem _ _) eqn:Hmem; [|reflexivity].
    apply mem_In, in_map_iff in Hmem as (x & Hx & Hin).
    apply filter_In in Hin as [_ Hlike].
    rewrite Hword, Hx in Hlike. congruence.
Qed.

End Edges.

Section EdgeProperties.
Import Py Pandas Sys DataPrep Spec Table.

(** X19: when an input path does not exist, [main] reports the first
    such path of the list, and only that one, and exits with code 2;
    the paths before it exist, those after it are not looked at. *)
Theorem main_reports_first_missing_input env args :
  inputs_exist env args = false ->
  exists good bad rest,
    args_input args = (good ++ bad :: rest)%list
    /\ forallb (path_exists env) good = true
    /\ path_exists env bad = false
    /\ main env args
       = (Exited 2,
          [EvLog ERROR "Input file does not exist: %s" [AStr bad]]).
Proof.
  intros Hin. unfold inputs_exist in Hin.
  destruct (forallb_first_failure _ _ Hin)
    as (good & bad & rest & Hfiles & Hgood & Hbad).
  exists good, bad, rest. repeat split; try assumption.
  unfold main, check_paths. rewrite Hfiles.
  now rewrite (check_inputs_first_missing env good bad rest Hgood Hbad).
Qed.

Lemma main_reports_first_missing_input_witness :
  exists good bad rest,
    ["jan.csv"; "nope.csv"; "gone.csv"] = (good ++ bad :: rest)%list
    /\ forallb (path_exists Sample.env) good = true
    /\ path_exists Sample.env bad = false
    /\ main Sample.env
            (Sample.args ["jan.csv"; "nope.csv"; "gone.csv"] "out.xlsx")
       = (Exited 2,
          [EvLog ERROR "Input file does not exist: %s" [AStr bad]]).
Proof.
  apply (main_reports_first_missing_input Sample.env
           (Sample.args ["jan.csv"; "nope.csv"; "gone.csv"] "out.xlsx")).
  reflexivity.
Defined.

(** X20: detection and coercion fit together. On the normalised frame,
    when its labels are distinct, [try_parse_dates] with the normalised
    auto-detected names converts exactly the columns whose name holds
    [date], [time], [created] or [updated], keeps every other column, and
    leaves one INFO record for each detected name and no warning. *)
Theorem auto_detected_columns_are_parsed env df :
  let d := relabel normalize_col_name df in
  let cols := map normalize_col_name (auto_detect_date_cols df) in
  NoDup (columns d) ->
  try_parse_dates env d cols
  = (Done (map (fun s => if names_a_date (label s)
                         then to_datetime_column env s else s) d),
     map parsed_record cols).
Proof.
  intros d cols Hnd. rewrite try_parse_dates_run, try_parse_dates_exact.
  f_equal.
  - f_equal. apply map_ext_in. intros s Hs.
    rewrite (converted_unique d cols s Hnd Hs).
    subst d. unfold relabel in Hs. apply in_map_iff in Hs as (x & <- & Hx).
    cbn [label]. subst cols. rewrite mem_detected; [reflexivity|].
    now apply in_map.
  - apply map_ext_in. intros c Hc. unfold date_record, parsed_record.
    assert (Hin : In c (columns d)).
    { subst cols. rewrite auto_detect_date_cols_filter in Hc.
      apply in_map_iff in Hc as (x & <- & Hx).
      apply filter_In in Hx as [Hx _].
      subst d. rewrite columns_relabel. now apply in_map. }
    pose proof Hin as Hmem. apply mem_In in Hmem. rewrite Hmem. cbn [negb].
    unfold columns in Hin. apply in_map_iff in Hin as (s & <- & Hs).
    now rewrite (count_label_NoDup d s Hnd Hs).
Qed.

(** The January file: [Sale-Date] is detected and converted. *)
Lemma auto_detected_columns_are_parsed_witness :
  try_parse_dates Sample.env (relabel normalize_col_name Sample.sales_jan)
    (map normalize_col_name (auto_detect_date_cols Sample.sales_jan))
  = (Done (map (fun s => if names_a_date (label s)
                         then to_datetime_column Sample.env s else s)
               (relabel normalize_col_name Sample.sales_jan)),
     map parsed_record
         (map normalize_col_name (auto_detect_date_cols Sample.sales_jan))).
Proof.
  apply (auto_detected_columns_are_parsed Sample.env Sample.sales_jan).
  repeat constructor; simpl; intuition discriminate.
Defined.

(** X21: when two text columns have the same name once the headers are
    normalised and renamed, step 3 raises and [process_dataframe] fails
    with that error, an [AttributeError] or a [ValueError]. *)
Theorem equal_text_headers_fail env df date_cols rename_map fillna_value
        dropna_any dropna_thresh :
  nodupb (columns (select_dtypes_object (labelled rename_map df))) = false ->
  exists e,
    fst (process_dataframe env df date_cols rename_map fillna_value
                           dropna_any dropna_thresh true)
    = Raised e
    /\ (exc_type e = "AttributeError" \/ exc_type e = "ValueError").
Proof.
  intros Hdup. rewrite process_dataframe_steps.
  set (d := labelled rename_map df) in *.
  assert (Hrun : exists e, fst (trim_strings true d) = Raised e
                           /\ (exc_type e = "AttributeError"
                               \/ exc_type e = "ValueError")).
  { unfold trim_strings.
    destruct (columns (select_dtypes_object d)) as [|c r] eqn:Hcols;
      [discriminate|].
    cbn [List.length Nat.ltb Nat.leb].
    destruct (apply str_strip (getitem_list d (c :: r))) as [st|e] eqn:Happly.
    - cbn [lift]. rewrite bind_ret. unfold setitem_list. rewrite Hdup.
      cbn [andb lift]. eexists. split; [reflexivity | now right].
    - apply apply_str_strip_error in Happly. subst e.
      eexists. split; [reflexivity | now left]. }
  destruct Hrun as (e & -> & He). now exists e.
Qed.

(** The headers [Name] and [name ] both become [name]. *)
Lemma equal_text_headers_fail_witness :
  exists e,
    fst (process_dataframe Sample.env same_name_twice [] [] None false None
                           true)
    = Raised e
    /\ (exc_type e = "AttributeError" \/ exc_type e = "ValueError").
Proof.
  apply (equal_text_headers_fail Sample.env same_name_twice [] [] None false
           None).
  reflexivity.
Defined.

End EdgeProperties.

(* ===================================================================== *)
(** ** The script: [argparse], [Path.exists] and [main]                   *)
(* ===================================================================== *)

Section ScriptRuns.
Import Py Pandas Sys DataPrep Spec Table.

(** The loop of lines 230-233 when [Path.exists] raises. *)
Lemma script_loop_escape h e files :
  Script.first_stat_error h files = Some e ->
  for_each files tt (fun _ f =>
    found <- Script.path_exists h f ;;
    if negb found
    then log ERROR "Input file does not exist: %s" [AStr f] ;; sys_exit 2
    else ret tt)
  = (Raised e, []).
Proof.
  induction files as [|f r IH]; [discriminate|].
  cbn [Script.first_stat_error for_each]. unfold Script.path_exists at 1.
  destruct (Script.stat_error h f) as [e'|]; [now intros [= <-]|].
  destruct (path_exists (Script.host_env h) f); [|discriminate].
  intros Hr. rewrite bind_ret. cbn [negb]. rewrite bind_ret.
  now apply IH.
Qed.

(** The same loop when [Path.exists] answers as far as the loop goes:
    it is the loop of [check_paths]. *)
Lemma script_loop_answers h files :
  Script.first_stat_error h files = None ->
  for_each files tt (fun _ f =>
    found <- Script.path_exists h f ;;
    if negb found
    then log ERROR "Input file does not exist: %s" [AStr f] ;; sys_exit 2
    else ret tt)
  = for_each files tt (fun _ f =>
      if negb (path_exists (Script.host_env h) f)
      then log ERROR "Input file does not exist: %s" [AStr f] ;; sys_exit 2
      else ret tt).
Proof.
  induction files as [|f r IH]; [reflexivity|].
  cbn [Script.first_stat_error for_each]. unfold Script.path_exists at 1.
  destruct (Script.stat_error h f) as [e'|]; [discriminate|].
  rewrite bind_ret.
  destruct (path_exists (Script.host_env h) f); cbn [negb].
  - intros Hr. rewrite !bind_ret. now apply IH.
  - reflexivity.
Qed.

Lemma script_main_escape h argv args e :
  Script.argparse h argv = Script.Parsed args ->
  Script.first_stat_error h (args_input args) = Some e ->
  Script.main h argv = (Raised e, []).
Proof.
  intros Hp He. unfold Script.main, Script.parse_args, Script.check_paths.
  rewrite Hp, bind_ret. now rewrite (script_loop_escape h e _ He).
Qed.

Lemma script_main_answers h argv args :
  Script.argparse h argv = Script.Parsed args ->
  Script.first_stat_error h (args_input args) = None ->
  Script.main h argv = main (Script.host_env h) args.
Proof.
  intros Hp He. unfold Script.main, Script.parse_args, Script.check_paths.
  rewrite Hp, bind_ret. now rewrite (script_loop_answers h _ He).
Qed.

Lemma script_main_stopped h argv :
  (Script.argparse h argv = Script.HelpShown ->
   Script.main h argv = (Exited 0, []))
  /\ (Script.argparse h argv = Script.UsageError ->
      Script.main h argv = (Exited 2, [])).
Proof.
  unfold Script.main, Script.parse_args. split; now intros ->.
Qed.

Lemma exit_code_nonzero c : exit_code c <> 0%Z.
Proof. now destruct c. Qed.

End ScriptRuns.

Section ScriptProperties.
Import Py Pandas Sys DataPrep Spec Table.

(** X14: a run of the script ends in one of these ways. [argparse]
    leaves before [main] does anything, with status 0 after [--help] and
    status 2 after a usage error. [Path.exists] raises for an input
    before a missing one is found, and its [OSError] escapes [main]:
    nothing is logged, read or written, and the status is 1. Otherwise
    the run is the run of [main] on the parsed arguments, which goes
    through (the checks pass, the files load, the frame is processed,
    the spreadsheet is written) and returns, or fails in one of the five
    classes and leaves through [sys.exit] with the code of the class. No
    other exception escapes [main]. *)
Theorem script_outcomes h argv :
  match Script.argparse h argv with
  | Script.HelpShown => Script.main h argv = (Exited 0, [])
  | Script.UsageError => Script.main h argv = (Exited 2, [])
  | Script.Parsed args =>
      match Script.first_stat_error h (args_input args) with
      | Some e =>
          Script.main h argv = (Raised e, [])
          /\ exit_status (Script.main h argv) = 1%Z
      | None =>
          Script.main h argv = main (Script.host_env h) args
          /\ ((succeeds (Script.host_env h) args
               /\ fst (Script.main h argv) = Done tt)
              \/ (exists c,
                    fails (Script.host_env h) args c
                    /\ fst (Script.main h argv) = Exited (exit_code c)))
      end
  end.
Proof.
  destruct (Script.argparse h argv) as [args| |] eqn:Hp.
  - destruct (Script.first_stat_error h (args_input args)) as [e|] eqn:He.
    + rewrite (script_main_escape h argv args e Hp He). now split.
    + rewrite (script_main_answers h argv args Hp He).
      split; [reflexivity | apply main_classes].
  - now apply script_main_stopped.
  - now apply script_main_stopped.
Qed.

(** X17: the script returns exactly when the last event of its trace is
    the record [All done. Output: ...] with the output path of the
    parsed arguments; its trace holds no ERROR record exactly when it
    returns or leaves no trace at all (which is what happens when
    [argparse] stops it or [Path.exists] raises); its exit status is 0
    exactly when it returns or [argparse] has shown the help. So a
    status other than 0 comes with an ERROR record in every run that
    leaves a trace, and without one in the runs that a usage error or an
    escaping [OSError] ends. *)
Theorem script_records h argv :
  (fst (Script.main h argv) = Done tt
   <-> exists args,
         Script.argparse h argv = Script.Parsed args
         /\ final (snd (Script.main h argv))
            = Some (EvLog INFO "All done. Output: %s"
                          [AStr (args_output args)]))
  /\ (existsb is_error (snd (Script.main h argv)) = false
      <-> fst (Script.main h argv) = Done tt
          \/ snd (Script.main h argv) = [])
  /\ (exit_status (Script.main h argv) = 0%Z
      <-> fst (Script.main h argv) = Done tt
          \/ Script.argparse h argv = Script.HelpShown).
Proof.
  destruct (Script.argparse h argv) as [args| |] eqn:Hp.
  - destruct (Script.first_stat_error h (args_input args)) as [e|] eqn:He.
    + rewrite (script_main_escape h argv args e Hp He).
      cbn [fst snd exit_status existsb]. split; [|split].
      * split; [discriminate|]. intros (a & _ & H). discriminate H.
      * split; [now right | reflexivity].
      * split; [discriminate | intros [H|H]; discriminate H].
    + rewrite (script_main_answers h argv args Hp He).
      destruct (main_error_final (Script.host_env h) args) as [Herr Hfin].
      assert (Hdone : exit_status (main (Script.host_env h) args) = 0%Z
                      <-> fst (main (Script.host_env h) args) = Done tt).
      { destruct (main_classes (Script.host_env h) args)
          as [[_ H]|(c & _ & H)]; unfold exit_status; rewrite H.
        - tauto.
        - pose proof (exit_code_nonzero c). split; [contradiction|].
          discriminate. }
      split; [|split].
      * rewrite <- Hdone, Hfin. split.
        -- intros H. now exists args.
        -- intros (a & [= <-] & H). exact H.
      * rewrite <- Herr, Hdone. split; [now left|].
        intros [H|H]; [exact H|].
        apply Hdone, Herr. now rewrite H.
      * rewrite Hdone. split; [now left | intros [H|H]; [exact H|]].
        discriminate H.
  - destruct (script_main_stopped h argv) as [Hhelp _].
    rewrite (Hhelp Hp). cbn [fst snd exit_status existsb]. split; [|split].
    + split; [discriminate|]. intros (a & H & _). discriminate H.
    + split; [now right | reflexivity].
    + split; [now right | reflexivity].
  - destruct (script_main_stopped h argv) as [_ Husage].
    rewrite (Husage Hp). cbn [fst snd exit_status existsb]. split; [|split].
    + split; [discriminate|]. intros (a & H & _). discriminate H.
    + split; [now right | reflexivity].
    + split; [discriminate | intros [H|H]; discriminate H].
Qed.

(** The four ways on the sample host. *)
Example script_sample_runs :
  Script.main Script.sample ["--help"] = (Exited 0, [])
  /\ Script.main Script.sample ["-i"; "jan.csv"] = (Exited 2, [])
  /\ Script.main Script.sample ["-i"; "/locked/a.csv"; "-o"; "out.xlsx"]
     = (Raised (mkExc "PermissionError" "Permission denied"), [])
  /\ fst (Script.main Script.sample ["-i"; "jan.csv"; "-o"; "out.xlsx"])
     = Done tt
  /\ fst (Script.main Script.sample ["-i"; "nope.csv"; "-o"; "out.xlsx"])
     = Exited 2.
Proof. repeat split. Qed.

End ScriptProperties.
